(** * GATMobilityAnalysis: the ST-GAT forecasting model and its grid-search driver

    A shallow embedding of the Python sources

      - [src/models/st_gat.py]                 (tensor shapes of the forward pass)
      - [src/models/hyperparameter_search.py]  (the expanding-window driver)
      - [src/run.py]                           (the train-or-load branch)
      - [src/visualizations/predictions.py]    (the day-aligned slicing)

    Python floats are IEEE 754 binary64 numbers; they are modelled by Rocq's
    primitive floats, which are the same format with the same rounding, so
    [0.7 * 90] evaluates here to what it evaluates to in Python. *)

From Stdlib Require Import ZArith List Bool String Ascii Lia.
From Stdlib Require Import Floats Uint63.
From Stdlib Require Import ZifyNat.
Import ListNotations.

Set Warnings "-inexact-float".

Local Open Scope Z_scope.

(* ================================================================== *)
(** ** Tensor shapes (torch.Size) and the shape contracts of the
       library operators that [ST_GAT.forward] calls *)
(* ================================================================== *)

Module Shape.

(** A [torch.Size]: the list of dimension sizes, outermost first. *)
Definition shape := list Z.

Definition numel (s : shape) : Z := fold_right Z.mul 1 s.

(** [torch.reshape] / [Tensor.view] with a target that may hold one [-1].
    The inferred dimension must be unambiguous: the product of the given
    dimensions must be non-zero and divide the number of elements.  Without
    [-1] the products must agree.  Any other negative size is refused. *)
Definition reshape (s : shape) (target : list Z) : option shape :=
  let given := filter (fun d => negb (d =? -1)) target in
  if existsb (fun d => d <? 0) given then None
  else
    match (List.length target - List.length given)%nat with
    | O => if numel given =? numel s then Some target else None
    | S O =>
        let p := numel given in
        if p =? 0 then None
        else if numel s mod p =? 0
             then Some (map (fun d => if d =? -1 then numel s / p else d) target)
             else None
    | _ => None
    end.

(** [torch.movedim x src dst]: the dimension at [src] is taken out and put
    back at position [dst]. *)
Definition movedim (s : shape) (src dst : nat) : option shape :=
  match nth_error s src with
  | None => None
  | Some d =>
      let rest := firstn src s ++ skipn (S src) s in
      if (dst <=? List.length rest)%nat
      then Some (firstn dst rest ++ d :: skipn dst rest)
      else None
  end.

(** [torch.nn.LSTM(input_size, hidden_size, num_layers=1)] on a sequence-major
    input: (L, B, input_size) gives (L, B, hidden_size); the unbatched form
    (L, input_size) gives (L, hidden_size). *)
Definition lstm (input_size hidden_size : Z) (s : shape) : option shape :=
  match s with
  | [l; b; i] => if i =? input_size then Some [l; b; hidden_size] else None
  | [l; i] => if i =? input_size then Some [l; hidden_size] else None
  | _ => None
  end.

(** [x[-1, :, :]]: three indices, the first one selecting the last entry of
    dimension 0 (which must exist). *)
Definition select_last (s : shape) : option shape :=
  match s with
  | d0 :: d1 :: d2 :: rest => if 1 <=? d0 then Some (d1 :: d2 :: rest) else None
  | _ => None
  end.

(** [torch.squeeze x]: every dimension of size 1 is dropped. *)
Definition squeeze (s : shape) : shape := filter (fun d => negb (d =? 1)) s.

(** [torch.nn.Linear(in_features, out_features)]: acts on the last axis. *)
Definition linear (in_features out_features : Z) (s : shape) : option shape :=
  match rev s with
  | [] => None
  | i :: front =>
      if i =? in_features then Some (rev front ++ [out_features]) else None
  end.

(** [Tensor.mean(dim=1)]: dimension 1 is reduced away. *)
Definition mean_dim1 (s : shape) : option shape :=
  match s with
  | d0 :: _ :: rest => Some (d0 :: rest)
  | _ => None
  end.

(** [Tensor.size(0)]. *)
Definition size0 (s : shape) : option Z := hd_error s.

(** [F.dropout]: elementwise, the shape is kept. *)
Definition F_dropout (s : shape) : shape := s.

(** What the forward pass reads of a (batched) DGL graph.  The nodes of all
    graphs of the batch are numbered together; [in_degrees] is
    [graph.in_degrees()], the number of incoming edges of each of them.
    Every edge comes into exactly one node, so the in-degrees add up to the
    number of edges. *)
Record DGLGraph := {
  batch_size : Z;            (* graph.batch_size *)
  in_degrees : list nat;     (* graph.in_degrees() *)
  ndata_feat : shape         (* graph.ndata["feat"] *)
}.

Definition number_of_nodes (g : DGLGraph) : Z :=
  Z.of_nat (List.length (in_degrees g)).

Definition number_of_edges (g : DGLGraph) : Z :=
  Z.of_nat (list_sum (in_degrees g)).

(** [(graph.in_degrees() == 0).any()]. *)
Definition has_zero_in_degree (g : DGLGraph) : bool :=
  existsb (Nat.eqb 0) (in_degrees g).

(** [dgl.nn.GATConv(in_feats, out_feats, num_heads)] called with
    [get_attention=True] on node features (N, in_feats): the result is
    (N, num_heads, out_feats) and the attention is (E, num_heads, 1).  The
    layer is built with the default [allow_zero_in_degree=False]
    (st_gat.py, lines 10-12), so it first raises [DGLError] on a graph with
    a node that has no incoming edge.  The feature rows must be the graph's
    nodes. *)
Definition GATConv (in_feats out_feats num_heads : Z) (g : DGLGraph) (feat : shape)
  : option (shape * shape) :=
  if has_zero_in_degree g then None
  else
    match feat with
    | [n; d] =>
        if (n =? number_of_nodes g) && (d =? in_feats)
        then Some ([n; num_heads; out_feats], [number_of_edges g; num_heads; 1])
        else None
    | _ => None
    end.

(** *** class AveragedGATConv *)

Record AveragedGATConv := {
  gat_in_feats : Z;
  gat_out_feats : Z;
  gat_num_heads : Z
}.

Definition AveragedGATConv_forward (m : AveragedGATConv) (g : DGLGraph) (feat : shape)
  : option (shape * shape) :=
  match GATConv (gat_in_feats m) (gat_out_feats m) (gat_num_heads m) g feat with
  | None => None
  | Some (h, attn) =>
      match size0 h with
      | None => None
      | Some n =>
          match reshape h [n; gat_num_heads m; -1] with
          | None => None
          | Some h =>
              match mean_dim1 h with
              | None => None
              | Some h => Some (h, attn)
              end
          end
      end
  end.

(** *** class ST_GAT *)

Definition NUM_HEADS : Z := 8.

Record ST_GAT := {
  n_pred : Z;
  heads : Z;
  n_nodes : Z;
  gat : AveragedGATConv;
  lstm1_input_size : Z;
  lstm1_hidden_size : Z;
  lstm2_input_size : Z;
  lstm2_hidden_size : Z;
  linear_in : Z;
  linear_out : Z
}.

(** [ST_GAT.__init__(in_channels, out_channels, n_nodes, heads)]. *)
Definition ST_GAT_init (in_channels out_channels nodes hds : Z) : ST_GAT :=
  let lstm1_hidden := 32 in
  let lstm2_hidden := 128 in
  {| n_pred := out_channels;
     heads := hds;
     n_nodes := nodes;
     gat := {| gat_in_feats := in_channels;
               gat_out_feats := in_channels;
               gat_num_heads := hds |};
     lstm1_input_size := nodes;
     lstm1_hidden_size := lstm1_hidden;
     lstm2_input_size := lstm1_hidden;
     lstm2_hidden_size := lstm2_hidden;
     linear_in := lstm2_hidden;
     linear_out := nodes * out_channels |}.

Definition obind {A B} (o : option A) (k : A -> option B) : option B :=
  match o with
  | Some a => k a
  | None => None
  end.

Notation "x <- o ;; k" := (obind o (fun x => k))
  (at level 61, o at next level, right associativity).

(** [ST_GAT.forward(graph, device)]: the shapes of the predictions and of the
    attention tensor, or [None] where an operator refuses its input.  Copying
    the features to the device keeps their shape; a batched DGL graph has
    the attribute [batch_size]. *)
Definition ST_GAT_forward (m : ST_GAT) (graph : DGLGraph) : option (shape * shape) :=
  let x := ndata_feat graph in
  xa <- AveragedGATConv_forward (gat m) graph x ;;
  let '(x, attn) := xa in
  let x := F_dropout x in
  let batch := batch_size graph in
  let n_node := n_nodes m in
  x <- reshape x [batch; n_node; -1] ;;
  x <- movedim x 2 0 ;;
  x <- lstm (lstm1_input_size m) (lstm1_hidden_size m) x ;;
  x <- lstm (lstm2_input_size m) (lstm2_hidden_size m) x ;;
  x <- select_last x ;;
  let x := squeeze x in
  x <- linear (linear_in m) (linear_out m) x ;;
  x <- reshape x [batch; n_nodes m; n_pred m] ;;
  x <- reshape x [batch * n_nodes m; n_pred m] ;;
  Some (x, attn).

(** A mini-batch of [B] graphs whose nodes, taken together, have the
    in-degrees [degrees]; every node carries [H] features. *)
Definition batched_graph (B : Z) (degrees : list nat) (H : Z) : DGLGraph :=
  {| batch_size := B;
     in_degrees := degrees;
     ndata_feat := [Z.of_nat (List.length degrees); H] |}.

End Shape.

(* ================================================================== *)
(** ** Python values, containers and exceptions *)
(* ================================================================== *)

Module Py.

(** A hyperparameter value: a Python [int] or a Python [float]. *)
Inductive value :=
| VInt (z : Z)
| VFloat (f : float).

(** The exceptions that the embedded code can raise. *)
Inductive exn :=
| KeyError (key : string)
| IndexError
| TypeError
| AttributeError
| ValueError
| ZeroDivisionError
| RuntimeError          (* a bare [raise] with no active exception *)
| JSONDecodeError
| UnicodeDecodeError.

(** The integer that a float denotes exactly, when it denotes one. *)
Definition float_to_Z_exact (x : float) : option Z :=
  match Prim2SF x with
  | S754_zero _ => Some 0
  | S754_finite s m e =>
      if 0 <=? e then Some ((if s then -1 else 1) * (Z.pos m * 2 ^ e))
      else if Z.pos m mod 2 ^ (- e) =? 0
           then Some ((if s then -1 else 1) * (Z.pos m / 2 ^ (- e)))
           else None
  | _ => None
  end.

(** [a == b] on numbers: by value, an [int] and a [float] being equal when
    the float is that very integer; [nan] equals nothing. *)
Definition equals (a b : value) : bool :=
  match a, b with
  | VInt x, VInt y => x =? y
  | VFloat x, VFloat y => PrimFloat.eqb x y
  | VInt x, VFloat y | VFloat y, VInt x =>
      match float_to_Z_exact y with
      | Some z => x =? z
      | None => false
      end
  end.

(** [a != prev] where [prev] is [None] or a number. *)
Definition ne_opt (a : value) (prev : option value) : bool :=
  match prev with
  | None => true
  | Some b => negb (equals a b)
  end.

(** [int(x)] on a float: truncation towards zero; [inf] and [nan] raise. *)
Definition int_of_float (x : float) : option Z :=
  match Prim2SF x with
  | S754_zero _ => Some 0
  | S754_finite s m e =>
      let mag := if 0 <=? e then Z.pos m * 2 ^ e else Z.pos m / 2 ^ (- e) in
      Some (if s then - mag else mag)
  | _ => None
  end.

(** The float of a length.  [len()] lies between 0 and [sys.maxsize]
    (2^63 - 1), where the conversion is the correctly rounded one that
    [of_uint63] computes. *)
Definition float_of_len (n : Z) : float := PrimFloat.of_uint63 (Uint63.of_Z n).

(** [l[i]] on a list, negative indices counting from the end. *)
Definition getitem {A} (l : list A) (i : Z) : option A :=
  let n := Z.of_nat (List.length l) in
  if (0 <=? i) && (i <? n) then nth_error l (Z.to_nat i)
  else if (- n <=? i) && (i <? 0) then nth_error l (Z.to_nat (n + i))
  else None.

(** [range(a, b)]. *)
Definition range (a b : Z) : list Z :=
  map (fun k => a + Z.of_nat k) (seq 0 (Z.to_nat (b - a))).

(** A [dict] with string keys, in insertion order. *)
Definition dict (V : Type) := list (string * V).

Fixpoint dict_get {V} (d : dict V) (k : string) : option V :=
  match d with
  | [] => None
  | (k', v) :: rest => if String.eqb k k' then Some v else dict_get rest k
  end.

(** [d[k] = v]: an existing key keeps its place, a new one goes last. *)
Fixpoint dict_set {V} (d : dict V) (k : string) (v : V) : dict V :=
  match d with
  | [] => [(k, v)]
  | (k', v') :: rest =>
      if String.eqb k k' then (k', v) :: rest else (k', v') :: dict_set rest k v
  end.

Definition keys {V} (d : dict V) : list string := map fst d.
Definition values {V} (d : dict V) : list V := map snd d.

(** [dict(zip(ks, vs))]. *)
Definition dict_zip {V} (ks : list string) (vs : list V) : dict V :=
  fold_left (fun d kv => dict_set d (fst kv) (snd kv)) (combine ks vs) [].

(** [itertools.product] of the given lists: the rightmost list advances
    fastest. *)
Fixpoint product {A} (ls : list (list A)) : list (list A) :=
  match ls with
  | [] => [[]]
  | l :: rest => flat_map (fun x => map (cons x) (product rest)) l
  end.

#[local] Set Warnings "-register-all".

(** JSON documents as [json.load] returns them and [json.dump] takes them. *)
Inductive json :=
| JNull
| JBool (b : bool)
| JInt (z : Z)
| JFloat (f : float)
| JString (s : string)
| JList (items : list json)
| JDict (members : list (string * json)).

Definition json_of_value (v : value) : json :=
  match v with
  | VInt z => JInt z
  | VFloat f => JFloat f
  end.

End Py.

(* ================================================================== *)
(** ** The world the driver runs in, and its effects *)
(* ================================================================== *)

Module Effects.
Import Py.

(** What [print] writes. *)
Inductive message :=
| MsgTesting (current_params : dict value)
| MsgRegenerating
| MsgSizeError                    (* "ERROR: Train or validation ratios ..." *)
| MsgFold (fold : nat) (n_train : nat) (train_ratio : float)
          (n_val : nat) (val_ratio : float)
| MsgEpochError                   (* "ERROR: Epoch cannot be computed." *)
| MsgAchieved (val_mae : option float) (epochs : nat) (fold : nat).

(** Calls that leave the driver: into the dataset, model and trainer modules
    and into torch.  [grad] is torch's gradient mode at the time of the call. *)
Inductive call :=
| GetProcessedDataset (config : dict value)
| GraphDataLoader (subset : list Z) (batch_size : value)
| NewModel (in_channels out_channels n_nodes dropout : value) (device : string)
| Adam (lr weight_decay : value)
| TrainerTrain (epoch : nat) (grad : bool)
| TrainerEval (epoch : nat) (grad : bool)
| ModelToCpu
| GcCollect
| EmptyCache.

(** The content of a file, read through [json.load] from a file opened in
    text mode: either it is a JSON document, or it is text that is no JSON
    document (an empty file, for one), or it is bytes that the decoder of
    the text mode refuses. *)
Inductive file_text :=
| Text (doc : json)
| Unparsable
| Undecodable.

Record World := {
  results_json : option file_text;   (* the file "results.json"; None: absent *)
  stdout : list message;             (* oldest first *)
  calls : list call;                 (* oldest first *)
  grad_enabled : bool;               (* torch.is_grad_enabled() *)
  now : string                       (* what datetime.now() formats to *)
}.

Definition set_results_json (f : option file_text) (w : World) : World :=
  {| results_json := f; stdout := stdout w; calls := calls w;
     grad_enabled := grad_enabled w; now := now w |}.

Definition set_grad_enabled (g : bool) (w : World) : World :=
  {| results_json := results_json w; stdout := stdout w; calls := calls w;
     grad_enabled := g; now := now w |}.

Definition set_now (t : string) (w : World) : World :=
  {| results_json := results_json w; stdout := stdout w; calls := calls w;
     grad_enabled := grad_enabled w; now := t |}.

Inductive outcome (A : Type) :=
| Returned (a : A)
| Raised (e : exn).
Arguments Returned {A} a.
Arguments Raised {A} e.

(** A computation: it returns or raises, and leaves a world behind. *)
Definition M (A : Type) := World -> outcome A * World.

Definition ret {A} (a : A) : M A := fun w => (Returned a, w).

Definition raise {A} (e : exn) : M A := fun w => (Raised e, w).

Definition bind {A B} (c : M A) (k : A -> M B) : M B :=
  fun w =>
    match c w with
    | (Returned a, w') => k a w'
    | (Raised e, w') => (Raised e, w')
    end.

Notation "x <-- c ;; k" := (bind c (fun x => k))
  (at level 61, c at next level, right associativity).
Notation "c ;;; k" := (bind c (fun _ => k))
  (at level 61, right associativity).

Definition of_option {A} (e : exn) (o : option A) : M A :=
  match o with
  | Some a => ret a
  | None => raise e
  end.

Definition print (m : message) : M unit :=
  fun w => (Returned tt,
            {| results_json := results_json w; stdout := stdout w ++ [m];
               calls := calls w; grad_enabled := grad_enabled w; now := now w |}).

Definition record (c : call) : M unit :=
  fun w => (Returned tt,
            {| results_json := results_json w; stdout := stdout w;
               calls := calls w ++ [c]; grad_enabled := grad_enabled w;
               now := now w |}).

(** A call into a library that checks its arguments: the call is made, and
    it raises when the library refuses them ([refusal] is the exception). *)
Definition call_checked (c : call) (refusal : option exn) : M unit :=
  match refusal with
  | None => record c
  | Some e => record c ;;; raise e
  end.

Definition get_world : M World := fun w => (Returned w, w).

(** [with torch.no_grad(): body]: gradients off inside, the previous mode
    back on the way out, also when the body raises. *)
Definition no_grad {A} (body : M A) : M A :=
  fun w =>
    let prev := grad_enabled w in
    let '(r, w') := body (set_grad_enabled false w) in
    (r, set_grad_enabled prev w').

(** [d[k]] on a dict. *)
Definition lookup {V} (d : dict V) (k : string) : M V :=
  of_option (KeyError k) (dict_get d k).

(** [[f(x) for x in l]]. *)
Fixpoint mapM {A B} (f : A -> M B) (l : list A) : M (list B) :=
  match l with
  | [] => ret []
  | x :: rest =>
      y <-- f x ;;
      ys <-- mapM f rest ;;
      ret (y :: ys)
  end.

End Effects.

(* ================================================================== *)
(** ** src/models/hyperparameter_search.py *)
(* ================================================================== *)

Module Search.
Import Py Effects.

(** What the driver reads of the dataset that
    [dataloader.breadcrumbs_dataloader.get_processed_dataset] builds. *)
Record Dataset := {
  ds_len : Z;                       (* len(dataset) *)
  first_graph_nodes : option Z;     (* dataset.graphs[0].number_of_nodes() *)
  d_mean : value;
  d_std_dev : value
}.

(** [dataset[i]]: the graphs are numbered from 0. *)
Definition dataset_getitem (ds : Dataset) (i : Z) : option Z :=
  let n := ds_len ds in
  if (0 <=? i) && (i <? n) then Some i
  else if (- n <=? i) && (i <? 0) then Some (n + i)
  else None.

(** The best model's [state_dict]; the driver never builds one. *)
Inductive state_dict := StateDict.

(** The variables that live across the iterations of the outer loop. *)
Record Locals := {
  config : dict value;
  prev_npred : option value;
  prev_nhist : option value;
  dataset : option Dataset;
  num_graphs : option Z
}.

(** [load_previous_results()]. *)
Definition load_previous_results : M json :=
  fun w =>
    match results_json w with
    | Some (Text doc) => (Returned doc, w)
    | Some Unparsable => (Raised JSONDecodeError, w)
    | Some Undecodable => (Raised UnicodeDecodeError, w)
    | None => (Returned (JDict [("Results"%string, JList [])]), w)
    end.

(** [open("results.json", 'w')]: the file is there and empty from now on. *)
Definition open_w : M unit :=
  fun w => (Returned tt, set_results_json (Some Unparsable) w).

(** [data["Results"].append(new_data)]. *)
Definition results_append (data new_data : json) : M json :=
  match data with
  | JDict members =>
      match dict_get members "Results" with
      | Some (JList items) =>
          ret (JDict (dict_set members "Results" (JList (items ++ [new_data]))))
      | Some _ => raise AttributeError
      | None => raise (KeyError "Results")
      end
  | _ => raise TypeError
  end.

(** [json.dump(data, file, indent=4)], the file being closed right after. *)
Definition json_dump (data : json) : M unit :=
  fun w => (Returned tt, set_results_json (Some (Text data)) w).

(** Lines 143-153: one fold's record goes into the results log. *)
Definition write_fold_result (current_params : dict value) (train_ratio : float)
    (val_mae : float) : M unit :=
  data <-- load_previous_results ;;
  open_w ;;;
  w <-- get_world ;;
  let new_data :=
    JDict [("params"%string,
            JDict (map (fun kv => (fst kv, json_of_value (snd kv))) current_params));
           ("train_percent"%string, JFloat train_ratio);
           ("mae"%string, JFloat val_mae);
           ("completion_time"%string, JString (now w))] in
  data <-- results_append data new_data ;;
  json_dump data.

(** Lines 107-117: the epoch budget of a learning rate. *)
Definition epoch_budget (lr : value) : M nat :=
  if equals lr (VFloat 1e-4) then ret 100%nat
  else if equals lr (VFloat 5e-4) then ret 80%nat
  else if equals lr (VFloat 1e-3) then ret 70%nat
  else if equals lr (VFloat 5e-3) then ret 50%nat
  else print MsgEpochError ;;; raise RuntimeError.

(** The epochs at which line 124 asks for a validation run. *)
Definition validates (epochs epoch : nat) : bool :=
  (epoch mod 5 =? 0)%nat || (epoch =? epochs - 1)%nat.

(** A result record as the log holds it. *)
Definition result_record (params : dict value) (train_percent mae : float)
    (completion_time : string) : json :=
  JDict [("params"%string,
          JDict (map (fun kv => (fst kv, json_of_value (snd kv))) params));
         ("train_percent"%string, JFloat train_percent);
         ("mae"%string, JFloat mae);
         ("completion_time"%string, JString completion_time)].

(** A finished fold: its hyperparameters, train ratio, validation MAE, and
    the time on the clock when its record is built. *)
Record FoldResult := {
  fr_params : dict value;
  fr_train_ratio : float;
  fr_val_mae : float;
  fr_time : string
}.

Definition record_of (r : FoldResult) : json :=
  result_record (fr_params r) (fr_train_ratio r) (fr_val_mae r) (fr_time r).

(** The results of several folds written one after the other. *)
Fixpoint write_all (rs : list FoldResult) : M unit :=
  match rs with
  | [] => ret tt
  | r :: rest =>
      (fun w => (Returned tt, set_now (fr_time r) w)) ;;;
      write_fold_result (fr_params r) (fr_train_ratio r) (fr_val_mae r) ;;;
      write_all rest
  end.

(** The log holds the records [items]: there is no file and no record yet,
    or the file is the object with the one key "Results" mapped to them. *)
Inductive log_holds (items : list json) : option file_text -> Prop :=
| log_absent : items = [] -> log_holds items None
| log_present :
    log_holds items (Some (Text (JDict [("Results"%string, JList items)]))).

(** The trainer calls that the epoch loop makes for the epochs [todo], when
    it starts in gradient mode [g]. *)
Definition epoch_calls (epochs : nat) (g : bool) (todo : list nat) : list call :=
  flat_map (fun e => TrainerTrain e g
                     :: (if validates epochs e then [TrainerEval e false] else []))
           todo.

Definition is_TrainerEval (c : call) : bool :=
  match c with TrainerEval _ _ => true | _ => false end.

Definition is_TrainerTrain (c : call) : bool :=
  match c with TrainerTrain _ _ => true | _ => false end.

(** What the constructors of a fold refuse.  [GraphDataLoader] (dgl, over
    torch's [DataLoader]), [ST_GAT(...).to(device)] (whose layers are dgl's
    [GATConv] and torch's [LSTM] and [Linear]) and [optim.Adam] check their
    arguments and raise on those they do not accept: a dropout probability
    outside [0, 1], a negative learning rate, a batch size that is not a
    positive integer, and so on.  Which arguments these are is the
    libraries' matter; the driver is stated over whatever they refuse:
    [None] is a call that returns, [Some e] a call that raises [e]. *)
Record Library := {
  GraphDataLoader_raises : list Z -> value -> option exn;
  ST_GAT_raises : value -> value -> value -> value -> string -> option exn;
  Adam_raises : value -> value -> option exn
}.

Section Collaborators.

(** The dataset module and the trainer are not part of the files embedded
    here; the driver is stated over what they return. *)
Variable get_processed_dataset : dict value -> Dataset.
(** The validation MAE that [models.trainer.eval] returns, given every call
    made before it. *)
Variable trainer_eval : list call -> float.
(** The checks of torch and dgl. *)
Variable library : Library.

(** Lines 121-127: [for epoch in range(epochs)], as a loop over the epochs
    still to run. *)
Fixpoint epoch_loop (epochs : nat) (todo : list nat) (val_mae : option float)
  : M (option float) :=
  match todo with
  | [] => ret val_mae
  | epoch :: rest =>
      w <-- get_world ;;
      record (TrainerTrain epoch (grad_enabled w)) ;;;
      val_mae <--
        (if (epoch mod 5 =? 0)%nat || (epoch =? epochs - 1)%nat
         then no_grad (w <-- get_world ;;
                       record (TrainerEval epoch (grad_enabled w)) ;;;
                       ret (Some (trainer_eval (calls w))))
         else ret val_mae) ;;
      epoch_loop epochs rest val_mae
  end.

(** [[dataset[i] for i in indices]]. *)
Definition take_subset (ds : Dataset) (indices : list Z) : M (list Z) :=
  mapM (fun i => of_option IndexError (dataset_getitem ds i)) indices.

(** Lines 88-153: what a fold does once its sizes passed the check.  The
    result is the new [weighted_average_mae].  The two data loaders, the
    model and the optimizer are built by the libraries, which may refuse
    their arguments. *)
Definition fold_body (device : string) (st : Locals) (current_params : dict value)
    (val_ratio : float) (fold : nat) (train_ratio : float)
    (train_size val_size : Z) (weighted_average_mae : float) : M float :=
  ds <-- of_option TypeError (dataset st) ;;
  train_subset <-- take_subset ds (range 0 train_size) ;;
  val_subset <-- take_subset ds (range train_size (train_size + val_size)) ;;
  batch <-- lookup (config st) "BATCH_SIZE" ;;
  call_checked (GraphDataLoader train_subset batch)
               (GraphDataLoader_raises library train_subset batch) ;;;
  batch <-- lookup (config st) "BATCH_SIZE" ;;
  call_checked (GraphDataLoader val_subset batch)
               (GraphDataLoader_raises library val_subset batch) ;;;
  print (MsgFold fold (List.length train_subset) train_ratio
                 (List.length val_subset) val_ratio) ;;;
  n_hist <-- lookup current_params "N_HIST" ;;
  n_pred <-- lookup current_params "N_PRED" ;;
  n_node <-- lookup (config st) "N_NODE" ;;
  dropout <-- lookup current_params "DROPOUT" ;;
  call_checked (NewModel n_hist n_pred n_node dropout device)
               (ST_GAT_raises library n_hist n_pred n_node dropout device) ;;;
  lr <-- lookup current_params "INITIAL_LR" ;;
  weight_decay <-- lookup current_params "WEIGHT_DECAY" ;;
  call_checked (Adam lr weight_decay) (Adam_raises library lr weight_decay) ;;;
  lr <-- lookup current_params "INITIAL_LR" ;;
  epochs <-- epoch_budget lr ;;
  val_mae <-- epoch_loop epochs (seq 0 epochs) None ;;
  print (MsgAchieved val_mae epochs fold) ;;;
  record ModelToCpu ;;;
  record GcCollect ;;;
  record EmptyCache ;;;
  val_mae <-- of_option TypeError val_mae ;;
  let weighted_average_mae :=
    (weighted_average_mae + train_ratio * val_mae)%float in
  write_fold_result current_params train_ratio val_mae ;;;
  ret weighted_average_mae.

(** Lines 80-153: [for fold, train_ratio in enumerate(train_ratios)].  The
    result is [weighted_average_mae] when the loop is left. *)
Fixpoint fold_loop (device : string) (st : Locals) (current_params : dict value)
    (val_ratio : float) (folds : list (nat * float)) (weighted_average_mae : float)
  : M float :=
  match folds with
  | [] => ret weighted_average_mae
  | (fold, train_ratio) :: rest =>
      n <-- of_option TypeError (num_graphs st) ;;
      train_size <-- of_option ValueError
                       (int_of_float (train_ratio * float_of_len n)) ;;
      val_size <-- of_option ValueError
                     (int_of_float (val_ratio * float_of_len n)) ;;
      if train_size + val_size >? n then
        print MsgSizeError ;;;
        ret weighted_average_mae                                   (* break *)
      else
        weighted_average_mae <--
          fold_body device st current_params val_ratio fold train_ratio
                    train_size val_size weighted_average_mae ;;
        fold_loop device st current_params val_ratio rest weighted_average_mae
  end.

(** [enumerate(l)]. *)
Definition enumerate {A} (l : list A) : list (nat * A) :=
  combine (seq 0 (List.length l)) l.

(** Lines 67-76: the dataset is rebuilt when N_PRED or N_HIST changed. *)
Definition rebuild_dataset_if_changed (st : Locals) (current_params : dict value)
  : M Locals :=
  n_pred <-- lookup current_params "N_PRED" ;;
  changed <--
    (if ne_opt n_pred (prev_npred st) then ret true
     else n_hist <-- lookup current_params "N_HIST" ;;
          ret (ne_opt n_hist (prev_nhist st))) ;;
  if (changed : bool) then
    n_pred <-- lookup current_params "N_PRED" ;;
    let config := dict_set (config st) "N_PRED" n_pred in
    n_hist <-- lookup current_params "N_HIST" ;;
    let config := dict_set config "N_HIST" n_hist in
    prev_npred <-- lookup current_params "N_PRED" ;;
    prev_nhist <-- lookup current_params "N_HIST" ;;
    print MsgRegenerating ;;;
    record (GetProcessedDataset config) ;;;
    let ds := get_processed_dataset config in
    let config := dict_set config "D_MEAN" (d_mean ds) in
    let config := dict_set config "D_STD_DEV" (d_std_dev ds) in
    n_node <-- of_option IndexError (first_graph_nodes ds) ;;
    let config := dict_set config "N_NODE" (VInt n_node) in
    ret {| config := config;
           prev_npred := Some prev_npred;
           prev_nhist := Some prev_nhist;
           dataset := Some ds;
           num_graphs := Some (ds_len ds) |}
  else ret st.

(** Lines 63-163: [for param_set in param_combinations]. *)
Fixpoint params_loop (device : string) (param_grid : dict (list value))
    (train_ratios : list float) (val_ratio : float)
    (param_combinations : list (list value)) (st : Locals) : M unit :=
  match param_combinations with
  | [] => ret tt
  | param_set :: rest =>
      let current_params := dict_zip (keys param_grid) param_set in
      print (MsgTesting current_params) ;;;
      st <-- rebuild_dataset_if_changed st current_params ;;
      let weighted_average_mae := 0%float in
      weighted_average_mae <--
        fold_loop device st current_params val_ratio (enumerate train_ratios)
                  weighted_average_mae ;;
      weighted_average_mae <--
        (match train_ratios with
         | [] => raise ZeroDivisionError
         | _ => ret (weighted_average_mae
                     / float_of_len (Z.of_nat (List.length train_ratios)))%float
         end) ;;
      params_loop device param_grid train_ratios val_ratio rest st
  end.

(** [train_expanding_window_grid_search(config, param_grid, device,
    param_index, fold_index)]. *)
Definition train_expanding_window_grid_search (cfg : dict value)
    (param_grid : dict (list value)) (device : string)
    (param_index fold_index : Z)
  : M (dict value * option state_dict * option (dict value)) :=
  let train_ratios := [0.7; 0.8; 0.9]%float in
  let val_ratio := 0.1%float in
  let best_model : option state_dict := None in
  let best_hyperparams : option (dict value) := None in
  let results : dict value := [] in
  let param_combinations := product (values param_grid) in
  train_ratio <-- of_option IndexError (getitem train_ratios fold_index) ;;
  let train_ratios := [train_ratio] in
  param_set <-- of_option IndexError (getitem param_combinations param_index) ;;
  let param_combinations := [param_set] in
  let st := {| config := cfg; prev_npred := None; prev_nhist := None;
               dataset := None; num_graphs := None |} in
  params_loop device param_grid train_ratios val_ratio param_combinations st ;;;
  ret (results, best_model, best_hyperparams).

End Collaborators.

End Search.

(* ================================================================== *)
(** ** src/run.py: train, or load the checkpoints *)
(* ================================================================== *)

Module Run.
Import Py.

Definition RETRAIN : bool := true.
Definition SAVE_MODEL : bool := true.
Definition SAVE_ATTENTION : bool := false.

(** The values of the script's [config]. *)
Inductive cfg :=
| Num (v : value)
| Str (s : string)
| Flag (b : bool).

(** Lines 29-41: the config as the script builds it, for the directory
    [runs_dir] and the statistics that came with the dataset. *)
Definition script_config (runs_dir : string) (d_mean d_std_dev : value) : dict cfg :=
  [("BATCH_SIZE"%string, Num (VInt 50));
   ("EPOCHS"%string, Num (VInt 60));
   ("WEIGHT_DECAY"%string, Num (VFloat 5e-5));
   ("INITIAL_LR"%string, Num (VFloat 3e-4));
   ("CHECKPOINT_DIR"%string, Str runs_dir);
   ("N_PRED"%string, Num (VInt 9));
   ("N_HIST"%string, Num (VInt 12));
   ("DROPOUT"%string, Num (VFloat 0.2));
   ("USE_GAT_WEIGHTS"%string, Flag true);
   ("D_MEAN"%string, Num d_mean);
   ("D_STD_DEV"%string, Num d_std_dev)].

(** What the script does from line 54 on, one entry per statement that
    reaches outside of it. *)
Inductive step :=
| PrintModelFound (model_path : string)
| NewST_GAT (in_channels out_channels n_nodes dropout : cfg)
| LoadStateDict (model_path : string)
| PrintLoadingAttention (attn_path : string)
| TorchLoad (attn_path : string)
| NewGraphDataLoader (split : string) (batch_size : cfg) (shuffle : bool)
| ModelTrain (config : dict cfg)
| TorchSave (attn_path : string)
| SaveModel (model_path : string).

(** The steps taken, and the exception that ended them, if one did. *)
Definition trace := (list step * option exn)%type.

Definition then_ (t : trace) (k : trace) : trace :=
  match t with
  | (steps, None) => (steps ++ fst k, snd k)
  | (steps, Some e) => (steps, Some e)
  end.

Definition do_ (s : step) : trace := ([s], None).

(** What the functions called from line 54 on refuse.  The constructors of
    the model and of the data loaders, the readers and writers of the
    checkpoints (torch and dgl) and the trainer and [save_model] (modules of
    the repository that are not embedded here) check what they are given and
    may raise: a dropout probability outside [0, 1], a batch size that is
    not a positive integer, a checkpoint that does not fit the model, and so
    on.  The branch is stated over whatever they refuse: [None] is a call
    that returns, [Some e] a call that raises [e]. *)
Record Callees := {
  new_ST_GAT_raises : cfg -> cfg -> cfg -> cfg -> option exn;
  load_state_dict_raises : string -> option exn;
  torch_load_raises : string -> option exn;
  new_GraphDataLoader_raises : string -> cfg -> bool -> option exn;
  model_train_raises : dict cfg -> option exn;
  torch_save_raises : string -> option exn;
  save_model_raises : string -> option exn
}.

(** A call that may be refused: it is made, and raises then. *)
Definition try_ (s : step) (refusal : option exn) : trace := ([s], refusal).

Definition get (config : dict cfg) (k : string) (body : cfg -> trace) : trace :=
  match dict_get config k with
  | Some v => body v
  | None => ([], Some (KeyError k))
  end.

(** Lines 54-59. *)
Definition load_checkpoints (lib : Callees) (config : dict cfg)
    (model_path attn_path : string) : trace :=
  then_ (do_ (PrintModelFound model_path))
   (get config "N_HIST" (fun n_hist =>
    get config "N_PRED" (fun n_pred =>
    get config "N_NODE" (fun n_node =>
    get config "DROPOUT" (fun dropout =>
    then_ (try_ (NewST_GAT n_hist n_pred n_node dropout)
                (new_ST_GAT_raises lib n_hist n_pred n_node dropout))
   (then_ (try_ (LoadStateDict model_path)
                (load_state_dict_raises lib model_path))
   (then_ (do_ (PrintLoadingAttention attn_path))
          (try_ (TorchLoad attn_path) (torch_load_raises lib attn_path))))))))).

(** Lines 61-73. *)
Definition train_and_save (lib : Callees) (save_model save_attention : bool)
    (config : dict cfg) (first_graph_nodes : option Z)
    (model_path attn_path : string) : trace :=
  get config "BATCH_SIZE" (fun b =>
  then_ (try_ (NewGraphDataLoader "d_train" b true)
              (new_GraphDataLoader_raises lib "d_train" b true))
  (get config "BATCH_SIZE" (fun b =>
   then_ (try_ (NewGraphDataLoader "d_val" b true)
               (new_GraphDataLoader_raises lib "d_val" b true))
   (match first_graph_nodes with
    | None => ([], Some IndexError)
    | Some n =>
        let config := dict_set config "N_NODE" (Num (VInt n)) in
        then_ (try_ (ModelTrain config) (model_train_raises lib config))
       (then_ (if save_attention
               then try_ (TorchSave attn_path) (torch_save_raises lib attn_path)
               else ([], None))
              (if save_model
               then try_ (SaveModel model_path) (save_model_raises lib model_path)
               else ([], None)))
    end)))).

(** Lines 44-73, for any setting of the three flags at the top of the
    script; [exists_] is [os.path.exists]. *)
Definition train_or_load (lib : Callees)
    (retrain save_model save_attention : bool)
    (exists_ : string -> bool) (model_dir : string) (config : dict cfg)
    (first_graph_nodes : option Z) : trace :=
  let model_path := (model_dir ++ "/model.pth")%string in
  let attn_path := (model_dir ++ "/attention.pth")%string in
  if exists_ model_path && exists_ attn_path && negb retrain
  then load_checkpoints lib config model_path attn_path
  else train_and_save lib save_model save_attention config first_graph_nodes
                      model_path attn_path.

(** The script itself. *)
Definition run (lib : Callees) (exists_ : string -> bool) (model_dir : string)
    (config : dict cfg) (first_graph_nodes : option Z) : trace :=
  train_or_load lib RETRAIN SAVE_MODEL SAVE_ATTENTION exists_ model_dir config
                first_graph_nodes.

Definition is_ModelTrain (s : step) : bool :=
  match s with ModelTrain _ => true | _ => false end.

Definition is_load (s : step) : bool :=
  match s with
  | PrintModelFound _ | NewST_GAT _ _ _ _ | LoadStateDict _
  | PrintLoadingAttention _ | TorchLoad _ => true
  | _ => false
  end.

(** The first of the keys [ks] that the config lacks. *)
Fixpoint first_missing (config : dict cfg) (ks : list string) : option string :=
  match ks with
  | [] => None
  | k :: rest =>
      match dict_get config k with
      | None => Some k
      | Some _ => first_missing config rest
      end
  end.

(** Callees that know the checks of [torch.nn.Dropout] and of torch's
    [DataLoader], for running the branches on sample inputs. *)
Definition checking : Callees :=
  {| new_ST_GAT_raises := fun _ _ _ dropout =>
       match dropout with
       | Num (VFloat x) =>
           if (PrimFloat.leb 0 x && PrimFloat.leb x 1)%bool then None
           else Some ValueError
       | Num (VInt z) => if (0 <=? z) && (z <=? 1) then None else Some ValueError
       | _ => Some TypeError
       end;
     load_state_dict_raises := fun _ => None;
     torch_load_raises := fun _ => None;
     new_GraphDataLoader_raises := fun _ b _ =>
       match b with
       | Num (VInt z) => if 1 <=? z then None else Some ValueError
       | _ => Some ValueError
       end;
     model_train_raises := fun _ => None;
     torch_save_raises := fun _ => None;
     save_model_raises := fun _ => None |}.

End Run.

(* ================================================================== *)
(** ** src/visualizations/predictions.py: the day-aligned slice *)
(* ================================================================== *)

Module Plot.
Import Py.

(** [l[:stop]] on a sequence. *)
Definition slice_to {A} (l : list A) (stop : Z) : list A :=
  let n := Z.of_nat (List.length l) in
  let stop := if stop <? 0 then Z.max 0 (n + stop) else Z.min stop n in
  firstn (Z.to_nat stop) l.

(** [a // b]: Python's floor division is [Z.div]; zero raises. *)
Definition floordiv (a b : Z) : option Z :=
  if b =? 0 then None else Some (a / b).

(** What reaches [plt.plot] and the title. *)
Record Plotted (A : Type) := {
  t : list Z;
  truth : list A;
  preds : list (list A);
  days : Z
}.
Arguments t {A} _.
Arguments truth {A} _.
Arguments preds {A} _.
Arguments days {A} _.

(** [plot_prediction], lines 24-37, on the flattened series of the node. *)
Definition plot_prediction {A} (y_truth y_pred : list A) (SLOTS_PER_DAY : Z)
    (num_days : option Z) : option (Plotted A) :=
  let total_slots := Z.of_nat (List.length y_truth) in
  match floordiv total_slots SLOTS_PER_DAY with
  | None => None
  | Some total_days =>
      let num_days :=
        match num_days with
        | None => total_days
        | Some d => if d >? total_days then total_days else d
        end in
      let end_idx := num_days * SLOTS_PER_DAY in
      let y_truth := slice_to y_truth end_idx in
      let y_pred := slice_to y_pred end_idx in
      Some {| t := range 0 end_idx; truth := y_truth; preds := [y_pred];
              days := num_days |}
  end.

(** [plot_prediction_full], lines 66-79, on the flattened series of the node,
    one prediction series per horizon step. *)
Definition plot_prediction_full {A} (y_truth : list A) (y_preds : list (list A))
    (SLOTS_PER_DAY : Z) (num_days : option Z) : option (Plotted A) :=
  let total_slots := Z.of_nat (List.length y_truth) in
  match floordiv total_slots SLOTS_PER_DAY with
  | None => None
  | Some total_days =>
      let num_days :=
        match num_days with
        | None => total_days
        | Some d => if d >? total_days then total_days else d
        end in
      let end_idx := num_days * SLOTS_PER_DAY in
      let y_truth := slice_to y_truth end_idx in
      let y_preds := map (fun y => slice_to y end_idx) y_preds in
      Some {| t := range 0 end_idx; truth := y_truth; preds := y_preds;
              days := num_days |}
  end.

(** The number of days shown: the request, clamped to the full days there
    are. *)
Definition shown_days (total_slots spd : Z) (num_days : option Z) : Z :=
  match num_days with
  | Some d => Z.min d (total_slots / spd)
  | None => total_slots / spd
  end.

End Plot.

(* ================================================================== *)
(** ** src/run.py: the epochs whose attention is saved *)
(* ================================================================== *)

Module RunAttention.

(** Lines 49-52, for an integer [config['EPOCHS']]. *)
Definition epochs_for_saving_attn (save_attention : bool) (EPOCHS : Z) : list Z :=
  if save_attention then [0; EPOCHS / 2; EPOCHS - 1] else [].

End RunAttention.

(* ================================================================== *)
(** ** src/visualizations/predictions.py: the series of a node and the
       curves of [plot_prediction_full] *)
(* ================================================================== *)

Module Series.
Import Py Effects Plot.

(** A tensor: its shape and its entries in row-major order. *)
Record tensor (A : Type) := {
  t_shape : list Z;
  t_data : list A
}.
Arguments t_shape {A} _.
Arguments t_data {A} _.

(** Lines 9-14 (and 17-22, 54-64): [s = y.shape]; [y.reshape(s[0],
    BATCH_SIZE, N_NODE, s[-1])]; [y[:, :, node, step]]; [torch.flatten].
    The reshape keeps the row-major order; the index needs [node] among the
    nodes and [step] among the steps (from the end when negative).  Entry
    [k] of the result is the entry of sample [k] (chunk and batch position),
    node [node], step [step].  [None] where torch raises. *)
Definition node_series {A} (y : tensor A) (BATCH_SIZE N_NODE node step : Z)
  : option (list A) :=
  match hd_error (t_shape y), hd_error (rev (t_shape y)) with
  | Some s0, Some s_last =>
      match Shape.reshape (t_shape y) [s0; BATCH_SIZE; N_NODE; s_last] with
      | Some [chunks; batch; nodes; steps] =>
          if negb ((- nodes <=? node) && (node <? nodes)) then None
          else if negb ((- steps <=? step) && (step <? steps)) then None
          else
            let node := if node <? 0 then nodes + node else node in
            let step := if step <? 0 then steps + step else step in
            Some (flat_map
                    (fun k => firstn 1
                                (skipn (Z.to_nat ((k * nodes + node) * steps + step))
                                       (t_data y)))
                    (range 0 (chunks * batch)))
      | _ => None
      end
  | _, _ => None
  end.

(** A curve of [plot_prediction_full]: its times, its values, and the number
    of points of the fine grid it is drawn on. *)
Record Curve (A : Type) := {
  shifted_t : list Z;
  shifted_y : list A;
  n_fine : Z
}.
Arguments shifted_t {A} _.
Arguments shifted_y {A} _.
Arguments n_fine {A} _.

(** No value twice. *)
Fixpoint distinct (x : list Z) : bool :=
  match x with
  | [] => true
  | a :: rest => negb (existsb (Z.eqb a) rest) && distinct rest
  end.

(** [scipy.interpolate.interp1d(x, y, kind='cubic')]: [x] and [y] must have
    the same length, the cubic spline needs at least four points, and no
    two of them at the same [x]; otherwise it raises [ValueError].  [None]:
    the interpolant is built. *)
Definition interp1d_cubic {A} (x : list Z) (y : list A) : option exn :=
  if (List.length x =? List.length y)%nat && (4 <=? List.length x)%nat
     && distinct x
  then None else Some ValueError.

(** [np.linspace(start, stop, num)]: a negative number of samples raises
    [ValueError]. *)
Definition linspace (num : Z) : option exn :=
  if num <? 0 then Some ValueError else None.

(** Lines 92-100: [for i in range(9)], as a loop over the steps still to
    draw.  [y_preds[i]] raises [IndexError] when there is no series [i]; a
    step whose times are more than one is interpolated and drawn. *)
Fixpoint prediction_curves {A} (t : list Z) (y_preds : list (list A))
    (fine_grained_factor : Z) (steps : list nat) : outcome (list (Curve A)) :=
  match steps with
  | [] => Returned []
  | i :: rest =>
      let shifted_t := skipn i t in
      match nth_error y_preds i with
      | None => Raised IndexError
      | Some y =>
          let shifted_y := slice_to y (Z.of_nat (List.length shifted_t)) in
          if (1 <? List.length shifted_t)%nat then
            match interp1d_cubic shifted_t shifted_y with
            | Some e => Raised e
            | None =>
                let num := Z.of_nat (List.length shifted_t) * fine_grained_factor in
                match linspace num with
                | Some e => Raised e
                | None =>
                    match prediction_curves t y_preds fine_grained_factor rest with
                    | Raised e => Raised e
                    | Returned curves =>
                        Returned ({| shifted_t := shifted_t;
                                     shifted_y := shifted_y;
                                     n_fine := num |} :: curves)
                    end
                end
            end
          else prediction_curves t y_preds fine_grained_factor rest
      end
  end.

(** [plot_prediction_full], lines 66-100, on the flattened series of the
    node: the window is cut (a SLOTS_PER_DAY of zero raises
    [ZeroDivisionError]), the fine grid is laid out (line 82), the truth is
    interpolated (line 87) and the nine prediction curves are drawn. *)
Definition plot_prediction_full_curves {A} (y_truth : list A)
    (y_preds : list (list A)) (SLOTS_PER_DAY : Z) (num_days : option Z)
    (fine_grained_factor : Z) : outcome (Plotted A * list (Curve A)) :=
  match plot_prediction_full y_truth y_preds SLOTS_PER_DAY num_days with
  | None => Raised ZeroDivisionError
  | Some p =>
      let end_idx := days p * SLOTS_PER_DAY in
      match linspace (end_idx * fine_grained_factor) with
      | Some e => Raised e
      | None =>
          match interp1d_cubic (t p) (truth p) with
          | Some e => Raised e
          | None =>
              match prediction_curves (t p) (preds p) fine_grained_factor
                                      (seq 0 9) with
              | Raised e => Raised e
              | Returned curves => Returned (p, curves)
              end
          end
      end
  end.

End Series.

(* ================================================================== *)
(** ** Notions used in the statements about the driver *)
(* ================================================================== *)

Module Grid.
Import Py Effects Search.

(** The learning rates of lines 107-114 and their epoch budgets. *)
Definition epoch_table : list (value * nat) :=
  [(VFloat 1e-4, 100%nat); (VFloat 5e-4, 80%nat);
   (VFloat 1e-3, 70%nat); (VFloat 5e-3, 50%nat)].

(** The number of combinations of a grid: the product of the sizes of its
    lists. *)
Definition num_combinations (param_grid : dict (list value)) : Z :=
  fold_right Z.mul 1 (map (fun l => Z.of_nat (List.length l)) (values param_grid)).

(** The calls of a fold before its first epoch. *)
Definition setup_calls (train_size val_size : Z) (batch n_hist n_pred n_node
    dropout lr weight_decay : value) (device : string) : list call :=
  [GraphDataLoader (range 0 train_size) batch;
   GraphDataLoader (range train_size (train_size + val_size)) batch;
   NewModel n_hist n_pred n_node dropout device;
   Adam lr weight_decay].

(** The libraries accept the four constructions of a fold: both data
    loaders, the model and the optimizer. *)
Definition accepts_setup (library : Library) (train_size val_size : Z)
    (batch n_hist n_pred n_node dropout lr weight_decay : value)
    (device : string) : Prop :=
  GraphDataLoader_raises library (range 0 train_size) batch = None /\
  GraphDataLoader_raises library (range train_size (train_size + val_size)) batch
  = None /\
  ST_GAT_raises library n_hist n_pred n_node dropout device = None /\
  Adam_raises library lr weight_decay = None.

(** The size of a fold as the specification words it: the floor of the
    exact product [ratio * num_graphs], for a ratio of [tenths] tenths (the
    train ratios of the schedule are 7, 8 and 9 tenths, the validation ratio
    is 1 tenth). *)
Definition specified_floor_size (tenths num_graphs : Z) : Z :=
  tenths * num_graphs / 10.

End Grid.

(* ================================================================== *)
(** ** Sample inputs, for running the definitions *)
(* ================================================================== *)

Module Sample.
Import Py Effects Search.

(** A dataset module that builds [n] graphs of 4 nodes each. *)
Definition get_processed_dataset (n : Z) (config : dict value) : Dataset :=
  {| ds_len := n; first_graph_nodes := Some 4;
     d_mean := VFloat 0; d_std_dev := VFloat 1 |}.

(** A trainer whose validation MAE shrinks with the number of calls made. *)
Definition trainer_eval (history : list call) : float :=
  (1 / float_of_len (Z.of_nat (List.length history)))%float.

Definition param_grid : dict (list value) :=
  [("N_HIST"%string, [VInt 12; VInt 24]);
   ("N_PRED"%string, [VInt 9]);
   ("DROPOUT"%string, [VFloat 0.1; VFloat 0.2]);
   ("INITIAL_LR"%string, [VFloat 5e-3; VFloat 1e-4; VFloat 3e-4]);
   ("WEIGHT_DECAY"%string, [VFloat 5e-5])].

(** Checks that torch and dgl are known to make: the batch size is a
    positive integer, the dropout probability lies in [0, 1], the learning
    rate and the weight decay are not negative. *)
Definition in_unit_interval (v : value) : bool :=
  match v with
  | VInt z => (0 <=? z) && (z <=? 1)
  | VFloat x => (PrimFloat.leb 0 x && PrimFloat.leb x 1)%bool
  end.

Definition not_negative (v : value) : bool :=
  match v with
  | VInt z => 0 <=? z
  | VFloat x => PrimFloat.leb 0 x
  end.

Definition library : Library :=
  {| GraphDataLoader_raises := fun _ batch =>
       match batch with
       | VInt b => if 1 <=? b then None else Some ValueError
       | VFloat _ => Some ValueError
       end;
     ST_GAT_raises := fun _ _ _ dropout _ =>
       if in_unit_interval dropout then None else Some ValueError;
     Adam_raises := fun lr weight_decay =>
       if not_negative lr && not_negative weight_decay then None
       else Some ValueError |}.

Definition config : dict value := [("BATCH_SIZE"%string, VInt 50)].

(** Entry 0 of the grid below. *)
Definition params : dict value :=
  [("N_HIST"%string, VInt 12); ("N_PRED"%string, VInt 9);
   ("DROPOUT"%string, VFloat 0.1); ("INITIAL_LR"%string, VFloat 5e-3);
   ("WEIGHT_DECAY"%string, VFloat 5e-5)].

Definition world : World :=
  {| results_json := None; stdout := []; calls := []; grad_enabled := true;
     now := "2025-03-01 12:00:00.000000" |}.

(** The locals of the driver once a dataset of [n] graphs is built. *)
Definition locals (n : Z) : Locals :=
  {| Search.config := [("BATCH_SIZE"%string, VInt 50); ("N_NODE"%string, VInt 4)];
     prev_npred := Some (VInt 9); prev_nhist := Some (VInt 12);
     dataset := Some (get_processed_dataset n []);
     num_graphs := Some n |}.

End Sample.

(* ================================================================== *)
(** * Properties *)
(* ================================================================== *)

(** ** Shapes through the model *)

Section ShapeFacts.
Import Shape.

Lemma filter_given_nonneg (target : list Z) :
  Forall (fun d => 0 <= d) target ->
  filter (fun d => negb (d =? -1)) target = target.
Proof.
  induction 1 as [|d l Hd _ IH]; simpl; [reflexivity|].
  destruct (Z.eqb_spec d (-1)); [lia|]. simpl. now rewrite IH.
Qed.

Lemma existsb_negative_nonneg (target : list Z) :
  Forall (fun d => 0 <= d) target ->
  existsb (fun d => d <? 0) target = false.
Proof.
  induction 1 as [|d l Hd _ IH]; simpl; [reflexivity|].
  rewrite IH. destruct (Z.ltb_spec d 0); [lia|reflexivity].
Qed.

(** A reshape to explicit sizes succeeds when the element counts agree. *)
Lemma reshape_exact (s : shape) (target : list Z) :
  Forall (fun d => 0 <= d) target ->
  numel target = numel s ->
  reshape s target = Some target.
Proof.
  intros Hpos Hn. unfold reshape.
  rewrite (filter_given_nonneg _ Hpos), (existsb_negative_nonneg _ Hpos).
  rewrite Nat.sub_diag, Hn, Z.eqb_refl. reflexivity.
Qed.

(** A reshape to [(a, b, -1)] infers the last size. *)
Lemma reshape_infer_last (s : shape) (a b c : Z) :
  1 <= a -> 1 <= b -> numel s = a * b * c ->
  reshape s [a; b; -1] = Some [a; b; c].
Proof.
  intros Ha Hb Hn.
  assert (Ea : (a =? -1) = false) by (apply Z.eqb_neq; lia).
  assert (Eb : (b =? -1) = false) by (apply Z.eqb_neq; lia).
  assert (La : (a <? 0) = false) by (apply Z.ltb_ge; lia).
  assert (Lb : (b <? 0) = false) by (apply Z.ltb_ge; lia).
  assert (E : a * b <> 0) by nia.
  unfold reshape. cbn [filter]. rewrite Ea, Eb.
  cbn [negb Z.eqb Pos.eqb existsb List.length Nat.sub numel fold_right orb map].
  rewrite La, Lb, Ea, Eb. cbn [orb]. rewrite Z.mul_1_r.
  apply Z.eqb_neq in E. rewrite E. apply Z.eqb_neq in E.
  replace (fold_right Z.mul 1 s) with (numel s) by reflexivity.
  rewrite Hn, (Z.mul_comm (a * b) c), Z.mod_mul, Z.div_mul by exact E.
  reflexivity.
Qed.

(** No node without an incoming edge: the zero-in-degree check passes. *)
Lemma has_zero_in_degree_false (g : DGLGraph) :
  Forall (fun d => (1 <= d)%nat) (in_degrees g) -> has_zero_in_degree g = false.
Proof.
  unfold has_zero_in_degree. induction 1 as [|d ds Hd _ IH]; [reflexivity|].
  cbn [existsb]. rewrite IH. destruct d; [lia | reflexivity].
Qed.

(** A node without an incoming edge: the check fires. *)
Lemma has_zero_in_degree_true (g : DGLGraph) :
  In 0%nat (in_degrees g) -> has_zero_in_degree g = true.
Proof.
  intros H. unfold has_zero_in_degree. apply existsb_exists.
  exists 0%nat. split; [exact H | reflexivity].
Qed.

Lemma has_zero_in_degree_spec (g : DGLGraph) :
  has_zero_in_degree g = false <->
  Forall (fun d => (1 <= d)%nat) (in_degrees g).
Proof.
  split; [|apply has_zero_in_degree_false].
  unfold has_zero_in_degree. intros H. apply Forall_forall. intros d Hd.
  destruct d; [|lia].
  assert (E : existsb (Nat.eqb 0) (in_degrees g) = true)
    by (apply existsb_exists; exists 0%nat; split; [exact Hd | reflexivity]).
  congruence.
Qed.

(** The attention stage on [(n, d)] features of a graph whose nodes all
    have an incoming edge: [(n, d)] again. *)
Lemma AveragedGATConv_forward_shape (g : DGLGraph) (d hds n : Z) :
  1 <= d -> 1 <= hds -> 1 <= n -> number_of_nodes g = n ->
  Forall (fun k => (1 <= k)%nat) (in_degrees g) ->
  AveragedGATConv_forward
    {| gat_in_feats := d; gat_out_feats := d; gat_num_heads := hds |} g [n; d]
  = Some ([n; d], [number_of_edges g; hds; 1]).
Proof.
  intros Hd Hh Hn Hg Hdeg. unfold AveragedGATConv_forward, GATConv.
  rewrite (has_zero_in_degree_false g Hdeg).
  cbn [gat_in_feats gat_out_feats gat_num_heads].
  rewrite Hg, !Z.eqb_refl. cbn [andb size0 hd_error].
  rewrite (reshape_infer_last _ n hds d) by (try assumption; cbn; lia).
  reflexivity.
Qed.

End ShapeFacts.

Section ModelShape.
Import Shape.

(** C4.  The graph attention stage that [ST_GAT.__init__] builds (per-head
    output width equal to the input width [H], heads averaged) returns, for
    every width [H] and head count (each at least 1) and every graph with at
    least one node whose nodes all have an incoming edge (the layer refuses
    the others), one [H]-wide vector per node, and with it the attention
    tensor, one row per edge: the output channel width is the input channel
    width whatever the head count. *)
Theorem C4_attention_stage_keeps_width (H P N hds B : Z) (degrees : list nat) :
  1 <= H -> 1 <= hds -> (1 <= List.length degrees)%nat ->
  Forall (fun d => (1 <= d)%nat) degrees ->
  AveragedGATConv_forward (gat (ST_GAT_init H P N hds))
    {| batch_size := B; in_degrees := degrees;
       ndata_feat := [Z.of_nat (List.length degrees); H] |}
    [Z.of_nat (List.length degrees); H]
  = Some ([Z.of_nat (List.length degrees); H],
          [Z.of_nat (list_sum degrees); hds; 1]).
Proof.
  intros HH Hh Hn Hdeg. unfold ST_GAT_init. cbn [gat].
  rewrite (AveragedGATConv_forward_shape _ H hds (Z.of_nat (List.length degrees)));
    try assumption; try reflexivity.
  lia.
Qed.

Lemma C4_attention_stage_keeps_width_witness :
  (1 <= 12 /\ 1 <= 8 /\ (1 <= List.length [4; 4; 4; 4; 3; 3; 3; 3])%nat) /\
  AveragedGATConv_forward (gat (ST_GAT_init 12 9 4 NUM_HEADS))
    {| batch_size := 2; in_degrees := [4; 4; 4; 4; 3; 3; 3; 3]%nat;
       ndata_feat := [8; 12] |} [8; 12]
  = Some ([8; 12], [28; 8; 1]).
Proof.
  split; [cbn; lia|].
  apply (C4_attention_stage_keeps_width 12 9 4 8 2 [4; 4; 4; 4; 3; 3; 3; 3]%nat);
    [lia | lia | cbn; lia | repeat constructor].
Defined.

(** C1.  For every batch size [B], node count [N], history length [H] and
    horizon [P] (each at least 1), the forward pass of the model built for
    [(H, P, N)] on a batch of [B] graphs of [N] nodes with [H] features per
    node, every node having an incoming edge (the attention layer refuses
    the other graphs), returns predictions of shape [(B*N, P)]; this
    includes [B = 1], where the squeeze drops the batch axis before the
    linear layer. *)
Theorem C1_forward_output_shape (B N H P hds : Z) (degrees : list nat) :
  1 <= B -> 1 <= N -> 1 <= H -> 1 <= P -> 1 <= hds ->
  Z.of_nat (List.length degrees) = B * N ->
  Forall (fun d => (1 <= d)%nat) degrees ->
  ST_GAT_forward (ST_GAT_init H P N hds) (batched_graph B degrees H)
  = Some ([B * N; P], [Z.of_nat (list_sum degrees); hds; 1]).
Proof.
  intros HB HN HH HP Hh Hlen Hdeg.
  unfold ST_GAT_forward, ST_GAT_init, batched_graph.
  cbn [gat ndata_feat batch_size n_nodes n_pred lstm1_input_size
       lstm1_hidden_size lstm2_input_size lstm2_hidden_size linear_in linear_out].
  rewrite Hlen.
  rewrite (AveragedGATConv_forward_shape _ H hds (B * N));
    [| assumption | assumption | nia | exact Hlen | exact Hdeg].
  unfold number_of_edges. cbn [obind in_degrees F_dropout].
  set (E := Z.of_nat (list_sum degrees)).
  rewrite (reshape_infer_last _ B N H) by (try assumption; cbn; lia).
  cbn [obind movedim nth_error firstn skipn app List.length Nat.leb lstm].
  rewrite Z.eqb_refl. cbn [obind lstm Z.eqb Pos.eqb select_last].
  destruct (Z.leb_spec 1 H); [|lia].
  cbn [obind squeeze filter Z.eqb Pos.eqb negb].
  assert (Hfin : forall s, numel s = B * N * P ->
            (x <- reshape s [B; N; P] ;;
             x <- reshape x [B * N; P] ;; Some (x, [E; hds; 1]))
            = Some ([B * N; P], [E; hds; 1])).
  { intros s Hs.
    rewrite (reshape_exact s [B; N; P]);
      [|repeat constructor; lia | rewrite Hs; cbn; lia].
    cbn [obind].
    rewrite (reshape_exact [B; N; P] [B * N; P]);
      [reflexivity | repeat constructor; nia | cbn; lia]. }
  destruct (Z.eqb_spec B 1) as [E1|E1]; cbn [negb linear rev app Z.eqb Pos.eqb obind].
  - apply Hfin. subst B. unfold numel; cbn [fold_right]; lia.
  - apply Hfin. unfold numel; cbn [fold_right]; lia.
Qed.

Lemma C1_forward_output_shape_witness :
  (1 <= 1 /\ 1 <= 4 /\ 1 <= 12 /\ 1 <= 9 /\ 1 <= 8) /\
  ST_GAT_forward (ST_GAT_init 12 9 4 NUM_HEADS)
    (batched_graph 1 [4; 4; 4; 4]%nat 12)
  = Some ([4; 9], [16; 8; 1]).
Proof.
  split; [lia|].
  apply (C1_forward_output_shape 1 4 12 9 8 [4; 4; 4; 4]%nat);
    [lia | lia | lia | lia | lia | reflexivity | repeat constructor].
Defined.

End ModelShape.

(** ** The plotted window *)

Section PlotFacts.
Import Py Plot.

Lemma range_length (a b : Z) : List.length (range a b) = Z.to_nat (b - a).
Proof. unfold range. now rewrite length_map, length_seq. Qed.

(** A slice up to a stop inside the sequence has exactly [stop] entries. *)
Lemma slice_to_length {A} (l : list A) (stop : Z) :
  0 <= stop <= Z.of_nat (List.length l) ->
  Z.of_nat (List.length (slice_to l stop)) = stop.
Proof.
  intros [H0 H1]. unfold slice_to.
  destruct (Z.ltb_spec stop 0); [lia|].
  rewrite Z.min_l by lia.
  rewrite firstn_length_le by lia. lia.
Qed.

Lemma shown_days_bounds (total_slots spd : Z) (num_days : option Z) :
  0 < spd -> 0 <= total_slots ->
  (forall d, num_days = Some d -> 0 <= d) ->
  0 <= shown_days total_slots spd num_days * spd <= total_slots.
Proof.
  intros Hs Ht Hd.
  assert (Hq : 0 <= total_slots / spd) by (apply Z.div_pos; lia).
  assert (Hm : spd * (total_slots / spd) <= total_slots)
    by (apply Z.mul_div_le; lia).
  unfold shown_days. destruct num_days as [d|].
  - specialize (Hd d eq_refl). nia.
  - nia.
Qed.

Lemma clamp_is_shown_days (total_slots spd : Z) (num_days : option Z) :
  match num_days with
  | None => total_slots / spd
  | Some d => if d >? total_slots / spd then total_slots / spd else d
  end = shown_days total_slots spd num_days.
Proof.
  unfold shown_days. destruct num_days as [d|]; [|reflexivity].
  rewrite Z.gtb_ltb. destruct (Z.ltb_spec (total_slots / spd) d); lia.
Qed.

(** C10.  With a positive SLOTS_PER_DAY and a [num_days] that is [None] or
    not negative, both plotting functions hand [plt.plot] a time axis and a
    truth series of [min(num_days, total_days) * SLOTS_PER_DAY] entries
    ([total_days * SLOTS_PER_DAY] for [None]), where [total_days] is
    [total_slots // SLOTS_PER_DAY]; every prediction series as long as the
    truth is cut to the same length.  So the window is a whole number of
    days, it never runs past the data, and a request for more days than
    there are is clamped. *)
Theorem C10_plotted_window_whole_days {A} (y_truth y_pred : list A)
    (y_preds : list (list A)) (spd : Z) (num_days : option Z) :
  0 < spd ->
  (forall d, num_days = Some d -> 0 <= d) ->
  List.length y_pred = List.length y_truth ->
  Forall (fun y => List.length y = List.length y_truth) y_preds ->
  let total_slots := Z.of_nat (List.length y_truth) in
  let n := shown_days total_slots spd num_days * spd in
  n <= total_slots /\
  (exists p, plot_prediction y_truth y_pred spd num_days = Some p /\
     days p = shown_days total_slots spd num_days /\
     Z.of_nat (List.length (t p)) = n /\
     Z.of_nat (List.length (truth p)) = n /\
     Forall (fun y => Z.of_nat (List.length y) = n) (preds p)) /\
  (exists p, plot_prediction_full y_truth y_preds spd num_days = Some p /\
     days p = shown_days total_slots spd num_days /\
     Z.of_nat (List.length (t p)) = n /\
     Z.of_nat (List.length (truth p)) = n /\
     Forall (fun y => Z.of_nat (List.length y) = n) (preds p)).
Proof.
  intros Hs Hd Hp Hps total_slots n.
  pose proof (shown_days_bounds total_slots spd num_days Hs
                (Nat2Z.is_nonneg _) Hd) as Hb.
  fold n in Hb.
  assert (Hne : (spd =? 0) = false) by (apply Z.eqb_neq; lia).
  split; [lia|]. split.
  - unfold plot_prediction, floordiv. rewrite Hne.
    rewrite clamp_is_shown_days. fold total_slots. fold n.
    eexists. split; [reflexivity|]. cbn [days t truth preds].
    split; [reflexivity|].
    split; [rewrite range_length; lia|].
    split; [apply slice_to_length; fold total_slots; lia|].
    constructor; [|constructor].
    apply slice_to_length. rewrite Hp. fold total_slots. lia.
  - unfold plot_prediction_full, floordiv. rewrite Hne.
    rewrite clamp_is_shown_days. fold total_slots. fold n.
    eexists. split; [reflexivity|]. cbn [days t truth preds].
    split; [reflexivity|].
    split; [rewrite range_length; lia|].
    split; [apply slice_to_length; fold total_slots; lia|].
    apply Forall_map. revert Hps. apply Forall_impl. intros y Hy.
    apply slice_to_length. rewrite Hy. fold total_slots. lia.
Qed.

Lemma C10_plotted_window_whole_days_witness :
  exists p,
    plot_prediction [1; 2; 3; 4; 5; 6; 7] [7; 6; 5; 4; 3; 2; 1] 3 (Some 5) = Some p /\
    days p = 2 /\ Z.of_nat (List.length (truth p)) = 6.
Proof.
  destruct (@C10_plotted_window_whole_days Z [1; 2; 3; 4; 5; 6; 7]
              [7; 6; 5; 4; 3; 2; 1] [[7; 6; 5; 4; 3; 2; 1]] 3 (Some 5))
    as (_ & (p & Hp & Hdays & _ & Htruth & _) & _).
  - lia.
  - intros d [= <-]. lia.
  - reflexivity.
  - repeat constructor.
  - exists p. repeat split; assumption.
Defined.

End PlotFacts.

(** ** Numbers *)

Section NumberFacts.
Import Py.

(** A float that compares equal to a finite non-zero float is that float. *)
Lemma float_eqb_finite (x a : float) (s : bool) (m : positive) (e : Z) :
  Prim2SF a = S754_finite s m e ->
  PrimFloat.eqb x a = true ->
  x = a.
Proof.
  intros Ha Hx. apply Prim2SF_inj. rewrite Ha.
  rewrite FloatAxioms.eqb_spec, Ha in Hx.
  unfold SFeqb, SFcompare in Hx.
  destruct (Prim2SF x) as [sx|sx| |sx mx ex]; try discriminate;
    try (destruct sx; discriminate); try (destruct s; discriminate).
  destruct sx, s; try discriminate;
    (destruct (Z.compare_spec ex e) as [Ee|Ee|Ee]; try discriminate;
     destruct (Pos.compare_cont Eq mx m) eqn:Em; try discriminate;
     apply Pos.compare_eq in Em; now subst).
Qed.

(** [lr == c] for a float constant [c] that is finite, not zero and not an
    integer: [lr] is that very float. *)
Lemma eq_float_const (lr : value) (c : float) (s : bool) (m : positive) (e : Z) :
  Prim2SF c = S754_finite s m e ->
  float_to_Z_exact c = None ->
  equals lr (VFloat c) = true ->
  lr = VFloat c.
Proof.
  intros Hc Hz H. destruct lr as [z|x]; cbn [equals] in H.
  - rewrite Hz in H. discriminate.
  - f_equal. eapply float_eqb_finite; eassumption.
Qed.

End NumberFacts.

(** ** The results log *)

Section LogFacts.
Import Py Effects Search.

(** C8.  [load_previous_results] on a world without the file returns the
    object with the one key "Results" and an empty list, and raises nothing;
    on a world where the file holds a JSON document it returns that
    document.  The world is left as it was. *)
Theorem C8_load_previous_results (w : World) :
  (results_json w = None ->
   load_previous_results w = (Returned (JDict [("Results"%string, JList [])]), w)) /\
  (forall doc, results_json w = Some (Text doc) ->
   load_previous_results w = (Returned doc, w)).
Proof.
  unfold load_previous_results. split.
  - intros ->. reflexivity.
  - intros doc ->. reflexivity.
Qed.

Lemma C8_load_previous_results_witness :
  load_previous_results
    {| results_json := None; stdout := []; calls := []; grad_enabled := true;
       now := EmptyString |}
  = (Returned (JDict [("Results"%string, JList [])]),
     {| results_json := None; stdout := []; calls := []; grad_enabled := true;
        now := EmptyString |}) /\
  load_previous_results
    {| results_json := Some (Text (JList [JInt 1])); stdout := []; calls := [];
       grad_enabled := true; now := EmptyString |}
  = (Returned (JList [JInt 1]),
     {| results_json := Some (Text (JList [JInt 1])); stdout := []; calls := [];
        grad_enabled := true; now := EmptyString |}).
Proof.
  split.
  - apply (proj1 (C8_load_previous_results _)). reflexivity.
  - apply (proj2 (C8_load_previous_results _)). reflexivity.
Defined.

(** One write adds one record at the end. *)
Lemma write_fold_result_appends (params : dict value) (ratio mae : float)
    (items : list json) (w : World) :
  log_holds items (results_json w) ->
  write_fold_result params ratio mae w
  = (Returned tt,
     set_results_json
       (Some (Text (JDict [("Results"%string,
                            JList (items ++ [result_record params ratio mae (now w)]))])))
       w).
Proof.
  destruct w as [f out cs g t]. cbn [results_json now].
  intros H. inversion H as [Hnil Hf | Hf]; subst; reflexivity.
Qed.

Lemma write_all_appends (rs : list FoldResult) :
  forall (items : list json) (w : World),
  log_holds items (results_json w) ->
  exists w',
    write_all rs w = (Returned tt, w') /\
    log_holds (items ++ map record_of rs) (results_json w') /\
    (rs <> [] -> results_json w' <> None) /\
    stdout w' = stdout w /\ calls w' = calls w /\
    grad_enabled w' = grad_enabled w.
Proof.
  induction rs as [|r rest IH]; intros items w H.
  - exists w. cbn. rewrite app_nil_r. repeat split; try assumption.
    intros E. now contradiction E.
  - cbn [write_all]. unfold bind at 1.
    unfold bind at 1.
    rewrite (write_fold_result_appends _ _ _ items) by exact H.
    match goal with |- context [write_all rest ?w1] =>
      destruct (IH (items ++ [record_of r]) w1) as (w' & Hrun & Hlog & Hne & Ho & Hc & Hg)
    end.
    { destruct w; cbn. constructor. }
    exists w'. rewrite Hrun. split; [reflexivity|].
    split; [|split; [|split; [|split]]].
    + cbn [map]. now rewrite <- app_assoc in Hlog.
    + intros _. destruct rest as [|r' rest'].
      * cbn in Hrun. injection Hrun as <-. destruct w; cbn. discriminate.
      * apply Hne. discriminate.
    + rewrite Ho. now destruct w.
    + rewrite Hc. now destruct w.
    + rewrite Hg. now destruct w.
Qed.

(** C5.  Starting without a results file, writing the results of [N] folds
    one after the other (each write reading the file, appending in memory
    and overwriting the file) never raises and leaves a file that is one JSON
    object whose only key "Results" maps to a list of [N] records, in the
    order of the writes; the record of a fold has exactly the four fields
    params (name to value, as the fold's hyperparameters), train_percent
    (its train ratio), mae (its validation MAE) and completion_time (the
    clock at the write, a string). *)
Theorem C5_results_log_round_trip (rs : list FoldResult) (w : World) :
  results_json w = None ->
  exists w' items,
    write_all rs w = (Returned tt, w') /\
    load_previous_results w' = (Returned (JDict [("Results"%string, JList items)]), w') /\
    (rs <> [] ->
     results_json w' = Some (Text (JDict [("Results"%string, JList items)]))) /\
    List.length items = List.length rs /\
    items
    = map (fun r =>
             JDict [("params"%string,
                     JDict (map (fun kv => (fst kv, json_of_value (snd kv)))
                                (fr_params r)));
                    ("train_percent"%string, JFloat (fr_train_ratio r));
                    ("mae"%string, JFloat (fr_val_mae r));
                    ("completion_time"%string, JString (fr_time r))]) rs.
Proof.
  intros Hw.
  destruct (write_all_appends rs [] w) as (w' & Hrun & Hlog & Hne & _).
  { rewrite Hw. now constructor. }
  exists w', (map record_of rs). cbn [app] in Hlog.
  split; [exact Hrun|].
  split; [|split; [|split]].
  - unfold load_previous_results.
    inversion Hlog as [Hnil Hf | Hf]; [now rewrite Hnil | reflexivity].
  - intros Hrs. specialize (Hne Hrs).
    inversion Hlog as [Hnil Hf | Hf]; [now rewrite <- Hf in Hne | reflexivity].
  - apply length_map.
  - reflexivity.
Qed.

Lemma C5_results_log_round_trip_witness :
  exists w',
    write_all
      [ {| fr_params := [("N_HIST"%string, VInt 12); ("INITIAL_LR"%string, VFloat 1e-3)];
           fr_train_ratio := 0.7; fr_val_mae := 0.25; fr_time := "t1" |};
        {| fr_params := [("N_HIST"%string, VInt 12); ("INITIAL_LR"%string, VFloat 1e-3)];
           fr_train_ratio := 0.8; fr_val_mae := 0.125; fr_time := "t2" |} ]
      {| results_json := None; stdout := []; calls := []; grad_enabled := true;
         now := EmptyString |}
    = (Returned tt, w') /\
    exists r1 r2,
      results_json w' = Some (Text (JDict [("Results"%string, JList [r1; r2])])).
Proof.
  destruct (C5_results_log_round_trip
    [ {| fr_params := [("N_HIST"%string, VInt 12); ("INITIAL_LR"%string, VFloat 1e-3)];
         fr_train_ratio := 0.7; fr_val_mae := 0.25; fr_time := "t1" |};
      {| fr_params := [("N_HIST"%string, VInt 12); ("INITIAL_LR"%string, VFloat 1e-3)];
         fr_train_ratio := 0.8; fr_val_mae := 0.125; fr_time := "t2" |} ]
    {| results_json := None; stdout := []; calls := []; grad_enabled := true;
       now := EmptyString |} eq_refl)
    as (w' & items & Hrun & _ & Hfile & _ & Hitems).
  exists w'. split; [exact Hrun|].
  rewrite Hitems in Hfile. cbn [map] in Hfile.
  eexists _, _. apply Hfile. discriminate.
Defined.

End LogFacts.

(** ** The epoch budget *)

Section BudgetFacts.
Import Py Effects Search.

(** A learning rate outside the table: the error line, then the raise. *)
Lemma epoch_budget_unsupported (lr : value) (w : World) :
  lr <> VFloat 1e-4 -> lr <> VFloat 5e-4 ->
  lr <> VFloat 1e-3 -> lr <> VFloat 5e-3 ->
  epoch_budget lr w
  = (Raised RuntimeError,
     {| results_json := results_json w; stdout := stdout w ++ [MsgEpochError];
        calls := calls w; grad_enabled := grad_enabled w; now := now w |}).
Proof.
  intros H1 H2 H3 H4. unfold epoch_budget.
  destruct (equals lr (VFloat 1e-4)) eqn:E1.
  { eapply eq_float_const in E1; [contradiction| |]; vm_compute; reflexivity. }
  destruct (equals lr (VFloat 5e-4)) eqn:E2.
  { eapply eq_float_const in E2; [contradiction| |]; vm_compute; reflexivity. }
  destruct (equals lr (VFloat 1e-3)) eqn:E3.
  { eapply eq_float_const in E3; [contradiction| |]; vm_compute; reflexivity. }
  destruct (equals lr (VFloat 5e-3)) eqn:E4.
  { eapply eq_float_const in E4; [contradiction| |]; vm_compute; reflexivity. }
  reflexivity.
Qed.

Lemma bind_returned (A B : Type) (c : M A) (k : A -> M B) (w w' : World) (b : B) :
  bind c k w = (Returned b, w') ->
  exists a w1, c w = (Returned a, w1) /\ k a w1 = (Returned b, w').
Proof.
  unfold bind. destruct (c w) as [[a|e] w1]; [|discriminate].
  intros H. now exists a, w1.
Qed.

Lemma lookup_returned {V} (d : dict V) (k : string) (v : V) (w w' : World) :
  lookup d k w = (Returned v, w') -> dict_get d k = Some v.
Proof.
  unfold lookup. destruct (dict_get d k); cbn; [|discriminate].
  now intros [= -> _].
Qed.

(** C2.  The epoch budget depends on the learning rate alone: 100 epochs for
    1e-4, 80 for 5e-4, 70 for 1e-3, 50 for 5e-3, each without touching the
    world; every other learning rate prints the error line and raises (the
    bare [raise] is a [RuntimeError]), no epoch count being returned, and a
    fold with such a learning rate never runs to its end. *)
Theorem C2_epoch_budget_five_behaviours (w : World) :
  epoch_budget (VFloat 1e-4) w = (Returned 100%nat, w) /\
  epoch_budget (VFloat 5e-4) w = (Returned 80%nat, w) /\
  epoch_budget (VFloat 1e-3) w = (Returned 70%nat, w) /\
  epoch_budget (VFloat 5e-3) w = (Returned 50%nat, w) /\
  (forall lr,
      lr <> VFloat 1e-4 -> lr <> VFloat 5e-4 ->
      lr <> VFloat 1e-3 -> lr <> VFloat 5e-3 ->
      epoch_budget lr w
      = (Raised RuntimeError,
         {| results_json := results_json w; stdout := stdout w ++ [MsgEpochError];
            calls := calls w; grad_enabled := grad_enabled w; now := now w |}) /\
      forall trainer_eval library device st params val_ratio fold train_ratio
             train_size val_size wam,
        dict_get params "INITIAL_LR" = Some lr ->
        exists e,
          fst (fold_body trainer_eval library device st params val_ratio fold
                         train_ratio train_size val_size wam w) = Raised e).
Proof.
  repeat (split; [reflexivity|]).
  intros lr H1 H2 H3 H4. split; [now apply epoch_budget_unsupported|].
  intros trainer_eval library device st params val_ratio fold train_ratio
         train_size val_size wam Hlr.
  destruct (fold_body trainer_eval library device st params val_ratio fold train_ratio
                      train_size val_size wam w) as [[r|e] w'] eqn:H;
    [exfalso | now exists e].
  unfold fold_body in H.
  repeat (apply bind_returned in H as (? & ? & ? & H)).
  match goal with
  | Hb : epoch_budget ?l _ = (Returned _, _),
    Hl : lookup params "INITIAL_LR" _ = (Returned ?l, _) |- _ =>
      apply lookup_returned in Hl; rewrite Hlr in Hl; injection Hl as <-;
      rewrite epoch_budget_unsupported in Hb by assumption; discriminate Hb
  end.
Qed.

Lemma C2_epoch_budget_five_behaviours_witness :
  fst (epoch_budget (VFloat 3e-4)
         {| results_json := None; stdout := []; calls := []; grad_enabled := true;
            now := EmptyString |}) = Raised RuntimeError /\
  fst (epoch_budget (VInt 1)
         {| results_json := None; stdout := []; calls := []; grad_enabled := true;
            now := EmptyString |}) = Raised RuntimeError.
Proof.
  split.
  - assert (N1 : VFloat 3e-4 <> VFloat 1e-4) by (intros [= E]; discriminate E).
    assert (N2 : VFloat 3e-4 <> VFloat 5e-4) by (intros [= E]; discriminate E).
    assert (N3 : VFloat 3e-4 <> VFloat 1e-3) by (intros [= E]; discriminate E).
    assert (N4 : VFloat 3e-4 <> VFloat 5e-3) by (intros [= E]; discriminate E).
    now rewrite (proj1 (proj2 (proj2 (proj2 (proj2
                  (C2_epoch_budget_five_behaviours _)))) (VFloat 3e-4)
                  N1 N2 N3 N4)).
  - assert (N1 : VInt 1 <> VFloat 1e-4) by discriminate.
    assert (N2 : VInt 1 <> VFloat 5e-4) by discriminate.
    assert (N3 : VInt 1 <> VFloat 1e-3) by discriminate.
    assert (N4 : VInt 1 <> VFloat 5e-3) by discriminate.
    now rewrite (proj1 (proj2 (proj2 (proj2 (proj2
                  (C2_epoch_budget_five_behaviours _)))) (VInt 1)
                  N1 N2 N3 N4)).
Defined.

End BudgetFacts.

(** ** The training loop of a fold *)

Section EpochFacts.
Import Py Effects Search.

Variable trainer_eval : list call -> float.

(** The loop returns, and leaves behind exactly the trainer calls of its
    epochs; nothing else of the world moves. *)
Lemma epoch_loop_run (epochs : nat) (todo : list nat) :
  forall (val_mae : option float) (w : World),
  exists val_mae',
    epoch_loop trainer_eval epochs todo val_mae w
    = (Returned val_mae',
       {| results_json := results_json w; stdout := stdout w;
          calls := calls w ++ epoch_calls epochs (grad_enabled w) todo;
          grad_enabled := grad_enabled w; now := now w |}).
Proof.
  induction todo as [|e rest IH]; intros val_mae [f out cs g t].
  - exists val_mae. cbn. now rewrite app_nil_r.
  - cbn [epoch_loop epoch_calls flat_map].
    change ((e mod 5 =? 0)%nat || (e =? epochs - 1)%nat) with (validates epochs e).
    unfold bind at 1. cbn [get_world].
    unfold bind at 1. cbn [record grad_enabled results_json stdout calls now].
    unfold bind at 1.
    destruct (validates epochs e).
    + unfold no_grad, bind, get_world, record, ret, set_grad_enabled.
      cbn [grad_enabled results_json stdout calls now].
      match goal with |- context [epoch_loop _ _ _ ?m ?w'] =>
        destruct (IH m w') as [m' Hm] end.
      exists m'. rewrite Hm.
      cbn [grad_enabled results_json stdout calls now].
      rewrite <- !app_assoc. reflexivity.
    + unfold ret.
      match goal with |- context [epoch_loop _ _ _ ?m ?w'] =>
        destruct (IH m w') as [m' Hm] end.
      exists m'. rewrite Hm.
      cbn [grad_enabled results_json stdout calls now].
      rewrite <- !app_assoc. reflexivity.
Qed.

Lemma filter_eval_epoch_calls (epochs : nat) (g : bool) (todo : list nat) :
  filter is_TrainerEval (epoch_calls epochs g todo)
  = map (fun e => TrainerEval e false) (filter (validates epochs) todo).
Proof.
  induction todo as [|e rest IH]; [reflexivity|].
  unfold epoch_calls in *. cbn [flat_map filter].
  destruct (validates epochs e); cbn [app filter is_TrainerEval map];
    now rewrite IH.
Qed.

Lemma filter_train_epoch_calls (epochs : nat) (g : bool) (todo : list nat) :
  filter is_TrainerTrain (epoch_calls epochs g todo)
  = map (fun e => TrainerTrain e g) todo.
Proof.
  induction todo as [|e rest IH]; [reflexivity|].
  unfold epoch_calls in *. cbn [flat_map].
  destruct (validates epochs e); cbn [app filter is_TrainerTrain map];
    now rewrite IH.
Qed.

Lemma validates_spec (epochs e : nat) :
  validates epochs e = true <-> (e mod 5 = 0 \/ e = epochs - 1)%nat.
Proof.
  unfold validates. rewrite orb_true_iff, !Nat.eqb_eq. reflexivity.
Qed.

(** C6.  A fold's loop over [E] epochs (0 to [E-1]) returns; the calls it
    leaves behind are, in order, one [train] call per epoch, made in the
    gradient mode the loop started in, and one [eval] call, made with
    gradients off, after the training of each epoch [e] that is a multiple
    of 5 or is [E-1], and of no other epoch.  The gradient mode is back to
    what it was when the loop ends. *)
Theorem C6_validation_schedule (E : nat) (w : World) :
  exists val_mae new,
    epoch_loop trainer_eval E (seq 0 E) None w
    = (Returned val_mae,
       {| results_json := results_json w; stdout := stdout w;
          calls := calls w ++ new;
          grad_enabled := grad_enabled w; now := now w |}) /\
    new = epoch_calls E (grad_enabled w) (seq 0 E) /\
    filter is_TrainerTrain new
    = map (fun e => TrainerTrain e (grad_enabled w)) (seq 0 E) /\
    filter is_TrainerEval new
    = map (fun e => TrainerEval e false) (filter (validates E) (seq 0 E)) /\
    (forall e g, In (TrainerTrain e g) new <->
                 (e < E)%nat /\ g = grad_enabled w) /\
    (forall e g, In (TrainerEval e g) new <->
                 (e < E)%nat /\ (e mod 5 = 0 \/ e = E - 1)%nat /\ g = false).
Proof.
  destruct (epoch_loop_run E (seq 0 E) None w) as [val_mae Hrun].
  exists val_mae, (epoch_calls E (grad_enabled w) (seq 0 E)).
  pose proof (filter_train_epoch_calls E (grad_enabled w) (seq 0 E)) as Ht.
  pose proof (filter_eval_epoch_calls E (grad_enabled w) (seq 0 E)) as He.
  split; [exact Hrun|]. split; [reflexivity|].
  split; [exact Ht|]. split; [exact He|].
  set (new := epoch_calls E (grad_enabled w) (seq 0 E)) in *.
  split; intros e g; split.
  - intros Hin.
    assert (Hf : In (TrainerTrain e g) (filter is_TrainerTrain new))
      by (apply filter_In; now split).
    rewrite Ht in Hf. apply in_map_iff in Hf as (e' & [= <- <-] & Hs).
    apply in_seq in Hs. split; [lia | reflexivity].
  - intros [Hlt ->].
    assert (Hf : In (TrainerTrain e (grad_enabled w))
                    (filter is_TrainerTrain new)).
    { rewrite Ht. apply (in_map (fun e => TrainerTrain e (grad_enabled w))).
      apply in_seq. lia. }
    now apply filter_In in Hf.
  - intros Hin.
    assert (Hf : In (TrainerEval e g) (filter is_TrainerEval new))
      by (apply filter_In; now split).
    rewrite He in Hf. apply in_map_iff in Hf as (e' & [= <- <-] & Hs).
    apply filter_In in Hs as [Hs Hv]. apply in_seq in Hs.
    apply validates_spec in Hv. repeat split; [lia | exact Hv].
  - intros (Hlt & Hv & ->).
    assert (Hf : In (TrainerEval e false) (filter is_TrainerEval new)).
    { rewrite He. apply (in_map (fun e => TrainerEval e false)).
      apply filter_In. split; [apply in_seq; lia | now apply validates_spec]. }
    now apply filter_In in Hf.
Qed.

End EpochFacts.

(** ** The fold loop and the driver *)

Section DriverFacts.
Import Py Effects Search.

Lemma in_range (a b i : Z) : In i (range a b) -> a <= i < b.
Proof.
  unfold range. intros H. apply in_map_iff in H as (k & <- & Hk).
  apply in_seq in Hk. lia.
Qed.

(** Indices inside the dataset are all found: no [IndexError]. *)
Lemma take_subset_in_bounds (ds : Dataset) (indices : list Z) (w : World) :
  Forall (fun i => 0 <= i < ds_len ds) indices ->
  take_subset ds indices w = (Returned indices, w).
Proof.
  unfold take_subset. induction 1 as [|i rest Hi _ IH]; [reflexivity|].
  assert (Hg : dataset_getitem ds i = Some i).
  { unfold dataset_getitem.
    destruct (Z.leb_spec 0 i); [|lia].
    destruct (Z.ltb_spec i (ds_len ds)); [reflexivity|lia]. }
  cbn [mapM]. unfold bind at 1. rewrite Hg. cbn [of_option ret].
  unfold bind at 1. now rewrite IH.
Qed.

(** With valid indices, the two window sizes in the selected combination
    and a dataset that is not empty, the driver prints, builds the dataset
    and runs the fold loop on the one selected train ratio, with validation
    ratio 0.1 and [num_graphs = len(dataset)]; then it returns. *)
Lemma driver_runs_selected_fold
    (get_processed_dataset : dict value -> Dataset)
    (trainer_eval : list call -> float) (library : Library)
    (cfg : dict value) (param_grid : dict (list value)) (device : string)
    (param_index fold_index : Z) (w : World)
    (train_ratio : float) (param_set : list value) (n_pred n_hist : value)
    (nodes : Z) :
  getitem [0.7; 0.8; 0.9]%float fold_index = Some train_ratio ->
  getitem (product (values param_grid)) param_index = Some param_set ->
  let params := dict_zip (keys param_grid) param_set in
  dict_get params "N_PRED" = Some n_pred ->
  dict_get params "N_HIST" = Some n_hist ->
  let cfg1 := dict_set (dict_set cfg "N_PRED" n_pred) "N_HIST" n_hist in
  let ds := get_processed_dataset cfg1 in
  first_graph_nodes ds = Some nodes ->
  let st :=
    {| config := dict_set (dict_set (dict_set cfg1 "D_MEAN" (d_mean ds))
                                    "D_STD_DEV" (d_std_dev ds))
                          "N_NODE" (VInt nodes);
       prev_npred := Some n_pred; prev_nhist := Some n_hist;
       dataset := Some ds; num_graphs := Some (ds_len ds) |} in
  let w1 :=
    {| results_json := results_json w;
       stdout := stdout w ++ [MsgTesting params; MsgRegenerating];
       calls := calls w ++ [GetProcessedDataset cfg1];
       grad_enabled := grad_enabled w; now := now w |} in
  train_expanding_window_grid_search get_processed_dataset trainer_eval library cfg
    param_grid device param_index fold_index w
  = bind (fold_loop trainer_eval library device st params 0.1 [(0%nat, train_ratio)] 0)
         (fun _ => ret ([], None, None)) w1.
Proof.
  intros Hfi Hpi params Hp Hh cfg1 ds Hnodes st w1.
  unfold train_expanding_window_grid_search.
  unfold bind at 1. rewrite Hfi. cbn [of_option ret].
  unfold bind at 1. rewrite Hpi. cbn [of_option ret].
  cbn [params_loop]. fold params.
  unfold bind at 1. unfold bind at 1. cbn [print].
  unfold bind at 1. unfold rebuild_dataset_if_changed.
  unfold bind at 1. unfold lookup. rewrite Hp, Hh.
  cbn [of_option ret ne_opt prev_npred].
  unfold bind at 1. cbn [ret].
  repeat (unfold bind at 1; cbn [ret print record of_option]).
  cbn [results_json stdout calls grad_enabled now config].
  fold cfg1. fold ds. rewrite Hnodes. cbn [of_option ret]. fold st.
  cbn [enumerate List.length seq combine].
  rewrite <- app_assoc. cbn [app]. fold w1.
  unfold bind.
  destruct (fold_loop trainer_eval library device st params 0.1 [(0%nat, train_ratio)] 0 w1)
    as [[wam|e] w2]; reflexivity.
Qed.

(** The product is the binary64 one: for the first fold of the schedule on
    90 graphs it is just below 63, and the train size is 62. *)
Example train_size_is_truncated_binary64 :
  int_of_float (0.7 * float_of_len 90) = Some 62.
Proof. vm_compute. reflexivity. Qed.

(** A whole run: grid entry 0, last fold of the schedule, 100 graphs. *)
Example driver_on_100_graphs :
  let run := train_expanding_window_grid_search
               (Sample.get_processed_dataset 100) Sample.trainer_eval Sample.library
               Sample.config Sample.param_grid "cpu" 0 2 Sample.world in
  fst run = Returned ([], None, None) /\
  firstn 5 (calls (snd run))
  = [GetProcessedDataset [("BATCH_SIZE"%string, VInt 50);
                          ("N_PRED"%string, VInt 9); ("N_HIST"%string, VInt 12)];
     GraphDataLoader (range 0 90) (VInt 50);
     GraphDataLoader (range 90 100) (VInt 50);
     NewModel (VInt 12) (VInt 9) (VInt 4) (VFloat 0.1) "cpu";
     Adam (VFloat 5e-3) (VFloat 5e-5)] /\
  List.length (filter is_TrainerTrain (calls (snd run))) = 50%nat /\
  List.length (filter is_TrainerEval (calls (snd run))) = 11%nat /\
  exists mae,
    results_json (snd run)
    = Some (Text (JDict [("Results"%string,
         JList [result_record
                  [("N_HIST"%string, VInt 12); ("N_PRED"%string, VInt 9);
                   ("DROPOUT"%string, VFloat 0.1);
                   ("INITIAL_LR"%string, VFloat 5e-3);
                   ("WEIGHT_DECAY"%string, VFloat 5e-5)]
                  0.9 mae "2025-03-01 12:00:00.000000"])])).
Proof.
  cbv zeta. repeat split; try (vm_compute; reflexivity).
  eexists. vm_compute. reflexivity.
Qed.

(** C9.  Whenever [train_expanding_window_grid_search] returns, whatever
    the configuration, the grid, the indices, the collaborators and the
    world, it returns the empty results dictionary, [None] for the best
    model and [None] for the best hyperparameters. *)
Theorem C9_returns_empty_results_and_no_best
    (get_processed_dataset : dict value -> Dataset)
    (trainer_eval : list call -> float) (library : Library)
    (cfg : dict value) (param_grid : dict (list value)) (device : string)
    (param_index fold_index : Z) (w w' : World)
    (r : dict value * option state_dict * option (dict value)) :
  train_expanding_window_grid_search get_processed_dataset trainer_eval library cfg
    param_grid device param_index fold_index w = (Returned r, w') ->
  r = ([], None, None).
Proof.
  unfold train_expanding_window_grid_search. intros H.
  apply bind_returned in H as (train_ratio & w1 & _ & H).
  apply bind_returned in H as (param_set & w2 & _ & H).
  apply bind_returned in H as (u & w3 & _ & H).
  unfold ret in H. now injection H as <- _.
Qed.

Lemma C9_returns_empty_results_and_no_best_witness :
  fst (train_expanding_window_grid_search
         (Sample.get_processed_dataset 100) Sample.trainer_eval Sample.library
         Sample.config Sample.param_grid "cpu" 0 2 Sample.world)
  = Returned ([], None, None).
Proof.
  destruct (train_expanding_window_grid_search
              (Sample.get_processed_dataset 100) Sample.trainer_eval Sample.library
              Sample.config Sample.param_grid "cpu" 0 2 Sample.world)
    as [[r|e] w'] eqn:E; cbn [fst].
  - f_equal.
    exact (C9_returns_empty_results_and_no_best _ _ _ _ _ _ _ _ _ _ _ E).
  - vm_compute in E. discriminate E.
Defined.

End DriverFacts.

(** ** The run script: train, or load *)

Section RunFacts.
Import Py Run.

Lemma load_checkpoints_never_trains (lib : Callees) (config : dict cfg)
    (model_path attn_path : string) :
  existsb is_ModelTrain (fst (load_checkpoints lib config model_path attn_path))
  = false.
Proof.
  unfold load_checkpoints, get, try_.
  destruct (dict_get config "N_HIST") as [h|]; [|reflexivity].
  destruct (dict_get config "N_PRED") as [p|]; [|reflexivity].
  destruct (dict_get config "N_NODE") as [n|]; [|reflexivity].
  destruct (dict_get config "DROPOUT") as [d|]; [|reflexivity].
  destruct (new_ST_GAT_raises lib h p n d); [reflexivity|].
  destruct (load_state_dict_raises lib model_path); [reflexivity|].
  destruct (torch_load_raises lib attn_path); reflexivity.
Qed.

Lemma train_and_save_never_loads (lib : Callees) (save_model save_attention : bool)
    (config : dict cfg) (nodes : option Z) (model_path attn_path : string) :
  existsb is_load
    (fst (train_and_save lib save_model save_attention config nodes
                         model_path attn_path))
  = false.
Proof.
  unfold train_and_save, get, try_.
  destruct (dict_get config "BATCH_SIZE") as [b|]; [|reflexivity].
  destruct (new_GraphDataLoader_raises lib "d_train" b true); [reflexivity|].
  destruct (new_GraphDataLoader_raises lib "d_val" b true); [reflexivity|].
  destruct nodes as [n|]; [|reflexivity].
  destruct (model_train_raises lib _); [reflexivity|].
  destruct save_attention, save_model; cbn;
    repeat match goal with
           | |- context [torch_save_raises ?l ?p] =>
               destruct (torch_save_raises l p); cbn
           | |- context [save_model_raises ?l ?p] =>
               destruct (save_model_raises l p); cbn
           end; reflexivity.
Qed.

(** The config that the script itself builds has no "N_NODE" before the
    training branch sets it: on it the loading branch stops at the model's
    construction, whatever the callees would do. *)
Lemma load_checkpoints_on_script_config (lib : Callees)
    (runs_dir model_path attn_path : string) (d_mean d_std_dev : value) :
  load_checkpoints lib (script_config runs_dir d_mean d_std_dev)
                   model_path attn_path
  = ([PrintModelFound model_path], Some (KeyError "N_NODE")).
Proof. reflexivity. Qed.

(** C7.  For any setting of the retrain flag: when the model checkpoint
    exists, the attention checkpoint exists and the flag is unset, the script
    takes the loading branch and never calls the trainer; otherwise, so as
    soon as one of the files is missing or the flag is set, it takes the
    training branch and loads nothing.  But in the loading branch, on the
    config that the script itself builds (lines 29-41, without "N_NODE",
    which only the training branch assigns, at line 65), the script prints
    that the model was found and then raises [KeyError] at line 56: the
    model is not built and neither checkpoint is read.  The script as
    written sets the flag and so always trains. *)
Theorem C7_loading_branch_raises_on_script_config (lib : Callees)
    (retrain save_model save_attention : bool) (exists_ : string -> bool)
    (model_dir runs_dir : string) (d_mean d_std_dev : value)
    (config : dict cfg) (nodes : option Z) :
  let model_path := (model_dir ++ "/model.pth")%string in
  let attn_path := (model_dir ++ "/attention.pth")%string in
  let skip := exists_ model_path && exists_ attn_path && negb retrain in
  let tr := train_or_load lib retrain save_model save_attention exists_
                          model_dir config nodes in
  (skip = true ->
   tr = load_checkpoints lib config model_path attn_path /\
   existsb is_ModelTrain (fst tr) = false) /\
  (skip = false ->
   tr = train_and_save lib save_model save_attention config nodes
                       model_path attn_path /\
   existsb is_load (fst tr) = false) /\
  (skip = true ->
   train_or_load lib retrain save_model save_attention exists_ model_dir
                 (script_config runs_dir d_mean d_std_dev) nodes
   = ([PrintModelFound model_path], Some (KeyError "N_NODE"))) /\
  run lib exists_ model_dir config nodes
  = train_and_save lib SAVE_MODEL SAVE_ATTENTION config nodes
                   model_path attn_path.
Proof.
  intros model_path attn_path skip tr.
  split; [|split; [|split]].
  - intros Hs. unfold tr, train_or_load. fold model_path attn_path skip.
    rewrite Hs. split; [reflexivity | apply load_checkpoints_never_trains].
  - intros Hs. unfold tr, train_or_load. fold model_path attn_path skip.
    rewrite Hs. split; [reflexivity | apply train_and_save_never_loads].
  - intros Hs. unfold train_or_load. fold model_path attn_path skip.
    rewrite Hs. apply load_checkpoints_on_script_config.
  - unfold run, train_or_load, RETRAIN. fold model_path attn_path.
    now rewrite !andb_false_r.
Qed.

(** Both checkpoints there and the flag unset, on the script's config. *)
Example train_or_load_on_script_config :
  train_or_load checking false true false (fun _ => true) "models"
                (script_config "runs" (VFloat 0) (VFloat 1)) (Some 4)
  = ([PrintModelFound "models/model.pth"], Some (KeyError "N_NODE")).
Proof. reflexivity. Qed.

(** The same on a config that has the node count: both files are loaded. *)
Example train_or_load_with_node_count :
  train_or_load checking false true false (fun _ => true) "models"
                (dict_set (script_config "runs" (VFloat 0) (VFloat 1))
                          "N_NODE" (Num (VInt 4)))
                (Some 4)
  = ([PrintModelFound "models/model.pth";
      NewST_GAT (Num (VInt 12)) (Num (VInt 9)) (Num (VInt 4)) (Num (VFloat 0.2));
      LoadStateDict "models/model.pth";
      PrintLoadingAttention "models/attention.pth";
      TorchLoad "models/attention.pth"], None).
Proof. vm_compute. reflexivity. Qed.

End RunFacts.

(** ** The monad of effects *)

Section MonadFacts.
Import Py Effects.

Lemma bind_assoc {A B C} (c : M A) (k : A -> M B) (k' : B -> M C) (w : World) :
  bind (bind c k) k' w = bind c (fun a => bind (k a) k') w.
Proof. unfold bind. destruct (c w) as [[a|e] w1]; reflexivity. Qed.

Lemma bind_cong {A B} (c : M A) (k1 k2 : A -> M B) (w : World) :
  (forall a w1, k1 a w1 = k2 a w1) -> bind c k1 w = bind c k2 w.
Proof.
  intros H. unfold bind. destruct (c w) as [[a|e] w1]; [apply H | reflexivity].
Qed.

End MonadFacts.

(** ** More on the training loop *)

Section EpochValueFacts.
Import Py Effects Search.

Variable trainer_eval : list call -> float.

(** The loop over a concatenation is the loop over the first part followed
    by the loop over the second. *)
Lemma epoch_loop_app (epochs : nat) (l1 l2 : list nat) :
  forall (val_mae : option float) (w : World),
  epoch_loop trainer_eval epochs (l1 ++ l2) val_mae w
  = bind (epoch_loop trainer_eval epochs l1 val_mae)
         (epoch_loop trainer_eval epochs l2) w.
Proof.
  induction l1 as [|e rest IH]; intros val_mae w; [reflexivity|].
  cbn [app epoch_loop].
  rewrite bind_assoc. apply bind_cong; intros w0 w1.
  rewrite bind_assoc. apply bind_cong; intros u w2.
  rewrite bind_assoc. apply bind_cong; intros m w3.
  apply IH.
Qed.

(** The value of the loop: [None] when there is no epoch; otherwise what
    [eval] returned at the last epoch, [E-1], asked after every other call
    of the loop. *)
Lemma epoch_loop_value (E : nat) (w : World) :
  epoch_loop trainer_eval (S E) (seq 0 (S E)) None w
  = (Returned
       (Some (trainer_eval
                (calls w ++ epoch_calls (S E) (grad_enabled w) (seq 0 E)
                         ++ [TrainerTrain E (grad_enabled w)]))),
     {| results_json := results_json w; stdout := stdout w;
        calls := calls w ++ epoch_calls (S E) (grad_enabled w) (seq 0 (S E));
        grad_enabled := grad_enabled w; now := now w |}).
Proof.
  rewrite seq_S. cbn [Nat.add]. rewrite epoch_loop_app.
  unfold bind at 1.
  destruct (epoch_loop_run trainer_eval (S E) (seq 0 E) None w) as [m Hm].
  rewrite Hm. cbn [epoch_loop].
  assert (Hv : validates (S E) E = true).
  { unfold validates. rewrite Nat.sub_succ, Nat.sub_0_r, Nat.eqb_refl.
    apply orb_true_r. }
  change ((E mod 5 =? 0)%nat || (E =? S E - 1)%nat) with (validates (S E) E).
  rewrite Hv.
  unfold epoch_calls. rewrite flat_map_app. cbn [flat_map].
  rewrite Hv, app_nil_r.
  destruct w as [f out cs g t].
  unfold bind, get_world, record, no_grad, ret, set_grad_enabled.
  cbn [results_json stdout calls grad_enabled now].
  rewrite <- !app_assoc. reflexivity.
Qed.

End EpochValueFacts.

(** ** A fold from its size check to its record *)

Section FoldFacts.
Import Py Effects Search Grid.

Variable trainer_eval : list call -> float.
Variable library : Library.

Lemma epoch_table_budget (lr : value) (E : nat) :
  In (lr, E) epoch_table ->
  (exists E', E = S E') /\ forall w, epoch_budget lr w = (Returned E, w).
Proof.
  unfold epoch_table. cbn [In].
  intros [H|[H|[H|[H|[]]]]]; injection H as <- <-;
    (split; [eexists; reflexivity | intros w; reflexivity]).
Qed.

Lemma fold_body_run (device : string) (st : Locals) (params : dict value)
    (val_ratio train_ratio : float) (fold : nat) (train_size val_size : Z)
    (wam : float) (w : World) (ds : Dataset)
    (b nn h p d lr wd : value) (E : nat) (items : list json) :
  dataset st = Some ds ->
  0 <= train_size -> 0 <= val_size -> train_size + val_size <= ds_len ds ->
  dict_get (config st) "BATCH_SIZE" = Some b ->
  dict_get (config st) "N_NODE" = Some nn ->
  dict_get params "N_HIST" = Some h ->
  dict_get params "N_PRED" = Some p ->
  dict_get params "DROPOUT" = Some d ->
  dict_get params "INITIAL_LR" = Some lr ->
  dict_get params "WEIGHT_DECAY" = Some wd ->
  In (lr, E) epoch_table ->
  accepts_setup library train_size val_size b h p nn d lr wd device ->
  log_holds items (results_json w) ->
  let g := grad_enabled w in
  let setup := setup_calls train_size val_size b h p nn d lr wd device in
  let mae := trainer_eval (calls w ++ setup ++ epoch_calls E g (seq 0 (E - 1))
                                   ++ [TrainerTrain (E - 1) g]) in
  fold_body trainer_eval library device st params val_ratio fold train_ratio
            train_size val_size wam w
  = (Returned (wam + train_ratio * mae)%float,
     {| results_json :=
          Some (Text (JDict [("Results"%string,
                  JList (items ++ [result_record params train_ratio mae (now w)]))]));
        stdout := stdout w ++ [MsgFold fold (Z.to_nat train_size) train_ratio
                                       (Z.to_nat val_size) val_ratio;
                               MsgAchieved (Some mae) E fold];
        calls := calls w ++ setup ++ epoch_calls E g (seq 0 E)
                         ++ [ModelToCpu; GcCollect; EmptyCache];
        grad_enabled := g; now := now w |}).
Proof.
  intros Hds H0 H1 Hle Hb Hnn Hh Hp Hd Hlr Hwd HE (Ha1 & Ha2 & Ha3 & Ha4) Hlog
         g setup mae.
  apply epoch_table_budget in HE as [[E' ->] Hbudget].
  subst g setup mae. replace (S E' - 1)%nat with E' by lia.
  unfold fold_body.
  unfold bind at 1. rewrite Hds. cbn [of_option ret].
  unfold bind at 1. rewrite take_subset_in_bounds
    by (apply Forall_forall; intros i Hi; apply in_range in Hi; lia).
  unfold bind at 1. rewrite take_subset_in_bounds
    by (apply Forall_forall; intros i Hi; apply in_range in Hi; lia).
  unfold lookup. rewrite Hb, Hnn, Hh, Hp, Hd, Hlr, Hwd. cbn [of_option].
  rewrite !range_length.
  replace (train_size - 0) with train_size by lia.
  replace (train_size + val_size - train_size) with val_size by lia.
  destruct w as [f out cs g t].
  cbn [results_json stdout calls grad_enabled now] in *.
  do 15 (unfold bind at 1;
         try rewrite Ha1; try rewrite Ha2; try rewrite Ha3; try rewrite Ha4;
         cbn [ret print record call_checked
              results_json stdout calls grad_enabled now]).
  rewrite Hbudget.
  unfold bind at 1. rewrite epoch_loop_value.
  cbn [results_json stdout calls grad_enabled now].
  do 5 (unfold bind at 1;
        cbn [ret print record of_option results_json stdout calls grad_enabled now]).
  unfold bind at 1.
  rewrite (write_fold_result_appends _ _ _ items) by exact Hlog.
  unfold ret, set_results_json, setup_calls.
  cbn [results_json stdout calls grad_enabled now].
  rewrite <- !app_assoc. cbn [app]. reflexivity.
Qed.

End FoldFacts.

(** ** Dictionaries *)

Section DictFacts.
Import Py.

Lemma dict_get_set_same {V} (d : dict V) (k : string) (v : V) :
  dict_get (dict_set d k v) k = Some v.
Proof.
  induction d as [|[k' v'] rest IH]; cbn.
  - now rewrite String.eqb_refl.
  - destruct (String.eqb k k') eqn:E; cbn; rewrite E; [reflexivity | exact IH].
Qed.

Lemma dict_get_set_other {V} (d : dict V) (k k' : string) (v : V) :
  k' <> k -> dict_get (dict_set d k v) k' = dict_get d k'.
Proof.
  intros Hne. induction d as [|[k0 v0] rest IH]; cbn.
  - destruct (String.eqb_spec k' k); [contradiction | reflexivity].
  - destruct (String.eqb_spec k k0) as [->|Hk]; cbn.
    + destruct (String.eqb_spec k' k0); [contradiction | reflexivity].
    + destruct (String.eqb k' k0); [reflexivity | exact IH].
Qed.

Lemma dict_set_fresh {V} (d : dict V) (k : string) (v : V) :
  ~ In k (keys d) -> dict_set d k v = d ++ [(k, v)].
Proof.
  induction d as [|[k' v'] rest IH]; cbn; intros Hk; [reflexivity|].
  destruct (String.eqb_spec k k') as [->|Hne]; [tauto|].
  rewrite IH by tauto. reflexivity.
Qed.

Lemma dict_zip_fresh {V} (ks : list string) :
  forall (vs : list V) (acc : dict V),
  NoDup ks -> (forall k, In k ks -> ~ In k (keys acc)) ->
  fold_left (fun d kv => dict_set d (fst kv) (snd kv)) (combine ks vs) acc
  = acc ++ combine ks vs.
Proof.
  induction ks as [|k ks IH]; intros vs acc Hnd Hfresh; cbn.
  - now rewrite app_nil_r.
  - destruct vs as [|v vs]; cbn; [now rewrite app_nil_r|].
    inversion Hnd as [|? ? Hk Hnd']; subst.
    rewrite dict_set_fresh by (apply Hfresh; now left).
    rewrite IH; [now rewrite <- app_assoc | exact Hnd' |].
    intros k' Hk' Hin. unfold keys in Hin. rewrite map_app in Hin.
    apply in_app_or in Hin as [Hin|Hin].
    + apply (Hfresh k'); [now right | exact Hin].
    + cbn in Hin. destruct Hin as [<-|[]]. contradiction.
Qed.

(** With distinct keys, [dict(zip(ks, vs))] pairs them up in order. *)
Lemma dict_zip_nodup {V} (ks : list string) (vs : list V) :
  NoDup ks -> dict_zip ks vs = combine ks vs.
Proof.
  intros Hnd. unfold dict_zip. rewrite dict_zip_fresh; [reflexivity | exact Hnd |].
  intros k _ [].
Qed.

End DictFacts.

(** ** The grid and the indices *)

Section GridFacts.
Import Py Effects Search Grid.

Lemma product_length {A} (ls : list (list A)) :
  Z.of_nat (List.length (product ls))
  = fold_right Z.mul 1 (map (fun l => Z.of_nat (List.length l)) ls).
Proof.
  induction ls as [|l rest IH]; [reflexivity|].
  cbn [product map fold_right]. rewrite <- IH. clear IH.
  induction l as [|x l IHl]; cbn [flat_map List.length]; [lia|].
  rewrite length_app, length_map, Nat2Z.inj_add, IHl. cbn [List.length]. lia.
Qed.

Lemma product_In {A} (ls : list (list A)) :
  forall c, In c (product ls) -> Forall2 (fun x l => In x l) c ls.
Proof.
  induction ls as [|l rest IH]; intros c Hc; cbn in Hc.
  - destruct Hc as [<-|[]]. constructor.
  - apply in_flat_map in Hc as (x & Hx & Hc).
    apply in_map_iff in Hc as (c' & <- & Hc'). constructor; auto.
Qed.

Lemma getitem_out_of_range {A} (l : list A) (i : Z) :
  i < - Z.of_nat (List.length l) \/ Z.of_nat (List.length l) <= i ->
  getitem l i = None.
Proof.
  intros H. unfold getitem.
  destruct (Z.leb_spec 0 i), (Z.ltb_spec i (Z.of_nat (List.length l)));
    cbn [andb]; try lia;
    destruct (Z.leb_spec (- Z.of_nat (List.length l)) i), (Z.ltb_spec i 0);
    cbn [andb]; try lia; reflexivity.
Qed.

Lemma getitem_in_range {A} (l : list A) (i : Z) :
  - Z.of_nat (List.length l) <= i < Z.of_nat (List.length l) ->
  exists x, getitem l i = Some x /\ In x l.
Proof.
  intros H. unfold getitem.
  destruct (Z.leb_spec 0 i), (Z.ltb_spec i (Z.of_nat (List.length l)));
    cbn [andb]; try lia.
  - destruct (nth_error l (Z.to_nat i)) as [x|] eqn:E.
    + exists x. split; [reflexivity | eapply nth_error_In; eassumption].
    + apply nth_error_None in E. lia.
  - destruct (Z.leb_spec (- Z.of_nat (List.length l)) i), (Z.ltb_spec i 0);
      cbn [andb]; try lia.
    destruct (nth_error l (Z.to_nat (Z.of_nat (List.length l) + i))) as [x|] eqn:E.
    + exists x. split; [reflexivity | eapply nth_error_In; eassumption].
    + apply nth_error_None in E. lia.
Qed.

Lemma getitem_In {A} (l : list A) (i : Z) (x : A) :
  getitem l i = Some x -> In x l.
Proof.
  unfold getitem.
  destruct ((0 <=? i) && (i <? Z.of_nat (List.length l)));
    [apply nth_error_In|].
  destruct ((- Z.of_nat (List.length l) <=? i) && (i <? 0));
    [apply nth_error_In | discriminate].
Qed.

End GridFacts.

(** ** Whole runs of the driver *)

Section RunOfDriver.
Import Py Effects Search Grid.

Variable get_processed_dataset : dict value -> Dataset.
Variable trainer_eval : list call -> float.
Variable library : Library.

(** One trip through the fold loop. *)
Lemma fold_loop_cons (device : string) (st : Locals) (params : dict value)
    (val_ratio train_ratio : float) (fold : nat) (rest : list (nat * float))
    (wam : float) (w : World) (n train_size val_size : Z) :
  num_graphs st = Some n ->
  int_of_float (train_ratio * float_of_len n) = Some train_size ->
  int_of_float (val_ratio * float_of_len n) = Some val_size ->
  fold_loop trainer_eval library device st params val_ratio
            ((fold, train_ratio) :: rest) wam w
  = (if train_size + val_size >? n
     then bind (print MsgSizeError) (fun _ => ret wam)
     else bind (fold_body trainer_eval library device st params val_ratio fold
                          train_ratio train_size val_size wam)
               (fold_loop trainer_eval library device st params val_ratio rest)) w.
Proof.
  intros Hn Ht Hv.
  cbn [fold_loop]. unfold bind at 1. rewrite Hn. cbn [of_option ret].
  unfold bind at 1. rewrite Ht. cbn [of_option ret].
  unfold bind at 1. rewrite Hv. cbn [of_option ret]. reflexivity.
Qed.

(** A fold whose learning rate has no budget: the data loaders, the model
    and the optimizer are built (the libraries accepting them), then the
    error line and the raise. *)
Lemma fold_body_unsupported_run (device : string) (st : Locals)
    (params : dict value) (val_ratio train_ratio : float) (fold : nat)
    (train_size val_size : Z) (wam : float) (w : World) (ds : Dataset)
    (b nn h p d lr wd : value) :
  dataset st = Some ds ->
  0 <= train_size -> 0 <= val_size -> train_size + val_size <= ds_len ds ->
  dict_get (config st) "BATCH_SIZE" = Some b ->
  dict_get (config st) "N_NODE" = Some nn ->
  dict_get params "N_HIST" = Some h ->
  dict_get params "N_PRED" = Some p ->
  dict_get params "DROPOUT" = Some d ->
  dict_get params "INITIAL_LR" = Some lr ->
  dict_get params "WEIGHT_DECAY" = Some wd ->
  (forall E, ~ In (lr, E) epoch_table) ->
  accepts_setup library train_size val_size b h p nn d lr wd device ->
  fold_body trainer_eval library device st params val_ratio fold train_ratio
            train_size val_size wam w
  = (Raised RuntimeError,
     {| results_json := results_json w;
        stdout := stdout w ++ [MsgFold fold (Z.to_nat train_size) train_ratio
                                       (Z.to_nat val_size) val_ratio;
                               MsgEpochError];
        calls := calls w ++ setup_calls train_size val_size b h p nn d lr wd device;
        grad_enabled := grad_enabled w; now := now w |}).
Proof.
  intros Hds H0 H1 Hle Hb Hnn Hh Hp Hd Hlr Hwd HE (Ha1 & Ha2 & Ha3 & Ha4).
  assert (Hbudget : forall w, epoch_budget lr w
            = (Raised RuntimeError,
               {| results_json := results_json w;
                  stdout := stdout w ++ [MsgEpochError];
                  calls := calls w; grad_enabled := grad_enabled w;
                  now := now w |})).
  { intros w0. apply epoch_budget_unsupported; intros ->;
      [apply (HE 100%nat) | apply (HE 80%nat) | apply (HE 70%nat)
       | apply (HE 50%nat)]; cbn; tauto. }
  unfold fold_body.
  unfold bind at 1. rewrite Hds. cbn [of_option ret].
  unfold bind at 1. rewrite take_subset_in_bounds
    by (apply Forall_forall; intros i Hi; apply in_range in Hi; lia).
  unfold bind at 1. rewrite take_subset_in_bounds
    by (apply Forall_forall; intros i Hi; apply in_range in Hi; lia).
  unfold lookup. rewrite Hb, Hnn, Hh, Hp, Hd, Hlr, Hwd. cbn [of_option].
  rewrite !range_length.
  replace (train_size - 0) with train_size by lia.
  replace (train_size + val_size - train_size) with val_size by lia.
  destruct w as [f out cs g t].
  cbn [results_json stdout calls grad_enabled now] in *.
  do 15 (unfold bind at 1;
         try rewrite Ha1; try rewrite Ha2; try rewrite Ha3; try rewrite Ha4;
         cbn [ret print record call_checked
              results_json stdout calls grad_enabled now]).
  rewrite Hbudget. unfold setup_calls.
  cbn [results_json stdout calls grad_enabled now].
  rewrite <- !app_assoc. cbn [app]. reflexivity.
Qed.

(** With valid indices, the window sizes in the combination, a dataset that
    is not empty and sizes that pass the check, the driver is the body of
    the one selected fold, run after the dataset is built. *)
Lemma driver_reaches_fold_body
    (cfg : dict value) (param_grid : dict (list value)) (device : string)
    (param_index fold_index : Z) (w : World)
    (train_ratio : float) (param_set : list value) (n_pred n_hist : value)
    (nodes train_size val_size : Z) :
  getitem [0.7; 0.8; 0.9]%float fold_index = Some train_ratio ->
  getitem (product (values param_grid)) param_index = Some param_set ->
  let params := dict_zip (keys param_grid) param_set in
  dict_get params "N_PRED" = Some n_pred ->
  dict_get params "N_HIST" = Some n_hist ->
  let cfg1 := dict_set (dict_set cfg "N_PRED" n_pred) "N_HIST" n_hist in
  let ds := get_processed_dataset cfg1 in
  first_graph_nodes ds = Some nodes ->
  int_of_float (train_ratio * float_of_len (ds_len ds)) = Some train_size ->
  int_of_float (0.1 * float_of_len (ds_len ds)) = Some val_size ->
  train_size + val_size <= ds_len ds ->
  let st :=
    {| config := dict_set (dict_set (dict_set cfg1 "D_MEAN" (d_mean ds))
                                    "D_STD_DEV" (d_std_dev ds))
                          "N_NODE" (VInt nodes);
       prev_npred := Some n_pred; prev_nhist := Some n_hist;
       dataset := Some ds; num_graphs := Some (ds_len ds) |} in
  let w1 :=
    {| results_json := results_json w;
       stdout := stdout w ++ [MsgTesting params; MsgRegenerating];
       calls := calls w ++ [GetProcessedDataset cfg1];
       grad_enabled := grad_enabled w; now := now w |} in
  train_expanding_window_grid_search get_processed_dataset trainer_eval library cfg
    param_grid device param_index fold_index w
  = bind (fold_body trainer_eval library device st params 0.1 0 train_ratio
                    train_size val_size 0)
         (fun _ => ret ([], None, None)) w1.
Proof.
  intros Hfi Hpi params Hp Hh cfg1 ds Hnodes Ht Hv Hle st w1.
  rewrite (driver_runs_selected_fold _ _ library _ _ _ _ _ _ _ _ _ _ _
             Hfi Hpi Hp Hh Hnodes).
  fold params cfg1 ds st w1.
  unfold bind at 1.
  rewrite (fold_loop_cons device st params 0.1 train_ratio 0 [] 0 w1
             (ds_len ds) train_size val_size eq_refl Ht Hv).
  rewrite Z.gtb_ltb.
  destruct (Z.ltb_spec (ds_len ds) (train_size + val_size)); [lia|].
  unfold bind.
  destruct (fold_body trainer_eval library device st params 0.1 0 train_ratio
                      train_size val_size 0 w1) as [[wam|e] w2]; reflexivity.
Qed.

Lemma config_after_rebuild (cfg : dict value) (b n_pred n_hist m s n : value) :
  dict_get cfg "BATCH_SIZE" = Some b ->
  dict_get
    (dict_set (dict_set (dict_set (dict_set (dict_set cfg "N_PRED" n_pred)
                                            "N_HIST" n_hist)
                                  "D_MEAN" m) "D_STD_DEV" s) "N_NODE" n)
    "BATCH_SIZE" = Some b.
Proof.
  intros Hb. now rewrite !dict_get_set_other by discriminate.
Qed.

(** X4.  A run that goes through.  With valid indices, the five
    hyperparameters in the selected combination, a learning rate of the
    table, a batch size in the config, a dataset that is not empty, sizes
    that are not negative and pass the check, and data loaders, a model and
    an optimizer that torch and dgl accept, the driver returns
    [({}, None, None)] after: printing the combination and the
    regeneration line, building the dataset from the config with N_PRED and
    N_HIST set, building the two data loaders over [0, train_size) and
    [train_size, train_size + val_size), the model and the optimizer, running
    the epochs of the budget, printing the fold and the achieved MAE,
    releasing the model, and appending one record to the log after the
    records it held.  The MAE of the record is the one [eval] returned at
    the last epoch. *)
Theorem driver_successful_run
    (cfg : dict value) (param_grid : dict (list value)) (device : string)
    (param_index fold_index : Z) (w : World)
    (train_ratio : float) (param_set : list value)
    (p h d lr wd b : value) (E : nat)
    (nodes train_size val_size : Z) (items : list json) :
  getitem [0.7; 0.8; 0.9]%float fold_index = Some train_ratio ->
  getitem (product (values param_grid)) param_index = Some param_set ->
  let params := dict_zip (keys param_grid) param_set in
  dict_get params "N_PRED" = Some p ->
  dict_get params "N_HIST" = Some h ->
  dict_get params "DROPOUT" = Some d ->
  dict_get params "INITIAL_LR" = Some lr ->
  dict_get params "WEIGHT_DECAY" = Some wd ->
  In (lr, E) epoch_table ->
  dict_get cfg "BATCH_SIZE" = Some b ->
  let cfg1 := dict_set (dict_set cfg "N_PRED" p) "N_HIST" h in
  let ds := get_processed_dataset cfg1 in
  first_graph_nodes ds = Some nodes ->
  int_of_float (train_ratio * float_of_len (ds_len ds)) = Some train_size ->
  int_of_float (0.1 * float_of_len (ds_len ds)) = Some val_size ->
  0 <= train_size -> 0 <= val_size -> train_size + val_size <= ds_len ds ->
  accepts_setup library train_size val_size b h p (VInt nodes) d lr wd device ->
  log_holds items (results_json w) ->
  let g := grad_enabled w in
  let before :=
    calls w ++ [GetProcessedDataset cfg1]
            ++ setup_calls train_size val_size b h p (VInt nodes) d lr wd device in
  let mae :=
    trainer_eval (before ++ epoch_calls E g (seq 0 (E - 1))
                         ++ [TrainerTrain (E - 1) g]) in
  train_expanding_window_grid_search get_processed_dataset trainer_eval library cfg
    param_grid device param_index fold_index w
  = (Returned ([], None, None),
     {| results_json :=
          Some (Text (JDict [("Results"%string,
                  JList (items ++ [result_record params train_ratio mae (now w)]))]));
        stdout := stdout w ++ [MsgTesting params; MsgRegenerating;
                               MsgFold 0 (Z.to_nat train_size) train_ratio
                                       (Z.to_nat val_size) 0.1;
                               MsgAchieved (Some mae) E 0];
        calls := before ++ epoch_calls E g (seq 0 E)
                        ++ [ModelToCpu; GcCollect; EmptyCache];
        grad_enabled := g; now := now w |}).
Proof.
  intros Hfi Hpi params Hp Hh Hd Hlr Hwd HE Hb cfg1 ds Hnodes Ht Hv H0 H1 Hle
         Hacc Hlog g before mae.
  rewrite (driver_reaches_fold_body cfg param_grid device param_index fold_index
             w train_ratio param_set p h nodes train_size val_size
             Hfi Hpi Hp Hh Hnodes Ht Hv Hle).
  fold params cfg1 ds.
  unfold bind at 1.
  erewrite (fold_body_run trainer_eval library device _ params 0.1 train_ratio 0
              train_size val_size 0 _ ds b (VInt nodes) h p d lr wd E items);
    try eassumption; try reflexivity.
  - subst mae before g. unfold ret.
    cbn [results_json stdout calls grad_enabled now].
    rewrite <- !app_assoc. cbn [app]. reflexivity.
  - cbn [config]. now apply config_after_rebuild.
  - cbn [config]. apply dict_get_set_same.
Qed.

(** X5.  A run with a learning rate outside the table.  Under the same
    conditions as a run that goes through (the data loaders, the model and
    the optimizer being such that torch and dgl accept them), but with a
    learning rate that has no budget, the driver raises [RuntimeError] after
    the dataset, the data loaders, the model and the optimizer were built:
    the error line is the last thing printed, the trainer is never called
    and the results log is left as it was. *)
Theorem driver_unsupported_rate_run
    (cfg : dict value) (param_grid : dict (list value)) (device : string)
    (param_index fold_index : Z) (w : World)
    (train_ratio : float) (param_set : list value)
    (p h d lr wd b : value)
    (nodes train_size val_size : Z) :
  getitem [0.7; 0.8; 0.9]%float fold_index = Some train_ratio ->
  getitem (product (values param_grid)) param_index = Some param_set ->
  let params := dict_zip (keys param_grid) param_set in
  dict_get params "N_PRED" = Some p ->
  dict_get params "N_HIST" = Some h ->
  dict_get params "DROPOUT" = Some d ->
  dict_get params "INITIAL_LR" = Some lr ->
  dict_get params "WEIGHT_DECAY" = Some wd ->
  (forall E, ~ In (lr, E) epoch_table) ->
  dict_get cfg "BATCH_SIZE" = Some b ->
  let cfg1 := dict_set (dict_set cfg "N_PRED" p) "N_HIST" h in
  let ds := get_processed_dataset cfg1 in
  first_graph_nodes ds = Some nodes ->
  int_of_float (train_ratio * float_of_len (ds_len ds)) = Some train_size ->
  int_of_float (0.1 * float_of_len (ds_len ds)) = Some val_size ->
  0 <= train_size -> 0 <= val_size -> train_size + val_size <= ds_len ds ->
  accepts_setup library train_size val_size b h p (VInt nodes) d lr wd device ->
  train_expanding_window_grid_search get_processed_dataset trainer_eval library cfg
    param_grid device param_index fold_index w
  = (Raised RuntimeError,
     {| results_json := results_json w;
        stdout := stdout w ++ [MsgTesting params; MsgRegenerating;
                               MsgFold 0 (Z.to_nat train_size) train_ratio
                                       (Z.to_nat val_size) 0.1;
                               MsgEpochError];
        calls := calls w ++ [GetProcessedDataset cfg1]
                   ++ setup_calls train_size val_size b h p (VInt nodes) d lr wd
                                  device;
        grad_enabled := grad_enabled w; now := now w |}).
Proof.
  intros Hfi Hpi params Hp Hh Hd Hlr Hwd HE Hb cfg1 ds Hnodes Ht Hv H0 H1 Hle
         Hacc.
  rewrite (driver_reaches_fold_body cfg param_grid device param_index fold_index
             w train_ratio param_set p h nodes train_size val_size
             Hfi Hpi Hp Hh Hnodes Ht Hv Hle).
  fold params cfg1 ds.
  unfold bind at 1.
  erewrite (fold_body_unsupported_run device _ params 0.1 train_ratio 0
              train_size val_size 0 _ ds b (VInt nodes) h p d lr wd);
    try eassumption; try reflexivity.
  - cbn [results_json stdout calls grad_enabled now].
    rewrite <- !app_assoc. cbn [app]. reflexivity.
  - cbn [config]. now apply config_after_rebuild.
  - cbn [config]. apply dict_get_set_same.
Qed.

(** X1.  An index outside its range.  When [fold_index] is not one of
    -3 .. 2, or [param_index] is not between minus the number of
    combinations of the grid and that number less one (the number being the
    product of the sizes of the grid's lists), the driver raises
    [IndexError] before it prints, builds or writes anything. *)
Theorem driver_index_out_of_range
    (cfg : dict value) (param_grid : dict (list value)) (device : string)
    (param_index fold_index : Z) (w : World) :
  (fold_index < -3 \/ 3 <= fold_index) \/
  (param_index < - num_combinations param_grid \/
   num_combinations param_grid <= param_index) ->
  train_expanding_window_grid_search get_processed_dataset trainer_eval library cfg
    param_grid device param_index fold_index w
  = (Raised IndexError, w).
Proof.
  intros H. unfold train_expanding_window_grid_search.
  unfold bind at 1.
  destruct (getitem [0.7; 0.8; 0.9]%float fold_index) as [r|] eqn:Ef;
    [|reflexivity].
  cbn [of_option ret]. unfold bind at 1.
  destruct H as [H|H].
  - rewrite getitem_out_of_range in Ef by (cbn [List.length]; lia).
    discriminate Ef.
  - rewrite getitem_out_of_range; [reflexivity|].
    rewrite product_length. exact H.
Qed.

(** X3.  A grid without a window size.  With valid indices, when the
    selected combination has no "N_PRED", or has it but no "N_HIST", the
    driver raises the [KeyError] of that key right after printing the
    combination: no dataset is built and nothing is written. *)
Theorem driver_missing_window_size
    (cfg : dict value) (param_grid : dict (list value)) (device : string)
    (param_index fold_index : Z) (w : World)
    (train_ratio : float) (param_set : list value) (key : string) :
  getitem [0.7; 0.8; 0.9]%float fold_index = Some train_ratio ->
  getitem (product (values param_grid)) param_index = Some param_set ->
  let params := dict_zip (keys param_grid) param_set in
  (dict_get params "N_PRED" = None /\ key = "N_PRED"%string) \/
  (dict_get params "N_PRED" <> None /\ dict_get params "N_HIST" = None /\
   key = "N_HIST"%string) ->
  train_expanding_window_grid_search get_processed_dataset trainer_eval library cfg
    param_grid device param_index fold_index w
  = (Raised (KeyError key),
     {| results_json := results_json w;
        stdout := stdout w ++ [MsgTesting params];
        calls := calls w; grad_enabled := grad_enabled w; now := now w |}).
Proof.
  intros Hfi Hpi params H.
  unfold train_expanding_window_grid_search.
  unfold bind at 1. rewrite Hfi. cbn [of_option ret].
  unfold bind at 1. rewrite Hpi. cbn [of_option ret].
  cbn [params_loop]. fold params.
  unfold bind at 1. unfold bind at 1. cbn [print].
  unfold bind at 1. unfold rebuild_dataset_if_changed.
  unfold bind at 1. unfold lookup.
  destruct H as [[Hp ->]|(Hp & Hh & ->)].
  - rewrite Hp. reflexivity.
  - destruct (dict_get params "N_PRED") as [p|]; [|contradiction].
    rewrite Hh. cbn [of_option ret ne_opt prev_npred].
    unfold bind at 1. cbn [ret].
    unfold bind at 1. cbn [ret].
    unfold bind at 1. reflexivity.
Qed.

End RunOfDriver.

(** ** The size check of a fold *)

Section FoldSizeFacts.
Import Py Effects Search Grid.

(** C3.  The driver runs the fold loop on the selected train ratio with
    validation ratio 0.1 and [num_graphs = len(dataset)].  A fold of the loop
    computes [train_size = int(train_ratio * num_graphs)] and [val_size =
    int(val_ratio * num_graphs)], the products being binary64 products and
    [int] truncating them: 0.7 on 90 graphs gives 62, one less than the
    floor of the exact product.  Then:
    - when [train_size + val_size > num_graphs] it prints the error line and
      leaves the loop: it returns without raising, the later folds are not
      run, no collaborator is called and the results file is untouched;
    - otherwise it goes on to the body of the fold and then to the next
      fold; with sizes that are not negative both slices are taken without
      an [IndexError], and with the settings in place (the batch size and
      node count in the config, the five hyperparameters, a learning rate of
      the table, constructions that the libraries accept, a well-formed
      log) the fold builds its data loaders over the graphs
      [0, train_size) and [train_size, train_size + val_size), trains for
      the epochs of the budget and appends one record to the log, before
      the loop goes on with the next fold.
    For train ratio 0.9 and validation ratio 0.1, 100 graphs give 90 + 10 =
    100 and 99 graphs give 89 + 9 = 98; both pass. *)
Theorem C3_fold_size_check :
  (forall (get_processed_dataset : dict value -> Dataset)
          (trainer_eval : list call -> float) (library : Library)
          (cfg : dict value) (param_grid : dict (list value)) (device : string)
          (param_index fold_index : Z) (w : World)
          (train_ratio : float) (param_set : list value)
          (n_pred n_hist : value) (nodes : Z),
      getitem [0.7; 0.8; 0.9]%float fold_index = Some train_ratio ->
      getitem (product (values param_grid)) param_index = Some param_set ->
      let params := dict_zip (keys param_grid) param_set in
      dict_get params "N_PRED" = Some n_pred ->
      dict_get params "N_HIST" = Some n_hist ->
      let cfg1 := dict_set (dict_set cfg "N_PRED" n_pred) "N_HIST" n_hist in
      let ds := get_processed_dataset cfg1 in
      first_graph_nodes ds = Some nodes ->
      let st :=
        {| config := dict_set (dict_set (dict_set cfg1 "D_MEAN" (d_mean ds))
                                        "D_STD_DEV" (d_std_dev ds))
                              "N_NODE" (VInt nodes);
           prev_npred := Some n_pred; prev_nhist := Some n_hist;
           dataset := Some ds; num_graphs := Some (ds_len ds) |} in
      let w1 :=
        {| results_json := results_json w;
           stdout := stdout w ++ [MsgTesting params; MsgRegenerating];
           calls := calls w ++ [GetProcessedDataset cfg1];
           grad_enabled := grad_enabled w; now := now w |} in
      train_expanding_window_grid_search get_processed_dataset trainer_eval
        library cfg param_grid device param_index fold_index w
      = bind (fold_loop trainer_eval library device st params 0.1
                        [(0%nat, train_ratio)] 0)
             (fun _ => ret ([], None, None)) w1) /\
  (forall (trainer_eval : list call -> float) (library : Library)
          (device : string) (st : Locals)
          (params : dict value) (val_ratio train_ratio : float) (fold : nat)
          (rest : list (nat * float)) (wam : float) (w : World)
          (n train_size val_size : Z),
      num_graphs st = Some n ->
      int_of_float (train_ratio * float_of_len n) = Some train_size ->
      int_of_float (val_ratio * float_of_len n) = Some val_size ->
      (n < train_size + val_size ->
       fold_loop trainer_eval library device st params val_ratio
                 ((fold, train_ratio) :: rest) wam w
       = (Returned wam,
          {| results_json := results_json w;
             stdout := stdout w ++ [MsgSizeError];
             calls := calls w; grad_enabled := grad_enabled w;
             now := now w |})) /\
      (train_size + val_size <= n ->
       fold_loop trainer_eval library device st params val_ratio
                 ((fold, train_ratio) :: rest) wam w
       = bind (fold_body trainer_eval library device st params val_ratio fold
                         train_ratio train_size val_size wam)
              (fold_loop trainer_eval library device st params val_ratio rest) w
       /\ (forall ds w1,
              ds_len ds = n -> 0 <= train_size -> 0 <= val_size ->
              take_subset ds (range 0 train_size) w1
              = (Returned (range 0 train_size), w1) /\
              take_subset ds (range train_size (train_size + val_size)) w1
              = (Returned (range train_size (train_size + val_size)), w1))
       /\ (forall (ds : Dataset) (b nn h p d lr wd : value) (E : nat)
                  (items : list json),
              dataset st = Some ds -> ds_len ds = n ->
              0 <= train_size -> 0 <= val_size ->
              dict_get (config st) "BATCH_SIZE" = Some b ->
              dict_get (config st) "N_NODE" = Some nn ->
              dict_get params "N_HIST" = Some h ->
              dict_get params "N_PRED" = Some p ->
              dict_get params "DROPOUT" = Some d ->
              dict_get params "INITIAL_LR" = Some lr ->
              dict_get params "WEIGHT_DECAY" = Some wd ->
              In (lr, E) epoch_table ->
              accepts_setup library train_size val_size b h p nn d lr wd device ->
              log_holds items (results_json w) ->
              let g := grad_enabled w in
              let setup :=
                setup_calls train_size val_size b h p nn d lr wd device in
              let mae :=
                trainer_eval (calls w ++ setup
                                ++ epoch_calls E g (seq 0 (E - 1))
                                ++ [TrainerTrain (E - 1) g]) in
              fold_loop trainer_eval library device st params val_ratio
                        ((fold, train_ratio) :: rest) wam w
              = fold_loop trainer_eval library device st params val_ratio rest
                  (wam + train_ratio * mae)%float
                  {| results_json :=
                       Some (Text (JDict [("Results"%string,
                         JList (items ++ [result_record params train_ratio mae
                                                        (now w)]))]));
                     stdout :=
                       stdout w ++ [MsgFold fold (Z.to_nat train_size) train_ratio
                                            (Z.to_nat val_size) val_ratio;
                                    MsgAchieved (Some mae) E fold];
                     calls := calls w ++ setup ++ epoch_calls E g (seq 0 E)
                                      ++ [ModelToCpu; GcCollect; EmptyCache];
                     grad_enabled := g; now := now w |}))) /\
  (int_of_float (0.9 * float_of_len 100) = Some 90 /\
   int_of_float (0.1 * float_of_len 100) = Some 10 /\ 90 + 10 <= 100) /\
  (int_of_float (0.9 * float_of_len 99) = Some 89 /\
   int_of_float (0.1 * float_of_len 99) = Some 9 /\ 89 + 9 <= 99) /\
  (int_of_float (0.7 * float_of_len 90) = Some 62 /\
   specified_floor_size 7 90 = 63).
Proof.
  split; [exact driver_runs_selected_fold|].
  split;
    [|split; [|split]; split;
      try (vm_compute; reflexivity);
      try (split; [vm_compute; reflexivity | lia])].
  intros trainer_eval library device st params val_ratio train_ratio fold rest
         wam w n train_size val_size Hn Ht Hv.
  rewrite (fold_loop_cons trainer_eval library device st params val_ratio
             train_ratio fold rest wam w n train_size val_size Hn Ht Hv).
  rewrite Z.gtb_ltb. split.
  - intros Hgt. destruct (Z.ltb_spec n (train_size + val_size)); [|lia].
    reflexivity.
  - intros Hle. destruct (Z.ltb_spec n (train_size + val_size)); [lia|].
    split; [reflexivity|]. split.
    + intros ds w1 Hds H0 H1. split; apply take_subset_in_bounds;
        apply Forall_forall; intros i Hi; apply in_range in Hi; lia.
    + intros ds b nn h p d lr wd E items Hds Hlen H0 H1 Hb Hnn Hh Hp Hd Hlr Hwd
             HE Hacc Hlog g setup mae.
      unfold bind at 1.
      rewrite (fold_body_run trainer_eval library device st params val_ratio
                 train_ratio fold train_size val_size wam w ds b nn h p d lr wd
                 E items Hds H0 H1 ltac:(lia) Hb Hnn Hh Hp Hd Hlr Hwd HE Hacc
                 Hlog).
      reflexivity.
Qed.

Lemma C3_fold_size_check_witness :
  fold_loop Sample.trainer_eval Sample.library "cpu" (Sample.locals 100)
            Sample.params 0.1 [(0%nat, 0.95%float); (1%nat, 0.5%float)] 0
            Sample.world
  = (Returned 0%float,
     {| results_json := None; stdout := [MsgSizeError]; calls := [];
        grad_enabled := true; now := "2025-03-01 12:00:00.000000" |}) /\
  exists mae,
    fold_loop Sample.trainer_eval Sample.library "cpu" (Sample.locals 100)
              Sample.params 0.1 [(0%nat, 0.9%float)] 0 Sample.world
    = (Returned (0 + 0.9 * mae)%float,
       {| results_json :=
            Some (Text (JDict [("Results"%string,
              JList [result_record Sample.params 0.9 mae
                                   "2025-03-01 12:00:00.000000"])]));
          stdout := [MsgFold 0 90 0.9 10 0.1; MsgAchieved (Some mae) 50 0];
          calls := setup_calls 90 10 (VInt 50) (VInt 12) (VInt 9) (VInt 4)
                               (VFloat 0.1) (VFloat 5e-3) (VFloat 5e-5) "cpu"
                   ++ epoch_calls 50 true (seq 0 50)
                   ++ [ModelToCpu; GcCollect; EmptyCache];
          grad_enabled := true; now := "2025-03-01 12:00:00.000000" |}).
Proof.
  split.
  - apply (proj1 (proj1 (proj2 C3_fold_size_check) Sample.trainer_eval
                    Sample.library "cpu"%string
                    (Sample.locals 100) Sample.params 0.1%float 0.95%float 0%nat
                    [(1%nat, 0.5%float)] 0%float Sample.world 100 95 10
                    eq_refl eq_refl eq_refl)).
    lia.
  - eexists.
    rewrite (proj2 (proj2 (proj2 (proj1 (proj2 C3_fold_size_check)
                    Sample.trainer_eval Sample.library "cpu"%string
                    (Sample.locals 100) Sample.params 0.1%float 0.9%float 0%nat
                    [] 0%float Sample.world 100 90 10
                    eq_refl eq_refl eq_refl) ltac:(lia)))
               (Sample.get_processed_dataset 100 [])
               (VInt 50) (VInt 4) (VInt 12) (VInt 9) (VFloat 0.1) (VFloat 5e-3)
               (VFloat 5e-5) 50%nat []
               eq_refl eq_refl ltac:(lia) ltac:(lia)
               eq_refl eq_refl eq_refl eq_refl eq_refl eq_refl eq_refl);
      [reflexivity | cbn; tauto | repeat split | now constructor].
Defined.

(** The driver on 90 graphs, first fold of the schedule (train ratio 0.7),
    entry 0 of the grid: the data loaders are built over the graphs
    [0, 62) and [62, 71), where the floor of the exact product is 63. *)
Lemma C3_fold_size_counterexample :
  getitem [0.7; 0.8; 0.9]%float 0 = Some 0.7%float /\
  specified_floor_size 7 90 = 63 /\
  int_of_float (0.7 * float_of_len 90) = Some 62 /\
  firstn 3 (calls (snd (train_expanding_window_grid_search
                          (Sample.get_processed_dataset 90) Sample.trainer_eval
                          Sample.library Sample.config Sample.param_grid
                          "cpu" 0 0 Sample.world)))
  = [GetProcessedDataset [("BATCH_SIZE"%string, VInt 50);
                          ("N_PRED"%string, VInt 9); ("N_HIST"%string, VInt 12)];
     GraphDataLoader (range 0 62) (VInt 50);
     GraphDataLoader (range 62 71) (VInt 50)].
Proof.
  repeat split; vm_compute; reflexivity.
Qed.

End FoldSizeFacts.

(** ** The combination that an index selects *)

Section SelectionFacts.
Import Py Effects Search Grid.

Lemma combine_lookup {V} (grid : dict (list V)) :
  forall (c : list V),
  Forall2 (fun x l => In x l) c (values grid) ->
  keys (combine (keys grid) c) = keys grid /\
  forall k cands, dict_get grid k = Some cands ->
    exists v, dict_get (combine (keys grid) c) k = Some v /\ In v cands.
Proof.
  induction grid as [|[k0 l0] rest IH]; intros c HF; cbn in HF.
  - inversion HF; subst. split; [reflexivity | intros k cands [=]].
  - inversion HF as [|x l c' ls Hx HF' E1 E2]; subst.
    destruct (IH c' HF') as [Hk Hl]. cbn. split.
    + unfold keys in Hk |- *. cbn. now rewrite Hk.
    + intros k cands. destruct (String.eqb k k0).
      * intros [= <-]. now exists x.
      * apply Hl.
Qed.

(** X2.  The combination that [param_index] selects.  For a grid with
    distinct keys and an index in range, [current_params] has the keys of
    the grid, in the grid's order, and binds every key to one of the
    candidate values that the grid lists for it. *)
Theorem selected_params_come_from_grid (param_grid : dict (list value))
    (param_index : Z) (param_set : list value) :
  NoDup (keys param_grid) ->
  getitem (product (values param_grid)) param_index = Some param_set ->
  let params := dict_zip (keys param_grid) param_set in
  keys params = keys param_grid /\
  forall k cands, dict_get param_grid k = Some cands ->
    exists v, dict_get params k = Some v /\ In v cands.
Proof.
  intros Hnd Hpi params. subst params.
  rewrite dict_zip_nodup by exact Hnd.
  apply combine_lookup. apply product_In. eapply getitem_In. exact Hpi.
Qed.

End SelectionFacts.

(** ** How often a fold validates, and what it reports *)

Section EpochCountFacts.
Import Py Effects Search.

Variable trainer_eval : list call -> float.

Lemma multiples_of_5_below (n : nat) :
  List.length (filter (fun e => (e mod 5 =? 0)%nat) (seq 0 n)) = ((n + 4) / 5)%nat.
Proof.
  induction n as [|n IH]; [reflexivity|].
  rewrite seq_S, filter_app, length_app, IH. cbn [Nat.add filter].
  destruct (Nat.eqb_spec (n mod 5) 0) as [E|E]; cbn [List.length];
    zify; Z.div_mod_to_equations; lia.
Qed.

Lemma validating_epochs (E : nat) :
  filter (validates (S E)) (seq 0 (S E))
  = filter (fun e => (e mod 5 =? 0)%nat) (seq 0 E) ++ [E].
Proof.
  rewrite seq_S, filter_app. cbn [Nat.add filter]. f_equal.
  - apply filter_ext_in. intros e He. apply in_seq in He. unfold validates.
    destruct (Nat.eqb_spec e (S E - 1)); [lia | apply orb_false_r].
  - unfold validates. rewrite Nat.sub_succ, Nat.sub_0_r, Nat.eqb_refl.
    now rewrite orb_true_r.
Qed.

(** X7.  How often a fold validates.  Over [E >= 1] epochs the loop calls
    [eval] once for every multiple of 5 below [E - 1] and once at [E - 1]:
    [(E + 3) / 5 + 1] times in all, so 21, 17, 15 and 11 times for the
    budgets 100, 80, 70 and 50; it calls [train] [E] times. *)
Theorem epoch_loop_call_counts (E : nat) (w : World) :
  (1 <= E)%nat ->
  let w' := snd (epoch_loop trainer_eval E (seq 0 E) None w) in
  List.length (filter is_TrainerEval (calls w'))
  = (List.length (filter is_TrainerEval (calls w)) + ((E + 3) / 5 + 1))%nat /\
  List.length (filter is_TrainerTrain (calls w'))
  = (List.length (filter is_TrainerTrain (calls w)) + E)%nat.
Proof.
  intros HE w'. subst w'.
  destruct (epoch_loop_run trainer_eval E (seq 0 E) None w) as [m Hm].
  rewrite Hm. cbn [snd calls]. rewrite !filter_app, !length_app.
  rewrite filter_eval_epoch_calls, filter_train_epoch_calls, !length_map.
  rewrite length_seq. split; [|reflexivity]. f_equal.
  destruct E as [|E]; [lia|].
  rewrite validating_epochs, length_app, multiples_of_5_below.
  cbn [List.length]. zify; Z.div_mod_to_equations; lia.
Qed.

(** X6.  What a fold reports.  Over [E >= 1] epochs the loop returns the
    MAE that [eval] gave at the last epoch, [E - 1]; that call is the last
    one the loop makes, and it is asked after all the training, the training
    of epoch [E - 1] included. *)
Theorem epoch_loop_reports_last_epoch (E : nat) (w : World) :
  (1 <= E)%nat ->
  let history :=
    calls w ++ epoch_calls E (grad_enabled w) (seq 0 (E - 1))
            ++ [TrainerTrain (E - 1) (grad_enabled w)] in
  let run := epoch_loop trainer_eval E (seq 0 E) None w in
  fst run = Returned (Some (trainer_eval history)) /\
  calls (snd run) = history ++ [TrainerEval (E - 1) false].
Proof.
  intros HE history run. subst history run.
  destruct E as [|E]; [lia|].
  rewrite epoch_loop_value. cbn [fst snd calls].
  rewrite Nat.sub_succ, Nat.sub_0_r. split; [reflexivity|].
  rewrite seq_S. cbn [Nat.add]. unfold epoch_calls.
  rewrite flat_map_app. cbn [flat_map].
  assert (Hv : validates (S E) E = true).
  { unfold validates. rewrite Nat.sub_succ, Nat.sub_0_r, Nat.eqb_refl.
    apply orb_true_r. }
  rewrite Hv, app_nil_r. rewrite <- !app_assoc. reflexivity.
Qed.

End EpochCountFacts.

Section EpochCountSamples.
Import Py Effects Search.

Lemma epoch_loop_call_counts_witness :
  let w' := snd (epoch_loop Sample.trainer_eval 80 (seq 0 80) None Sample.world) in
  List.length (filter is_TrainerEval (calls w')) = 17%nat /\
  List.length (filter is_TrainerTrain (calls w')) = 80%nat.
Proof.
  destruct (epoch_loop_call_counts Sample.trainer_eval 80 Sample.world) as [H1 H2]; [lia|].
  cbv zeta. split; [rewrite H1 | rewrite H2]; vm_compute; reflexivity.
Defined.

Lemma epoch_loop_reports_last_epoch_witness :
  fst (epoch_loop Sample.trainer_eval 3 (seq 0 3) None Sample.world)
  = Returned (Some (Sample.trainer_eval
                      [TrainerTrain 0 true; TrainerEval 0 false;
                       TrainerTrain 1 true; TrainerTrain 2 true])).
Proof.
  destruct (epoch_loop_reports_last_epoch Sample.trainer_eval 3 Sample.world) as [H1 _]; [lia|].
  rewrite H1. reflexivity.
Defined.

End EpochCountSamples.

(** ** Samples of whole runs *)

Section RunSamples.
Import Py Effects Search Grid.

Lemma driver_successful_run_witness :
  exists mae,
    train_expanding_window_grid_search
      (Sample.get_processed_dataset 100) Sample.trainer_eval Sample.library
      Sample.config Sample.param_grid "cpu" 0 2 Sample.world
    = (Returned ([], None, None),
       {| results_json :=
            Some (Text (JDict [("Results"%string,
              JList [result_record
                       [("N_HIST"%string, VInt 12); ("N_PRED"%string, VInt 9);
                        ("DROPOUT"%string, VFloat 0.1);
                        ("INITIAL_LR"%string, VFloat 5e-3);
                        ("WEIGHT_DECAY"%string, VFloat 5e-5)]
                       0.9 mae "2025-03-01 12:00:00.000000"])]));
          stdout :=
            [MsgTesting [("N_HIST"%string, VInt 12); ("N_PRED"%string, VInt 9);
                         ("DROPOUT"%string, VFloat 0.1);
                         ("INITIAL_LR"%string, VFloat 5e-3);
                         ("WEIGHT_DECAY"%string, VFloat 5e-5)];
             MsgRegenerating; MsgFold 0 90 0.9 10 0.1;
             MsgAchieved (Some mae) 50 0];
          calls :=
            [GetProcessedDataset
               [("BATCH_SIZE"%string, VInt 50); ("N_PRED"%string, VInt 9);
                ("N_HIST"%string, VInt 12)]]
            ++ setup_calls 90 10 (VInt 50) (VInt 12) (VInt 9) (VInt 4)
                           (VFloat 0.1) (VFloat 5e-3) (VFloat 5e-5) "cpu"
            ++ epoch_calls 50 true (seq 0 50)
            ++ [ModelToCpu; GcCollect; EmptyCache];
          grad_enabled := true;
          now := "2025-03-01 12:00:00.000000" |}).
Proof.
  eexists.
  rewrite (driver_successful_run (Sample.get_processed_dataset 100)
             Sample.trainer_eval Sample.library Sample.config Sample.param_grid "cpu" 0 2
             Sample.world 0.9
             [VInt 12; VInt 9; VFloat 0.1; VFloat 5e-3; VFloat 5e-5]
             (VInt 9) (VInt 12) (VFloat 0.1) (VFloat 5e-3) (VFloat 5e-5)
             (VInt 50) 50 4 90 10 []
             eq_refl eq_refl eq_refl eq_refl eq_refl eq_refl eq_refl);
    [reflexivity | cbn; tauto | reflexivity | reflexivity | reflexivity
     | reflexivity | lia | lia | cbn; lia | repeat split | now constructor].
Defined.

Lemma driver_unsupported_rate_run_witness :
  train_expanding_window_grid_search
    (Sample.get_processed_dataset 100) Sample.trainer_eval Sample.library
    Sample.config Sample.param_grid "cpu" 2 2 Sample.world
  = (Raised RuntimeError,
     {| results_json := None;
        stdout :=
          [MsgTesting [("N_HIST"%string, VInt 12); ("N_PRED"%string, VInt 9);
                       ("DROPOUT"%string, VFloat 0.1);
                       ("INITIAL_LR"%string, VFloat 3e-4);
                       ("WEIGHT_DECAY"%string, VFloat 5e-5)];
           MsgRegenerating; MsgFold 0 90 0.9 10 0.1; MsgEpochError];
        calls :=
          [GetProcessedDataset
             [("BATCH_SIZE"%string, VInt 50); ("N_PRED"%string, VInt 9);
              ("N_HIST"%string, VInt 12)]]
          ++ setup_calls 90 10 (VInt 50) (VInt 12) (VInt 9) (VInt 4)
                         (VFloat 0.1) (VFloat 3e-4) (VFloat 5e-5) "cpu";
        grad_enabled := true;
        now := "2025-03-01 12:00:00.000000" |}).
Proof.
  rewrite (driver_unsupported_rate_run (Sample.get_processed_dataset 100)
             Sample.trainer_eval Sample.library Sample.config Sample.param_grid "cpu" 2 2
             Sample.world 0.9
             [VInt 12; VInt 9; VFloat 0.1; VFloat 3e-4; VFloat 5e-5]
             (VInt 9) (VInt 12) (VFloat 0.1) (VFloat 3e-4) (VFloat 5e-5)
             (VInt 50) 4 90 10
             eq_refl eq_refl eq_refl eq_refl eq_refl eq_refl eq_refl);
    [reflexivity | | reflexivity | reflexivity | reflexivity | reflexivity
     | lia | lia | cbn; lia | repeat split].
  intros E [H|[H|[H|[H|[]]]]]; apply (f_equal fst) in H; cbn [fst] in H;
    revert H; intros [= H]; discriminate H.
Defined.

(** A dropout probability that the model's constructor refuses: the driver
    raises what the constructor raised, right after the call; no optimizer
    is built, the trainer is not called and nothing is written. *)
Example driver_with_refused_dropout :
  let run := train_expanding_window_grid_search
               (Sample.get_processed_dataset 100) Sample.trainer_eval
               Sample.library Sample.config
               [("N_HIST"%string, [VInt 12]); ("N_PRED"%string, [VInt 9]);
                ("DROPOUT"%string, [VFloat 1.5]);
                ("INITIAL_LR"%string, [VFloat 5e-3]);
                ("WEIGHT_DECAY"%string, [VFloat 5e-5])]
               "cpu" 0 2 Sample.world in
  fst run = Raised ValueError /\
  results_json (snd run) = None /\
  skipn 3 (calls (snd run))
  = [NewModel (VInt 12) (VInt 9) (VInt 4) (VFloat 1.5) "cpu"].
Proof. cbv zeta. repeat split; vm_compute; reflexivity. Qed.

Lemma driver_index_out_of_range_witness :
  train_expanding_window_grid_search
    (Sample.get_processed_dataset 100) Sample.trainer_eval Sample.library
    Sample.config Sample.param_grid "cpu" 12 2 Sample.world
  = (Raised IndexError, Sample.world) /\
  train_expanding_window_grid_search
    (Sample.get_processed_dataset 100) Sample.trainer_eval Sample.library
    Sample.config Sample.param_grid "cpu" 0 3 Sample.world
  = (Raised IndexError, Sample.world).
Proof.
  split; apply driver_index_out_of_range.
  - right. right. vm_compute. discriminate.
  - left. right. lia.
Defined.

Lemma driver_missing_window_size_witness :
  train_expanding_window_grid_search
    (Sample.get_processed_dataset 100) Sample.trainer_eval Sample.library
    Sample.config [("N_PRED"%string, [VInt 9]); ("INITIAL_LR"%string, [VFloat 1e-3])]
    "cpu" 0 0 Sample.world
  = (Raised (KeyError "N_HIST"),
     {| results_json := None;
        stdout := [MsgTesting [("N_PRED"%string, VInt 9);
                               ("INITIAL_LR"%string, VFloat 1e-3)]];
        calls := []; grad_enabled := true;
        now := "2025-03-01 12:00:00.000000" |}).
Proof.
  apply (driver_missing_window_size (Sample.get_processed_dataset 100)
           Sample.trainer_eval Sample.library Sample.config
           [("N_PRED"%string, [VInt 9]); ("INITIAL_LR"%string, [VFloat 1e-3])]
           "cpu" 0 0 Sample.world 0.7 [VInt 9; VFloat 1e-3] "N_HIST"
           eq_refl eq_refl).
  right. repeat split. discriminate.
Defined.

Lemma selected_params_come_from_grid_witness :
  keys (dict_zip (keys Sample.param_grid)
                 [VInt 12; VInt 9; VFloat 0.1; VFloat 1e-4; VFloat 5e-5])
  = ["N_HIST"; "N_PRED"; "DROPOUT"; "INITIAL_LR"; "WEIGHT_DECAY"]%string.
Proof.
  apply (selected_params_come_from_grid Sample.param_grid 1
           [VInt 12; VInt 9; VFloat 0.1; VFloat 1e-4; VFloat 5e-5]).
  - repeat constructor; cbn; intuition discriminate.
  - reflexivity.
Defined.

End RunSamples.

(** ** Writing to a log that is there already *)

Section LogWriteFacts.
Import Py Effects Search.

Lemma dict_set_keys_present {V} (d : dict V) (k : string) (v v0 : V) :
  dict_get d k = Some v0 -> keys (dict_set d k v) = keys d.
Proof.
  unfold keys. induction d as [|[k' v'] rest IH]; cbn; [discriminate|].
  destruct (String.eqb k k'); cbn; [reflexivity|].
  intros H. now rewrite IH.
Qed.

(** X9.  A write to a log that has other members.  When the file is a JSON
    object whose "Results" is a list, the write returns and the file is the
    same object with the new record added at the end of that list: the
    earlier records, the other keys, their values and the order of the keys
    are kept, and nothing is printed or called. *)
Theorem write_fold_result_keeps_the_log (params : dict value)
    (ratio mae : float) (members : dict json) (items : list json) (w : World) :
  results_json w = Some (Text (JDict members)) ->
  dict_get members "Results" = Some (JList items) ->
  exists members',
    write_fold_result params ratio mae w
    = (Returned tt, set_results_json (Some (Text (JDict members'))) w) /\
    dict_get members' "Results"
    = Some (JList (items ++ [result_record params ratio mae (now w)])) /\
    keys members' = keys members /\
    forall k, k <> "Results"%string -> dict_get members' k = dict_get members k.
Proof.
  intros Hf Hr.
  exists (dict_set members "Results"
            (JList (items ++ [result_record params ratio mae (now w)]))).
  split; [|split; [|split]].
  - destruct w as [f out cs g t]. cbn [results_json now] in *. subst f.
    unfold write_fold_result, bind, load_previous_results, open_w, get_world,
      results_append, json_dump, ret, set_results_json.
    cbn [results_json stdout calls grad_enabled now]. rewrite Hr. reflexivity.
  - apply dict_get_set_same.
  - eapply dict_set_keys_present. exact Hr.
  - intros k Hk. now apply dict_get_set_other.
Qed.

Lemma write_fold_result_keeps_the_log_witness :
  exists members',
    write_fold_result [("N_HIST"%string, VInt 12)] 0.7 0.25
      {| results_json :=
           Some (Text (JDict [("run"%string, JString "a");
                              ("Results"%string, JList [JInt 1])]));
         stdout := []; calls := []; grad_enabled := true; now := "t" |}
    = (Returned tt,
       {| results_json := Some (Text (JDict members'));
          stdout := []; calls := []; grad_enabled := true; now := "t" |}) /\
    keys members' = ["run"; "Results"]%string.
Proof.
  destruct (write_fold_result_keeps_the_log [("N_HIST"%string, VInt 12)] 0.7 0.25
              [("run"%string, JString "a"); ("Results"%string, JList [JInt 1])]
              [JInt 1]
              {| results_json :=
                   Some (Text (JDict [("run"%string, JString "a");
                                      ("Results"%string, JList [JInt 1])]));
                 stdout := []; calls := []; grad_enabled := true; now := "t" |}
              eq_refl eq_refl) as (m & Hrun & _ & Hk & _).
  exists m. split; [exact Hrun | exact Hk].
Defined.

(** X8.  A write to a log of another form.  When the file is text that is
    not JSON the write raises [JSONDecodeError], and when the file is bytes
    that do not decode it raises [UnicodeDecodeError]; both leave the file
    as it is.  When the
    file is JSON but not an object with a list under "Results", the write
    raises ([TypeError] for a document that is not an object, [KeyError] for
    an object without "Results", [AttributeError] for a "Results" that is
    not a list) after the file was opened for writing: the file is left
    empty and what it held is lost. *)
Theorem write_fold_result_on_a_bad_log (params : dict value)
    (ratio mae : float) (w : World) :
  (results_json w = Some Unparsable ->
   write_fold_result params ratio mae w = (Raised JSONDecodeError, w)) /\
  (results_json w = Some Undecodable ->
   write_fold_result params ratio mae w = (Raised UnicodeDecodeError, w)) /\
  (forall doc,
     results_json w = Some (Text doc) ->
     (forall members, doc <> JDict members) ->
     write_fold_result params ratio mae w
     = (Raised TypeError, set_results_json (Some Unparsable) w)) /\
  (forall members,
     results_json w = Some (Text (JDict members)) ->
     dict_get members "Results" = None ->
     write_fold_result params ratio mae w
     = (Raised (KeyError "Results"), set_results_json (Some Unparsable) w)) /\
  (forall members v,
     results_json w = Some (Text (JDict members)) ->
     dict_get members "Results" = Some v ->
     (forall items, v <> JList items) ->
     write_fold_result params ratio mae w
     = (Raised AttributeError, set_results_json (Some Unparsable) w)).
Proof.
  destruct w as [f out cs g t]. cbn [results_json].
  unfold write_fold_result, bind, load_previous_results, open_w, get_world,
    results_append, json_dump, ret, raise, set_results_json.
  cbn [results_json stdout calls grad_enabled now].
  split; [|split; [|split; [|split]]].
  - intros ->. reflexivity.
  - intros ->. reflexivity.
  - intros doc -> Hbad.
    destruct doc as [| | | | | |members]; try reflexivity.
    now contradiction (Hbad members).
  - intros members -> Hr. now rewrite Hr.
  - intros members v -> Hr Hv. rewrite Hr.
    destruct v as [| | | | |items|]; try reflexivity.
    now contradiction (Hv items).
Qed.

Lemma write_fold_result_on_a_bad_log_witness :
  write_fold_result [] 0.7 0.25
    {| results_json := Some (Text (JDict [("results"%string, JList [])]));
       stdout := []; calls := []; grad_enabled := true; now := "t" |}
  = (Raised (KeyError "Results"),
     {| results_json := Some Unparsable;
        stdout := []; calls := []; grad_enabled := true; now := "t" |}).
Proof.
  apply (proj1 (proj2 (proj2 (proj2 (write_fold_result_on_a_bad_log [] 0.7 0.25
           {| results_json := Some (Text (JDict [("results"%string, JList [])]));
              stdout := []; calls := []; grad_enabled := true; now := "t" |}))))
           [("results"%string, JList [])] eq_refl eq_refl).
Defined.

End LogWriteFacts.

(** ** The forward pass on any graph *)

Section ForwardFacts.
Import Shape.

Lemma reshape_infer_last_or_fail (s : shape) (a b : Z) :
  1 <= a -> 1 <= b ->
  reshape s [a; b; -1]
  = if numel s mod (a * b) =? 0 then Some [a; b; numel s / (a * b)] else None.
Proof.
  intros Ha Hb.
  assert (Ea : (a =? -1) = false) by (apply Z.eqb_neq; lia).
  assert (Eb : (b =? -1) = false) by (apply Z.eqb_neq; lia).
  assert (La : (a <? 0) = false) by (apply Z.ltb_ge; lia).
  assert (Lb : (b <? 0) = false) by (apply Z.ltb_ge; lia).
  assert (E : (a * b =? 0) = false) by (apply Z.eqb_neq; nia).
  unfold reshape. cbn [filter]. rewrite Ea, Eb.
  cbn [negb Z.eqb Pos.eqb existsb List.length Nat.sub numel fold_right orb map].
  rewrite La, Lb, Ea, Eb. cbn [orb]. rewrite Z.mul_1_r, E. reflexivity.
Qed.

Lemma forallb_positive_in_degrees (g : DGLGraph) :
  forallb (Nat.leb 1) (in_degrees g) = negb (has_zero_in_degree g).
Proof.
  unfold has_zero_in_degree. induction (in_degrees g) as [|k ks IH];
    [reflexivity|].
  cbn [forallb existsb]. rewrite IH, negb_orb. now destruct k.
Qed.

(** X10.  The forward pass on any graph.  For a model built for [(H, P, n)]
    and a graph of batch size [B] with at least one node and [d] features
    per node (all at least 1), the forward pass raises when some node has no
    incoming edge, when [d] is not [H], or when [B * n] does not divide
    [Nn * H], [Nn] being the number of nodes; otherwise it returns
    predictions of shape [(B * n, P)] and one attention row per edge.  So
    the rows of the output follow the model's [n_nodes], not the graph: a
    graph whose node count differs from [B * n] is not refused as long as
    the division comes out even. *)
Theorem forward_rows_follow_the_model (B n H P hds d : Z) (degrees : list nat) :
  1 <= B -> 1 <= n -> 1 <= H -> 1 <= P -> 1 <= hds -> 1 <= d ->
  (1 <= List.length degrees)%nat ->
  ST_GAT_forward (ST_GAT_init H P n hds)
    {| batch_size := B; in_degrees := degrees;
       ndata_feat := [Z.of_nat (List.length degrees); d] |}
  = if forallb (Nat.leb 1) degrees && (d =? H)
       && ((Z.of_nat (List.length degrees) * H) mod (B * n) =? 0)
    then Some ([B * n; P], [Z.of_nat (list_sum degrees); hds; 1])
    else None.
Proof.
  intros HB Hn HH HP Hh Hd HNn0.
  set (g := {| batch_size := B; in_degrees := degrees;
               ndata_feat := [Z.of_nat (List.length degrees); d] |}).
  change (forallb (Nat.leb 1) degrees) with (forallb (Nat.leb 1) (in_degrees g)).
  rewrite forallb_positive_in_degrees.
  set (Nn := Z.of_nat (List.length degrees)).
  assert (HNn : 1 <= Nn) by (unfold Nn; lia).
  set (E := Z.of_nat (list_sum degrees)).
  unfold ST_GAT_forward, ST_GAT_init.
  cbn [gat ndata_feat batch_size n_nodes n_pred lstm1_input_size
       lstm1_hidden_size lstm2_input_size lstm2_hidden_size linear_in linear_out].
  change (ndata_feat g) with [Nn; d]. change (batch_size g) with B.
  destruct (has_zero_in_degree g) eqn:Hz.
  { unfold AveragedGATConv_forward, GATConv. rewrite Hz. reflexivity. }
  cbn [negb andb].
  destruct (Z.eqb_spec d H) as [->|Hne].
  2:{ unfold AveragedGATConv_forward, GATConv. rewrite Hz.
      cbn [gat_in_feats gat_out_feats gat_num_heads].
      apply Z.eqb_neq in Hne. rewrite Hne, andb_false_r. reflexivity. }
  rewrite (AveragedGATConv_forward_shape _ H hds Nn);
    [| assumption | assumption | assumption | reflexivity
     | apply has_zero_in_degree_spec; exact Hz].
  change (number_of_edges g) with E.
  cbn [obind andb]. unfold F_dropout.
  rewrite (reshape_infer_last_or_fail _ B n) by assumption.
  replace (numel [Nn; H]) with (Nn * H) by (unfold numel; cbn [fold_right]; lia).
  destruct (Z.eqb_spec ((Nn * H) mod (B * n)) 0) as [Hmod|Hmod];
    [|reflexivity].
  set (L := Nn * H / (B * n)).
  assert (HL : Nn * H = B * n * L).
  { unfold L. apply Z_div_exact_full_2; [nia | exact Hmod]. }
  assert (HL1 : 1 <= L) by nia.
  cbn [obind movedim nth_error firstn skipn app List.length Nat.leb lstm].
  rewrite Z.eqb_refl. cbn [obind lstm Z.eqb Pos.eqb select_last].
  destruct (Z.leb_spec 1 L); [|lia].
  cbn [obind squeeze filter Z.eqb Pos.eqb negb].
  assert (Hfin : forall s, numel s = B * n * P ->
            (x <- reshape s [B; n; P] ;;
             x <- reshape x [B * n; P] ;; Some (x, [E; hds; 1]))
            = Some ([B * n; P], [E; hds; 1])).
  { intros s Hs.
    rewrite (reshape_exact s [B; n; P]);
      [|repeat constructor; lia | rewrite Hs; cbn; lia].
    cbn [obind].
    rewrite (reshape_exact [B; n; P] [B * n; P]);
      [reflexivity | repeat constructor; nia | cbn; lia]. }
  destruct (Z.eqb_spec B 1) as [E1|E1];
    cbn [negb linear rev app Z.eqb Pos.eqb obind].
  - apply Hfin. subst B. unfold numel; cbn [fold_right]; lia.
  - apply Hfin. unfold numel; cbn [fold_right]; lia.
Qed.

Lemma forward_rows_follow_the_model_witness :
  ST_GAT_forward (ST_GAT_init 12 9 2 NUM_HEADS)
    {| batch_size := 1; in_degrees := [4; 4; 4; 4]%nat;
       ndata_feat := [4; 12] |}
  = Some ([2; 9], [16; 8; 1]) /\
  ST_GAT_forward (ST_GAT_init 12 9 5 NUM_HEADS)
    {| batch_size := 1; in_degrees := [4; 4; 4; 4]%nat;
       ndata_feat := [4; 12] |}
  = None /\
  ST_GAT_forward (ST_GAT_init 12 9 4 NUM_HEADS)
    {| batch_size := 1; in_degrees := [3; 0; 2; 1]%nat;
       ndata_feat := [4; 12] |}
  = None.
Proof.
  split; [|split].
  - apply (forward_rows_follow_the_model 1 2 12 9 8 12 [4; 4; 4; 4]%nat);
      cbn; lia.
  - apply (forward_rows_follow_the_model 1 5 12 9 8 12 [4; 4; 4; 4]%nat);
      cbn; lia.
  - apply (forward_rows_follow_the_model 1 4 12 9 8 12 [3; 0; 2; 1]%nat);
      cbn; lia.
Defined.

End ForwardFacts.

(** ** The two branches of the run script *)

Section BranchFacts.
Import Py Run RunAttention.

(** X11.  The training branch saves only what it trained.  Without a batch
    size in the config the branch raises [KeyError] at once.  The config the
    trainer gets has "N_NODE" set to the node count of the dataset's first
    graph and every other setting as before.  The model is saved only when
    SAVE_MODEL is set, the attention only when SAVE_ATTENTION is set, each
    only to the path that the script tests before it decides to train, and
    only after the trainer was called and returned.  When the branch ends
    without an exception, the trainer was called, and the model and the
    attention were saved whenever their flags are set. *)
Theorem train_and_save_saves_what_it_trained (lib : Callees)
    (save_model save_attention : bool)
    (config : dict cfg) (nodes : option Z) (model_path attn_path : string) :
  let tr := train_and_save lib save_model save_attention config nodes
                           model_path attn_path in
  let trained c := In (ModelTrain c) (fst tr) /\ model_train_raises lib c = None in
  (dict_get config "BATCH_SIZE" = None ->
   tr = ([], Some (KeyError "BATCH_SIZE"))) /\
  (forall c, In (ModelTrain c) (fst tr) ->
     exists n, nodes = Some n /\
       dict_get c "N_NODE" = Some (Num (VInt n)) /\
       forall k, k <> "N_NODE"%string -> dict_get c k = dict_get config k) /\
  (forall p, In (SaveModel p) (fst tr) ->
     p = model_path /\ save_model = true /\ exists c, trained c) /\
  (forall p, In (TorchSave p) (fst tr) ->
     p = attn_path /\ save_attention = true /\ exists c, trained c) /\
  (snd tr = None ->
   (exists c, trained c) /\
   (save_model = true -> In (SaveModel model_path) (fst tr)) /\
   (save_attention = true -> In (TorchSave attn_path) (fst tr))).
Proof.
  intros tr trained. subst tr trained. unfold train_and_save, get, try_.
  destruct (dict_get config "BATCH_SIZE") as [b|].
  2:{ cbn. repeat split; try contradiction; discriminate. }
  split; [discriminate|].
  assert (Hc : forall n, exists n0, Some n = Some n0 /\
            dict_get (dict_set config "N_NODE" (Num (VInt n))) "N_NODE"
            = Some (Num (VInt n0)) /\
            forall k, k <> "N_NODE"%string ->
              dict_get (dict_set config "N_NODE" (Num (VInt n))) k
              = dict_get config k).
  { intros n. exists n. split; [reflexivity|].
    split; [apply dict_get_set_same
           | intros k Hk; now apply dict_get_set_other]. }
  destruct (new_GraphDataLoader_raises lib "d_train" b true) as [e1|].
  { cbn. repeat split; try discriminate;
      intros; repeat match goal with H : _ \/ _ |- _ => destruct H end;
      try discriminate; contradiction. }
  destruct (new_GraphDataLoader_raises lib "d_val" b true) as [e2|].
  { cbn. repeat split; try discriminate;
      intros; repeat match goal with H : _ \/ _ |- _ => destruct H end;
      try discriminate; contradiction. }
  destruct nodes as [n|].
  2:{ cbn. repeat split; try discriminate;
      intros; repeat match goal with H : _ \/ _ |- _ => destruct H end;
      try discriminate; contradiction. }
  specialize (Hc n).
  destruct (model_train_raises lib (dict_set config "N_NODE" (Num (VInt n))))
    as [e3|] eqn:Etrain.
  { cbn. repeat split; try discriminate;
      intros; repeat match goal with H : _ \/ _ |- _ => destruct H end;
      try discriminate; try contradiction.
    match goal with H : ModelTrain _ = ModelTrain _ |- _ =>
      injection H as <- end. exact Hc. }
  destruct save_attention, save_model; cbn;
    repeat match goal with
           | |- context [torch_save_raises ?l ?p] =>
               destruct (torch_save_raises l p); cbn
           | |- context [save_model_raises ?l ?p] =>
               destruct (save_model_raises l p); cbn
           end;
    (split; [intros c H;
             repeat (destruct H as [H|H]; try discriminate H);
             try contradiction; injection H as <-; exact Hc|]);
    (split; [intros p H;
             repeat (destruct H as [H|H]; try discriminate H);
             try contradiction; injection H as <-;
             (split; [reflexivity | split; [reflexivity | (eexists; split; [right; right; left; reflexivity | exact Etrain])]])|]);
    (split; [intros p H;
             repeat (destruct H as [H|H]; try discriminate H);
             try contradiction; injection H as <-;
             (split; [reflexivity | split; [reflexivity | (eexists; split; [right; right; left; reflexivity | exact Etrain])]])|]);
    intros H; try discriminate H;
    (split; [(eexists; split; [right; right; left; reflexivity | exact Etrain])|]);
    (split; intros H'; try discriminate H'; cbn; tauto).
Qed.

Lemma train_and_save_saves_what_it_trained_witness :
  train_and_save checking true false [] (Some 4) "m/model.pth" "m/attention.pth"
  = ([], Some (KeyError "BATCH_SIZE")) /\
  In (SaveModel "m/model.pth")
     (fst (train_and_save checking true false
             [("BATCH_SIZE"%string, Num (VInt 50))]
             (Some 4) "m/model.pth" "m/attention.pth")).
Proof.
  split.
  - apply (proj1 (train_and_save_saves_what_it_trained checking true false
                    [] (Some 4) "m/model.pth" "m/attention.pth")).
    reflexivity.
  - apply (proj1 (proj2 (proj2 (proj2 (proj2 (proj2
             (train_and_save_saves_what_it_trained checking true false
                [("BATCH_SIZE"%string, Num (VInt 50))] (Some 4)
                "m/model.pth" "m/attention.pth")))) eq_refl)) eq_refl).
Defined.

(** X12.  The order of the loading branch.  It always starts by printing
    that the model was found.  When the config lacks one of "N_HIST",
    "N_PRED", "N_NODE" and "DROPOUT", it raises the [KeyError] of the first
    of them that is missing, right after the print: no model is built and no
    file is read.  The model is built from these four settings.  The model
    checkpoint is read only from the path that was tested and only after the
    model was built; the attention checkpoint is read only from the path
    that was tested and only after the model checkpoint was loaded.  When
    the branch ends without an exception, both were read. *)
Theorem load_checkpoints_in_order (lib : Callees) (config : dict cfg)
    (model_path attn_path : string) :
  let tr := load_checkpoints lib config model_path attn_path in
  hd_error (fst tr) = Some (PrintModelFound model_path) /\
  (forall k,
     first_missing config ["N_HIST"; "N_PRED"; "N_NODE"; "DROPOUT"]%string
     = Some k ->
     tr = ([PrintModelFound model_path], Some (KeyError k))) /\
  (forall h p n d, In (NewST_GAT h p n d) (fst tr) ->
     dict_get config "N_HIST" = Some h /\ dict_get config "N_PRED" = Some p /\
     dict_get config "N_NODE" = Some n /\ dict_get config "DROPOUT" = Some d) /\
  (forall p, In (LoadStateDict p) (fst tr) ->
     p = model_path /\
     exists h p' n d, In (NewST_GAT h p' n d) (fst tr) /\
                      new_ST_GAT_raises lib h p' n d = None) /\
  (forall p, In (TorchLoad p) (fst tr) ->
     p = attn_path /\ In (LoadStateDict model_path) (fst tr) /\
     load_state_dict_raises lib model_path = None) /\
  (snd tr = None ->
   In (LoadStateDict model_path) (fst tr) /\ In (TorchLoad attn_path) (fst tr)).
Proof.
  intros tr. subst tr. unfold load_checkpoints, get, try_, first_missing.
  destruct (dict_get config "N_HIST") as [h|] eqn:Eh.
  2:{ cbn. repeat split; try discriminate;
      try (intros k [= <-]; reflexivity);
      intros; repeat match goal with H : _ \/ _ |- _ => destruct H end;
      try discriminate; contradiction. }
  destruct (dict_get config "N_PRED") as [p|] eqn:Ep.
  2:{ cbn. repeat split; try discriminate;
      try (intros k [= <-]; reflexivity);
      intros; repeat match goal with H : _ \/ _ |- _ => destruct H end;
      try discriminate; contradiction. }
  destruct (dict_get config "N_NODE") as [n|] eqn:En.
  2:{ cbn. repeat split; try discriminate;
      try (intros k [= <-]; reflexivity);
      intros; repeat match goal with H : _ \/ _ |- _ => destruct H end;
      try discriminate; contradiction. }
  destruct (dict_get config "DROPOUT") as [d|] eqn:Ed.
  2:{ cbn. repeat split; try discriminate;
      try (intros k [= <-]; reflexivity);
      intros; repeat match goal with H : _ \/ _ |- _ => destruct H end;
      try discriminate; contradiction. }
  destruct (new_ST_GAT_raises lib h p n d) as [e1|] eqn:E1;
    [|destruct (load_state_dict_raises lib model_path) as [e2|] eqn:E2;
      [|destruct (torch_load_raises lib attn_path) as [e3|] eqn:E3]];
    cbn [then_ do_ fst snd app hd_error];
    (split; [reflexivity|]);
    (split; [discriminate|]);
    (split; [intros h' p' n' d' H; cbn [In] in H;
             repeat (destruct H as [H|H]; try discriminate H);
             try contradiction; injection H as <- <- <- <-; tauto|]);
    (split; [intros q H; cbn [In] in H;
             repeat (destruct H as [H|H]; try discriminate H);
             try contradiction; injection H as <-;
             (split; [reflexivity|]);
             exists h, p, n, d; (split; [right; left; reflexivity | exact E1])|]);
    (split; [intros q H; cbn [In] in H;
             repeat (destruct H as [H|H]; try discriminate H);
             try contradiction; injection H as <-;
             (split; [reflexivity|]);
             (split; [right; right; left; reflexivity | reflexivity])|]);
    intros H; try discriminate H;
    (split; [right; right; left; reflexivity
            | right; right; right; right; left; reflexivity]).
Qed.

Lemma load_checkpoints_in_order_witness :
  load_checkpoints checking (script_config "runs" (VFloat 0) (VFloat 1))
                   "m/model.pth" "m/attention.pth"
  = ([PrintModelFound "m/model.pth"], Some (KeyError "N_NODE")) /\
  hd_error (fst (load_checkpoints checking
                   (script_config "runs" (VFloat 0) (VFloat 1))
                   "m/model.pth" "m/attention.pth"))
  = Some (PrintModelFound "m/model.pth").
Proof.
  split.
  - apply (proj1 (proj2 (load_checkpoints_in_order checking
                           (script_config "runs" (VFloat 0) (VFloat 1))
                           "m/model.pth" "m/attention.pth"))).
    reflexivity.
  - apply (proj1 (load_checkpoints_in_order checking
                    (script_config "runs" (VFloat 0) (VFloat 1))
                    "m/model.pth" "m/attention.pth")).
Defined.

(** X13.  The epochs whose attention is saved.  With SAVE_ATTENTION unset
    there are none.  With it set and [EPOCHS >= 1] they are the first epoch,
    the middle one and the last one: each is an epoch of the run (between 0
    and [EPOCHS - 1]), they come in order, and they are three different
    epochs exactly when [EPOCHS >= 3]. *)
Theorem epochs_for_saving_attn_are_epochs (EPOCHS : Z) :
  1 <= EPOCHS ->
  epochs_for_saving_attn false EPOCHS = [] /\
  exists middle,
    epochs_for_saving_attn true EPOCHS = [0; middle; EPOCHS - 1] /\
    0 <= middle <= EPOCHS - 1 /\
    2 * middle <= EPOCHS < 2 * middle + 2 /\
    (NoDup (epochs_for_saving_attn true EPOCHS) <-> 3 <= EPOCHS).
Proof.
  intros HE. split; [reflexivity|]. exists (EPOCHS / 2).
  assert (Hm : 2 * (EPOCHS / 2) <= EPOCHS < 2 * (EPOCHS / 2) + 2)
    by (pose proof (Z.div_mod EPOCHS 2 ltac:(lia));
        pose proof (Z.mod_pos_bound EPOCHS 2 ltac:(lia)); lia).
  split; [reflexivity|]. split; [lia|]. split; [exact Hm|].
  unfold epochs_for_saving_attn. split.
  - intros Hnd. inversion Hnd as [|? ? H0 Hnd']; subst.
    inversion Hnd' as [|? ? H1 _]; subst. cbn in H0, H1.
    destruct (Z.eq_dec EPOCHS 1) as [->|]; [exfalso; apply H0; now left|].
    destruct (Z.eq_dec EPOCHS 2) as [->|]; [exfalso; apply H1; now left|].
    lia.
  - intros H3. repeat constructor; cbn; lia.
Qed.

Lemma epochs_for_saving_attn_are_epochs_witness :
  exists middle, epochs_for_saving_attn true 60 = [0; middle; 59].
Proof.
  destruct (epochs_for_saving_attn_are_epochs 60) as (_ & m & H & _); [lia|].
  exists m. exact H.
Defined.

End BranchFacts.

(** ** The series of a node and the curves drawn from it *)

Section SeriesFacts.
Import Py Effects Plot Series.

Lemma singletons_by_index {A} (data : list A) (idx : Z -> nat) (ks : list Z) :
  Forall (fun k => (idx k < List.length data)%nat) ks ->
  Forall2 (fun k x => nth_error data (idx k) = Some x) ks
          (flat_map (fun k => firstn 1 (skipn (idx k) data)) ks).
Proof.
  induction 1 as [|k ks Hk _ IH]; cbn [flat_map]; [constructor|].
  destruct (skipn (idx k) data) as [|x rest] eqn:E.
  - apply (f_equal (@List.length A)) in E. rewrite length_skipn in E.
    cbn in E. lia.
  - cbn [firstn app]. constructor; [|exact IH].
    rewrite <- (firstn_skipn (idx k) data) at 1.
    rewrite nth_error_app2 by (rewrite length_firstn; lia).
    rewrite length_firstn, Nat.min_l by lia.
    now rewrite Nat.sub_diag, E.
Qed.

(** X14.  The series of a node.  For a tensor whose entries fill its shape,
    with first size [s0 >= 1] and last size [P >= 1], and for a batch size
    and a node count that are at least 1: the series is there exactly when
    the tensor has [s0 * BATCH_SIZE * N_NODE * P] entries, [node] is one of
    the nodes and [step] one of the steps (counted from the end when
    negative); it then has [s0 * BATCH_SIZE] entries, the [k]-th being the
    entry of the tensor at row-major position [(k * N_NODE + node) * P +
    step]. *)
Theorem node_series_one_entry_per_sample {A} (y : tensor A)
    (B N node step s0 P : Z) :
  hd_error (t_shape y) = Some s0 ->
  hd_error (rev (t_shape y)) = Some P ->
  1 <= s0 -> 1 <= P -> 1 <= B -> 1 <= N ->
  Z.of_nat (List.length (t_data y)) = Shape.numel (t_shape y) ->
  let ok := Shape.numel (t_shape y) = s0 * B * N * P /\
            - N <= node < N /\ - P <= step < P in
  let node' := if node <? 0 then N + node else node in
  let step' := if step <? 0 then P + step else step in
  (~ ok -> node_series y B N node step = None) /\
  (ok ->
   exists series,
     node_series y B N node step = Some series /\
     Z.of_nat (List.length series) = s0 * B /\
     Forall2 (fun k x =>
                nth_error (t_data y) (Z.to_nat ((k * N + node') * P + step'))
                = Some x)
             (range 0 (s0 * B)) series).
Proof.
  intros Hs0 HP H0 H1 HB HN Hlen ok node' step'.
  unfold node_series. rewrite Hs0, HP.
  assert (Hpos : Forall (fun d => 0 <= d) [s0; B; N; P])
    by (repeat constructor; lia).
  assert (Hnum : Shape.numel [s0; B; N; P] = s0 * B * N * P)
    by (unfold Shape.numel; cbn [fold_right]; lia).
  unfold Shape.reshape.
  rewrite (filter_given_nonneg _ Hpos), (existsb_negative_nonneg _ Hpos).
  rewrite Nat.sub_diag, Hnum.
  destruct (Z.eqb_spec (s0 * B * N * P) (Shape.numel (t_shape y))) as [En|En].
  2:{ split; [reflexivity|]. intros (Hn & _). congruence. }
  destruct (Z.leb_spec (- N) node), (Z.ltb_spec node N); cbn [andb negb];
    try (split; [reflexivity | intros (_ & Hn & _); lia]).
  destruct (Z.leb_spec (- P) step), (Z.ltb_spec step P); cbn [andb negb];
    try (split; [reflexivity | intros (_ & _ & Hn); lia]).
  split; [intros Hn; exfalso; apply Hn; unfold ok; lia|].
  intros _. eexists. split; [reflexivity|].
  fold node' step'.
  assert (Hn' : 0 <= node' < N) by (unfold node'; destruct (Z.ltb_spec node 0); lia).
  assert (Hs' : 0 <= step' < P) by (unfold step'; destruct (Z.ltb_spec step 0); lia).
  assert (HF : Forall2
                 (fun k x => nth_error (t_data y)
                               (Z.to_nat ((k * N + node') * P + step')) = Some x)
                 (range 0 (s0 * B))
                 (flat_map
                    (fun k => firstn 1
                       (skipn (Z.to_nat ((k * N + node') * P + step')) (t_data y)))
                    (range 0 (s0 * B)))).
  { apply (singletons_by_index (t_data y)
             (fun k => Z.to_nat ((k * N + node') * P + step'))).
    apply Forall_forall. intros k Hk. apply in_range in Hk.
    assert (Ha : k * N + node' <= s0 * B * N - 1) by nia.
    assert (Hb : (k * N + node') * P <= (s0 * B * N - 1) * P)
      by (apply Z.mul_le_mono_nonneg_r; lia).
    assert (Hc : 0 <= (k * N + node') * P) by nia.
    apply Nat2Z.inj_lt. rewrite Hlen, <- En, Z2Nat.id by lia.
    replace (s0 * B * N * P) with ((s0 * B * N - 1) * P + P) by ring. lia. }
  split; [|exact HF].
  apply Forall2_length in HF. rewrite <- HF, range_length. lia.
Qed.

Lemma node_series_one_entry_per_sample_witness :
  node_series {| t_shape := [2; 4; 3];
                 t_data := [0; 1; 2; 3; 4; 5; 6; 7; 8; 9; 10; 11;
                            12; 13; 14; 15; 16; 17; 18; 19; 20; 21; 22; 23] |}
              2 2 1 0
  = Some [3; 9; 15; 21].
Proof.
  destruct (proj2 (@node_series_one_entry_per_sample Z
              {| t_shape := [2; 4; 3];
                 t_data := [0; 1; 2; 3; 4; 5; 6; 7; 8; 9; 10; 11;
                            12; 13; 14; 15; 16; 17; 18; 19; 20; 21; 22; 23] |}
              2 2 1 0 2 3 eq_refl eq_refl ltac:(lia) ltac:(lia) ltac:(lia)
              ltac:(lia) eq_refl)) as (series & Hs & _).
  - cbn. lia.
  - rewrite Hs. vm_compute in Hs. now injection Hs as <-.
Defined.

Lemma slice_to_firstn {A} (y : list A) (k : nat) :
  slice_to y (Z.of_nat k) = firstn k y.
Proof.
  unfold slice_to. destruct (Z.ltb_spec (Z.of_nat k) 0); [lia|].
  destruct (Z.min_spec (Z.of_nat k) (Z.of_nat (List.length y)))
    as [[Hk ->]|[Hk ->]].
  - now rewrite Nat2Z.id.
  - rewrite Nat2Z.id. rewrite firstn_all. symmetry. apply firstn_all2. lia.
Qed.

(** Whatever the loop raises is an [IndexError] or a [ValueError]. *)
Lemma prediction_curves_raised {A} (t : list Z) (y_preds : list (list A))
    (factor : Z) (steps : list nat) (e : exn) :
  prediction_curves t y_preds factor steps = Raised e ->
  e = IndexError \/ e = ValueError.
Proof.
  induction steps as [|i rest IH]; cbn [prediction_curves]; [discriminate|].
  destruct (nth_error y_preds i) as [y|]; [|intros [= <-]; now left].
  destruct (1 <? List.length (skipn i t))%nat; [|exact IH].
  unfold interp1d_cubic, linspace.
  destruct (_ && _ && _); [|intros [= <-]; now right].
  destruct (_ <? 0); [intros [= <-]; now right|].
  destruct (prediction_curves t y_preds factor rest) as [cs|e'];
    [discriminate|].
  intros [= <-]. now apply IH.
Qed.

(** A step without a series: the loop does not come back. *)
Lemma prediction_curves_missing_series {A} (t : list Z) (y_preds : list (list A))
    (factor : Z) (steps : list nat) :
  Exists (fun i => (List.length y_preds <= i)%nat) steps ->
  exists e, prediction_curves t y_preds factor steps = Raised e.
Proof.
  induction 1 as [i rest Hi|i rest _ IH]; cbn [prediction_curves].
  - apply nth_error_None in Hi. rewrite Hi. now eexists.
  - destruct IH as [e IH]. rewrite IH.
    destruct (nth_error y_preds i) as [y|]; [|now eexists].
    destruct (1 <? List.length (skipn i t))%nat; [|now eexists].
    destruct (interp1d_cubic _ _); [now eexists|].
    destruct (linspace _); now eexists.
Qed.

Lemma distinct_NoDup (x : list Z) : NoDup x -> distinct x = true.
Proof.
  induction 1 as [|a rest Ha _ IH]; [reflexivity|].
  cbn [distinct]. rewrite IH, andb_true_r.
  destruct (existsb (Z.eqb a) rest) eqn:E; [|reflexivity].
  apply existsb_exists in E as (b & Hb & Hab).
  apply Z.eqb_eq in Hab. subst b. contradiction.
Qed.

Lemma NoDup_skipn (x : list Z) (i : nat) : NoDup x -> NoDup (skipn i x).
Proof.
  intros H. rewrite <- (firstn_skipn i x) in H.
  now apply NoDup_app_remove_l in H.
Qed.

Lemma NoDup_range (a b : Z) : NoDup (range a b).
Proof.
  unfold range. generalize (Z.to_nat (b - a)), 0%nat.
  induction n as [|k IH]; intros s; cbn [seq map]; constructor; [|apply IH].
  intros Hin. apply in_map_iff in Hin as (j & Hj & Hin).
  apply in_seq in Hin. lia.
Qed.

Section LongSeries.

Context {A : Type}.
Variable t : list Z.
Variable y_preds : list (list A).
Variable factor : Z.
Hypothesis Hfactor : 0 <= factor.
Hypothesis Hnodup : NoDup t.
Hypothesis Hlong : Forall (fun y => (List.length t <= List.length y)%nat) y_preds.

(** A step with a series and at least four times left is drawn. *)
Lemma interp1d_cubic_long (i : nat) (y : list A) :
  nth_error y_preds i = Some y ->
  (4 <= List.length t - i)%nat ->
  interp1d_cubic (skipn i t) (slice_to y (Z.of_nat (List.length (skipn i t))))
  = None.
Proof.
  intros Ey H4.
  assert (Hy : (List.length t <= List.length y)%nat).
  { eapply Forall_forall in Hlong; [exact Hlong|].
    eapply nth_error_In. exact Ey. }
  unfold interp1d_cubic.
  rewrite (distinct_NoDup (skipn i t)) by now apply NoDup_skipn.
  rewrite slice_to_firstn, length_firstn, length_skipn.
  destruct (Nat.eqb_spec (List.length t - i)
              (Nat.min (List.length t - i) (List.length y))); [|lia].
  destruct (Nat.leb_spec 4 (List.length t - i)); [reflexivity | lia].
Qed.

(** A step with two or three times left is refused by the spline. *)
Lemma interp1d_cubic_short (i : nat) (y : list A) :
  (List.length t - i < 4)%nat ->
  interp1d_cubic (skipn i t) (slice_to y (Z.of_nat (List.length (skipn i t))))
  = Some ValueError.
Proof.
  intros H4. unfold interp1d_cubic. rewrite length_skipn.
  destruct (Nat.leb_spec 4 (List.length t - i)); [lia|].
  now rewrite andb_false_r.
Qed.

Lemma linspace_fine (k : nat) : linspace (Z.of_nat k * factor) = None.
Proof. unfold linspace. destruct (Z.ltb_spec (Z.of_nat k * factor) 0); [nia | reflexivity]. Qed.

Lemma prediction_curves_drawn (steps : list nat) :
  Forall (fun i => (i < List.length y_preds)%nat /\
                   (4 <= List.length t - i)%nat) steps ->
  exists curves,
    prediction_curves t y_preds factor steps = Returned curves /\
    Forall2 (fun i c =>
               shifted_t c = skipn i t /\
               (exists y, nth_error y_preds i = Some y /\
                          shifted_y c = firstn (List.length t - i) y) /\
               List.length (shifted_y c) = List.length (shifted_t c) /\
               (4 <= List.length (shifted_t c))%nat /\
               n_fine c = Z.of_nat (List.length t - i) * factor)
            steps curves.
Proof.
  induction 1 as [|i rest [Hi H4] _ IH].
  - exists []. split; [reflexivity | constructor].
  - destruct IH as (curves & Hrun & HF).
    cbn [prediction_curves]. rewrite Hrun.
    destruct (nth_error y_preds i) as [y|] eqn:Ey;
      [|apply nth_error_None in Ey; lia].
    assert (Hy : (List.length t <= List.length y)%nat).
    { eapply Forall_forall in Hlong; [exact Hlong|].
      eapply nth_error_In. exact Ey. }
    rewrite (interp1d_cubic_long i y Ey H4), linspace_fine.
    rewrite length_skipn.
    destruct (Nat.ltb_spec 1 (List.length t - i)); [|lia].
    eexists. split; [reflexivity|]. constructor; [|exact HF].
    cbn [shifted_t shifted_y n_fine]. rewrite slice_to_firstn.
    split; [reflexivity|].
    split; [exists y; now split|].
    split; [rewrite length_firstn, length_skipn; lia|].
    split; [rewrite length_skipn; lia | reflexivity].
Qed.

Lemma prediction_curves_none_drawn (steps : list nat) :
  Forall (fun i => (i < List.length y_preds)%nat) steps ->
  (List.length t <= 1)%nat ->
  prediction_curves t y_preds factor steps = Returned [].
Proof.
  intros Hsteps H1. induction Hsteps as [|i rest Hi _ IH]; [reflexivity|].
  cbn [prediction_curves]. rewrite IH.
  destruct (nth_error y_preds i) as [y|] eqn:Ey;
    [|apply nth_error_None in Ey; lia].
  rewrite length_skipn.
  destruct (Nat.ltb_spec 1 (List.length t - i)); [lia | reflexivity].
Qed.

(** A step with two or three times left stops the loop with [ValueError]:
    every step before it is drawn or skipped. *)
Lemma prediction_curves_value_error (steps : list nat) :
  Forall (fun i => (i < List.length y_preds)%nat) steps ->
  Exists (fun i => (2 <= List.length t - i < 4)%nat) steps ->
  prediction_curves t y_preds factor steps = Raised ValueError.
Proof.
  intros Hsteps. induction Hsteps as [|i rest Hi _ IH]; intros Hex.
  - inversion Hex.
  - cbn [prediction_curves].
    destruct (nth_error y_preds i) as [y|] eqn:Ey;
      [|apply nth_error_None in Ey; lia].
    rewrite length_skipn.
    destruct (Nat.ltb_spec 1 (List.length t - i)) as [H1|H1].
    + rewrite <- (length_skipn i t).
      destruct (Nat.lt_ge_cases (List.length t - i) 4) as [H4|H4].
      * now rewrite interp1d_cubic_short.
      * rewrite (interp1d_cubic_long i y Ey H4).
        rewrite linspace_fine, IH; [reflexivity|].
        inversion Hex as [? ? Hhead|? ? Htail]; subst; [lia | exact Htail].
    + apply IH. inversion Hex as [? ? Hhead|? ? Htail]; subst; [lia | exact Htail].
Qed.

End LongSeries.

(** X15.  The curves of [plot_prediction_full].  The loop over the nine
    steps raises ([IndexError], or [ValueError] before it gets there)
    whenever there are fewer than nine prediction series.  With nine or more
    series, each at least as long as the time axis of [n] slots (no time
    twice), and a factor of at least 1: with at most one slot it draws
    nothing;
    with 2 to 11 slots it raises [ValueError], since some step is left with
    two or three times and the cubic interpolation needs four; with 12
    slots or more it draws one curve for each of the nine steps, in order:
    the curve of step [i] runs over the times from [i] on and takes the
    first [n - i] values of series [i], so its times and values have the
    same length, and it is sampled on [(n - i) * fine_grained_factor]
    points. *)
Theorem prediction_curves_need_nine_series {A} (t : list Z)
    (y_preds : list (list A)) (factor : Z) :
  ((List.length y_preds < 9)%nat ->
   exists e,
     prediction_curves t y_preds factor (seq 0 9) = Raised e /\
     (e = IndexError \/ e = ValueError)) /\
  ((9 <= List.length y_preds)%nat ->
   Forall (fun y => (List.length t <= List.length y)%nat) y_preds ->
   1 <= factor -> NoDup t ->
   ((List.length t <= 1)%nat ->
    prediction_curves t y_preds factor (seq 0 9) = Returned []) /\
   ((2 <= List.length t <= 11)%nat ->
    prediction_curves t y_preds factor (seq 0 9) = Raised ValueError) /\
   ((12 <= List.length t)%nat ->
    exists curves,
      prediction_curves t y_preds factor (seq 0 9) = Returned curves /\
      Forall2 (fun i c =>
                 shifted_t c = skipn i t /\
                 (exists y, nth_error y_preds i = Some y /\
                            shifted_y c = firstn (List.length t - i) y) /\
                 List.length (shifted_y c) = List.length (shifted_t c) /\
                 (4 <= List.length (shifted_t c))%nat /\
                 n_fine c = Z.of_nat (List.length t - i) * factor)
              (seq 0 9) curves)).
Proof.
  split.
  - intros Hlt.
    destruct (prediction_curves_missing_series t y_preds factor (seq 0 9))
      as [e He].
    { apply Exists_exists. exists (List.length y_preds).
      split; [apply in_seq; lia | lia]. }
    exists e. split; [exact He|].
    eapply prediction_curves_raised. exact He.
  - intros Hge Hlong Hfactor1 Hnodup.
    assert (Hfactor : 0 <= factor) by lia.
    assert (Hsteps : Forall (fun i => (i < List.length y_preds)%nat) (seq 0 9)).
    { apply Forall_forall. intros i Hi. apply in_seq in Hi. lia. }
    split; [|split].
    + intros H1. now apply prediction_curves_none_drawn.
    + intros H2. apply prediction_curves_value_error; try assumption.
      apply Exists_exists. exists (List.length t - 3)%nat.
      split; [apply in_seq; lia | lia].
    + intros H12. apply prediction_curves_drawn; try assumption.
      apply Forall_forall. intros i Hi. apply in_seq in Hi. lia.
Qed.

Lemma prediction_curves_need_nine_series_witness :
  (exists e,
     prediction_curves [0; 1; 2; 3] [[1; 2; 3; 4]; [5; 6; 7; 8]] 10 (seq 0 9)
     = Raised e /\ (e = IndexError \/ e = ValueError)) /\
  prediction_curves [0; 1; 2]
    [[1; 2; 3]; [4; 5; 6]; [7; 8; 9]; [1; 2; 3]; [4; 5; 6]; [7; 8; 9];
     [1; 2; 3]; [4; 5; 6]; [7; 8; 9]] 10 (seq 0 9)
  = Raised ValueError /\
  exists curves,
    prediction_curves (Py.range 0 12) (repeat (Py.range 100 112) 9) 10 (seq 0 9)
    = Returned curves /\ List.length curves = 9%nat.
Proof.
  split; [|split].
  - apply (proj1 (@prediction_curves_need_nine_series Z [0; 1; 2; 3]
                    [[1; 2; 3; 4]; [5; 6; 7; 8]] 10)).
    cbn. lia.
  - apply (proj2 (@prediction_curves_need_nine_series Z [0; 1; 2]
                    [[1; 2; 3]; [4; 5; 6]; [7; 8; 9]; [1; 2; 3]; [4; 5; 6];
                     [7; 8; 9]; [1; 2; 3]; [4; 5; 6]; [7; 8; 9]] 10));
      [cbn; lia | repeat constructor | lia | apply (NoDup_range 0 3)
       | cbn; lia].
  - destruct (proj2 (@prediction_curves_need_nine_series Z (Py.range 0 12)
                (repeat (Py.range 100 112) 9) 10))
      as (_ & _ & H).
    + cbn. lia.
    + repeat constructor.
    + lia.
    + apply NoDup_range.
    + destruct H as (curves & Hrun & HF); [rewrite range_length; lia|].
      exists curves. split; [exact Hrun|].
      apply Forall2_length in HF. now rewrite <- HF.
Defined.

(** X16.  A whole call of [plot_prediction_full] up to its curves (lines
    66-100).  With a positive SLOTS_PER_DAY, a [num_days] that is [None] or
    not negative, nine or more prediction series as long as the truth and a
    factor of at least 1, and with [n] the number of slots shown:
    with fewer than 12 slots the call raises [ValueError] (the truth needs
    four points for its cubic interpolation, and so does the curve of every
    step, the last of which starts eight slots in); with 12 slots or more
    the window is cut and the truth and all nine curves are drawn, the
    times and the values of every curve having the same length. *)
Theorem plot_prediction_full_needs_twelve_slots {A} (y_truth : list A)
    (y_preds : list (list A)) (spd factor : Z) (num_days : option Z) :
  0 < spd ->
  (forall d, num_days = Some d -> 0 <= d) ->
  (9 <= List.length y_preds)%nat ->
  Forall (fun y => List.length y = List.length y_truth) y_preds ->
  1 <= factor ->
  let n := shown_days (Z.of_nat (List.length y_truth)) spd num_days * spd in
  (n < 12 ->
   plot_prediction_full_curves y_truth y_preds spd num_days factor
   = Raised ValueError) /\
  (12 <= n ->
   exists p curves,
     plot_prediction_full y_truth y_preds spd num_days = Some p /\
     plot_prediction_full_curves y_truth y_preds spd num_days factor
     = Returned (p, curves) /\
     List.length curves = 9%nat /\
     Forall (fun c => List.length (shifted_y c) = List.length (shifted_t c)
                      /\ (4 <= List.length (shifted_t c))%nat) curves).
Proof.
  intros Hs Hd H9 Hlen Hfactor1 n.
  assert (Hfactor : 0 <= factor) by lia.
  pose proof (shown_days_bounds (Z.of_nat (List.length y_truth)) spd num_days Hs
                (Nat2Z.is_nonneg _) Hd) as Hb.
  fold n in Hb.
  assert (Hne : (spd =? 0) = false) by (apply Z.eqb_neq; lia).
  unfold plot_prediction_full_curves, plot_prediction_full, floordiv.
  rewrite Hne, clamp_is_shown_days. cbn [t truth preds days]. fold n.
  assert (Hlin : linspace (n * factor) = None).
  { unfold linspace. destruct (Z.ltb_spec (n * factor) 0); [nia | reflexivity]. }
  rewrite Hlin.
  assert (Ht : List.length (range 0 n) = Z.to_nat n)
    by (rewrite range_length; f_equal; lia).
  assert (Htruth : List.length (slice_to y_truth n) = Z.to_nat n)
    by (pose proof (slice_to_length y_truth n ltac:(lia)); lia).
  assert (Hsteps : Forall (fun i => (i < List.length
                                           (map (fun y => slice_to y n) y_preds))%nat)
                          (seq 0 9)).
  { apply Forall_forall. intros i Hi. apply in_seq in Hi.
    rewrite length_map. lia. }
  assert (Hlong : Forall (fun y => (List.length (range 0 n) <= List.length y)%nat)
                         (map (fun y => slice_to y n) y_preds)).
  { apply Forall_map. revert Hlen. apply Forall_impl. intros y Hy.
    rewrite Ht.
    pose proof (slice_to_length y n ltac:(rewrite Hy; lia)). lia. }
  assert (Hinterp : interp1d_cubic (range 0 n) (slice_to y_truth n)
                    = if (4 <=? Z.to_nat n)%nat then None else Some ValueError).
  { unfold interp1d_cubic.
    rewrite (distinct_NoDup (range 0 n)) by apply NoDup_range.
    now rewrite Ht, Htruth, Nat.eqb_refl, andb_true_r. }
  rewrite Hinterp.
  split.
  - intros Hn. destruct (Nat.leb_spec 4 (Z.to_nat n)) as [H4|H4]; [|reflexivity].
    rewrite (prediction_curves_value_error (range 0 n) _ factor Hfactor
               (NoDup_range 0 n) Hlong);
      [reflexivity | exact Hsteps|].
    apply Exists_exists. exists (Z.to_nat n - 3)%nat.
    split; [apply in_seq; lia | rewrite Ht; lia].
  - intros Hn. destruct (Nat.leb_spec 4 (Z.to_nat n)) as [H4|H4]; [|lia].
    destruct (prediction_curves_drawn (range 0 n) _ factor Hfactor
                (NoDup_range 0 n) Hlong (seq 0 9)) as (curves & Hrun & HF).
    { apply Forall_forall. intros i Hi. split.
      - eapply Forall_forall in Hsteps; [exact Hsteps | exact Hi].
      - apply in_seq in Hi. rewrite Ht. lia. }
    rewrite Hrun. eexists. exists curves.
    split; [reflexivity|]. split; [reflexivity|]. split.
    + apply Forall2_length in HF. now rewrite <- HF.
    + clear Hrun Hsteps. revert HF. generalize (seq 0 9). intros l HF.
      induction HF as [|i c l cs Hc _ IH]; constructor; [tauto | exact IH].
Qed.

Lemma plot_prediction_full_needs_twelve_slots_witness :
  plot_prediction_full_curves [1; 2; 3; 4; 5; 6; 7]
    (repeat [7; 6; 5; 4; 3; 2; 1] 9) 3 (Some 1) 10
  = Raised ValueError /\
  exists p curves,
    plot_prediction_full_curves (Py.range 0 13) (repeat (Py.range 100 113) 9)
                                6 (Some 2) 10
    = Returned (p, curves) /\
    List.length curves = 9%nat.
Proof.
  split.
  - apply (proj1 (@plot_prediction_full_needs_twelve_slots Z [1; 2; 3; 4; 5; 6; 7]
                    (repeat [7; 6; 5; 4; 3; 2; 1] 9) 3 10 (Some 1)
                    ltac:(lia) ltac:(intros d [= <-]; lia) ltac:(cbn; lia)
                    ltac:(repeat constructor) ltac:(lia))).
    vm_compute. reflexivity.
  - destruct (proj2 (@plot_prediction_full_needs_twelve_slots Z (Py.range 0 13)
                (repeat (Py.range 100 113) 9) 6 10 (Some 2)
                ltac:(lia) ltac:(intros d [= <-]; lia) ltac:(cbn; lia)
                ltac:(repeat constructor) ltac:(lia)))
      as (p & curves & _ & Hc & Hn & _).
    + vm_compute. discriminate.
    + exists p, curves. split; assumption.
Defined.

End SeriesFacts.
